(** * Viral content tracker: job orchestration, ingestion and transcription

    A shallow embedding of [app/models.py], [app/services/apify.py],
    [app/services/sheets.py], [app/services/transcription.py] and
    [app/routers/jobs.py], and the properties of the scrape-job and
    transcription state machines proved over it.

    Conventions of the embedding:
    - a Python call that may raise returns [result A]; the text carried by
      [Raise] is [str(e)];
    - the background tasks run in the state-and-exception monad [M] over
      [World]; [try_except] is Python's [try: ... except Exception as e:];
    - the external collaborators (Apify, yt-dlp, Whisper, gspread, and the
      failure of a database read) are the fields of [Env]: during one run an
      external call is a function of its arguments, and every run takes its
      own [Env], so the collaborators may answer differently from one run to
      the next. *)

From Stdlib Require Import ZArith List String Ascii Bool Lia DecimalString.
From Stdlib Require Import Permutation Sorted.
Import ListNotations.

Local Open Scope string_scope.
Local Open Scope Z_scope.

(** ** Results of calls that may raise *)

Definition Exception := string.

Inductive result (A : Type) : Type :=
| Ok (a : A)
| Raise (e : Exception).

Arguments Ok {A} a.
Arguments Raise {A} e.

Definition is_ok {A} (r : result A) : bool :=
  match r with Ok _ => true | Raise _ => false end.

Definition rbind {A B} (r : result A) (k : A -> result B) : result B :=
  match r with Ok a => k a | Raise e => Raise e end.

(** [[f(x) for x in l]] where [f] may raise: stops at the first exception. *)
Fixpoint rmap {A B} (f : A -> result B) (l : list A) : result (list B) :=
  match l with
  | [] => Ok []
  | x :: t => rbind (f x) (fun y => rbind (rmap f t) (fun ys => Ok (y :: ys)))
  end.

(** ** Python values found in the provider's JSON items *)

Inductive Atom : Type :=
| ANone
| ABool (b : bool)
| AInt (n : Z)
| AStr (s : string).

(** A value held by an item is a scalar or (as [authorMeta]) a dict of
    scalars. *)
Inductive Value : Type :=
| Scalar (v : Atom)
| Dict (d : list (string * Atom)).

Definition Item := list (string * Value).

Definition Atom_eqb (a b : Atom) : bool :=
  match a, b with
  | ANone, ANone => true
  | ABool x, ABool y => Bool.eqb x y
  | AInt x, AInt y => Z.eqb x y
  | AStr x, AStr y => String.eqb x y
  | _, _ => false
  end.

Fixpoint assoc {A} (k : string) (d : list (string * A)) : option A :=
  match d with
  | [] => None
  | (k', v) :: t => if String.eqb k k' then Some v else assoc k t
  end.

(** [bool(v)] *)
Definition truthy (a : Atom) : bool :=
  match a with
  | ANone => false
  | ABool b => b
  | AInt n => negb (Z.eqb n 0)
  | AStr s => negb (String.eqb s "")
  end.

Definition value_truthy (v : Value) : bool :=
  match v with
  | Scalar a => truthy a
  | Dict d => match d with [] => false | _ => true end
  end.

(** [item.get(k)] and [item.get(k, default)] *)
Definition dict_get {A} (d : list (string * A)) (k : string) (default : A) : A :=
  match assoc k d with Some v => v | None => default end.

Definition item_get (item : Item) (k : string) : Value :=
  dict_get item k (Scalar ANone).

(** [a or b] *)
Definition py_or (a b : Value) : Value := if value_truthy a then a else b.

(** [str(v)], as used by an f-string. *)
Definition py_str (a : Atom) : string :=
  match a with
  | ANone => "None"
  | ABool true => "True"
  | ABool false => "False"
  | AInt n => NilZero.string_of_int (Z.to_int n)
  | AStr s => s
  end.

(** [x >= n] for an integer [n]: integers and booleans compare, anything
    else raises [TypeError]. *)
Definition py_ge_int (v : Value) (n : Z) : result bool :=
  match v with
  | Scalar (AInt x) => Ok (Z.geb x n)
  | Scalar (ABool b) => Ok (Z.geb (Z.b2z b) n)
  | _ => Raise "TypeError: '>=' not supported"
  end.

(** The integer a sort key stands for. *)
Definition int_of_value (v : Value) : Z :=
  match v with
  | Scalar (AInt x) => x
  | Scalar (ABool b) => Z.b2z b
  | _ => 0
  end.

(** [d.get(k)] on a value that should be a dict: [AttributeError] on
    anything that has no [get]. *)
Definition value_get (v : Value) (k : string) : result Value :=
  match v with
  | Dict d => Ok (Scalar (dict_get d k ANone))
  | Scalar _ => Raise "AttributeError: object has no attribute 'get'"
  end.

(** ** Python string methods (on ASCII text)

    A [string] is a sequence of bytes.  On ASCII text the definitions of
    this section are the methods of Python: the white space of [str.strip]
    below 128 is the characters 9 to 13 and 28 to 32, [str.lower] and
    [str.capitalize] change the letters A-Z and a-z only, and [len] and the
    slices count characters, which are bytes.  On other text Python works on
    characters that the bytes do not show; a statement about the text itself
    takes it to be ASCII ([is_ascii]). *)

Fixpoint is_ascii (s : string) : bool :=
  match s with
  | EmptyString => true
  | String c t => ((nat_of_ascii c <? 128)%nat && is_ascii t)%bool
  end.

(** The white space of [str.strip] among the ASCII characters. *)
Definition is_space (c : ascii) : bool :=
  let n := nat_of_ascii c in
  ((9 <=? n) && (n <=? 13) || (28 <=? n) && (n <=? 32))%nat.

Definition lower_ascii (c : ascii) : ascii :=
  let n := nat_of_ascii c in
  if ((65 <=? n) && (n <=? 90))%nat then ascii_of_nat (n + 32) else c.

Definition upper_ascii (c : ascii) : ascii :=
  let n := nat_of_ascii c in
  if ((97 <=? n) && (n <=? 122))%nat then ascii_of_nat (n - 32) else c.

Fixpoint str_map (f : ascii -> ascii) (s : string) : string :=
  match s with
  | EmptyString => EmptyString
  | String c t => String (f c) (str_map f t)
  end.

(** [s.lower()], on ASCII text. *)
Definition lower (s : string) : string := str_map lower_ascii s.

(** [s.capitalize()] *)
Definition capitalize (s : string) : string :=
  match s with
  | EmptyString => EmptyString
  | String c t => String (upper_ascii c) (lower t)
  end.

(** [s.replace(c, r)] for a one-character pattern [c]. *)
Fixpoint replace_char (c : ascii) (r : string) (s : string) : string :=
  match s with
  | EmptyString => EmptyString
  | String x t =>
      if Ascii.eqb x c then r ++ replace_char c r t
      else String x (replace_char c r t)
  end.

Fixpoint lstrip (s : string) : string :=
  match s with
  | EmptyString => EmptyString
  | String c t => if is_space c then lstrip t else s
  end.

Fixpoint rstrip (s : string) : string :=
  match s with
  | EmptyString => EmptyString
  | String c t =>
      match rstrip t with
      | EmptyString => if is_space c then EmptyString else String c EmptyString
      | t' => String c t'
      end
  end.

(** [s.strip()] *)
Definition strip (s : string) : string := rstrip (lstrip s).

(** [sep.join(l)] *)
Definition join (sep : string) (l : list string) : string := String.concat sep l.

(** [l[:n]] for a Python integer [n] (a negative [n] counts from the end). *)
Definition slice_to {A} (n : Z) (l : list A) : list A :=
  if n <? 0 then firstn (Z.to_nat (Z.of_nat (List.length l) + n)) l
  else firstn (Z.to_nat n) l.

(** [s[:n]] for a nonnegative [n]. *)
Definition str_prefix (n : nat) (s : string) : string := substring 0 n s.

Definition dict_eqb (d1 d2 : list (string * Atom)) : bool :=
  (Nat.eqb (List.length d1) (List.length d2) &&
   forallb (fun p => String.eqb (fst (fst p)) (fst (snd p)) &&
                     Atom_eqb (snd (fst p)) (snd (snd p)))
           (combine d1 d2))%bool.

(** [a == b] on values, compared structurally. *)
Definition Value_eqb (a b : Value) : bool :=
  match a, b with
  | Scalar x, Scalar y => Atom_eqb x y
  | Dict x, Dict y => dict_eqb x y
  | _, _ => false
  end.

(** [v is None] *)
Definition is_none (v : Value) : bool :=
  match v with Scalar ANone => true | _ => false end.

(** [d[k]] on the dict returned by the provider. *)
Definition subscript (v : Value) (k : string) : result Value :=
  match v with
  | Dict d =>
      match assoc k d with
      | Some a => Ok (Scalar a)
      | None => Raise "KeyError"
      end
  | Scalar _ => Raise "TypeError: object is not subscriptable"
  end.

(** ** The data model ([app/models.py]) *)

Inductive PlatformEnum : Type := TIKTOK | INSTAGRAM | YOUTUBE.

Definition platform_value (p : PlatformEnum) : string :=
  match p with
  | TIKTOK => "tiktok"
  | INSTAGRAM => "instagram"
  | YOUTUBE => "youtube"
  end.

Definition PlatformEnum_eqb (a b : PlatformEnum) : bool :=
  match a, b with
  | TIKTOK, TIKTOK | INSTAGRAM, INSTAGRAM | YOUTUBE, YOUTUBE => true
  | _, _ => false
  end.

Inductive JobStatusEnum : Type := PENDING | RUNNING | COMPLETED | FAILED.

Definition JobStatusEnum_eqb (a b : JobStatusEnum) : bool :=
  match a, b with
  | PENDING, PENDING | RUNNING, RUNNING
  | COMPLETED, COMPLETED | FAILED, FAILED => true
  | _, _ => false
  end.


(** Timestamps are kept abstract. *)
Definition datetime := Z.

Record User : Type := {
  u_id : Z;
  u_google_sheet_id : option string
}.

Record Keyword : Type := {
  k_id : Z;
  k_user_id : Z;
  k_keyword : string;
  k_platform : PlatformEnum;
  k_is_active : bool;
  k_results_per_run : Z
}.

Record Video : Type := {
  v_id : Z;
  v_user_id : Z;
  v_keyword_id : Z;
  v_platform : PlatformEnum;
  v_video_url : Value;
  v_video_id : Value;
  v_author_username : Value;
  v_author_name : Value;
  v_description : Value;
  v_likes : Value;
  v_comments : Value;
  v_shares : Value;
  v_views : Value;
  v_transcription : option string;
  v_transcription_status : string;
  v_posted_at : option datetime;
  v_scraped_at : datetime
}.

Record ScrapeJob : Type := {
  j_id : Z;
  j_user_id : Z;
  j_status : JobStatusEnum;
  j_platform : option PlatformEnum;
  j_keywords_processed : Z;
  j_videos_found : Z;
  j_videos_transcribed : Z;
  j_error_message : option string;
  j_started_at : option datetime;
  j_completed_at : option datetime;
  j_created_at : datetime
}.

Record UserSettings : Type := {
  s_user_id : Z;
  s_min_likes : Z;
  s_min_views : Z;
  s_date_filter : string
}.

(** The dict a scraper builds for one accepted item ([video_data]); its
    keys are fixed by the scrapers, so it is a record here. *)
Record VideoData : Type := {
  vd_platform : PlatformEnum;
  vd_video_url : Value;
  vd_video_id : Value;
  vd_author_username : Value;
  vd_author_name : Value;
  vd_description : Value;
  vd_likes : Value;
  vd_comments : Value;
  vd_shares : Value;
  vd_views : Value;
  vd_posted_at : option datetime
}.

(** ** The external collaborators *)

(** The values of an actor's [run_input]. *)
Inductive InputValue : Type :=
| IStr (s : string)
| IInt (n : Z)
| IBool (b : bool)
| IList (l : list string).

Definition RunInput := list (string * InputValue).

(** A row sent to the spreadsheet. *)
Definition Row := list Value.

(** The database reads of the two background tasks, each of which may
    raise. *)
Inductive DbRead : Type :=
| ReadJob (job_id : Z)
| ReadUser (user_id : Z)
| ReadSettings (user_id : Z)
| ReadKeywords (user_id : Z)
| ReadExisting (url : Value)
| ReadVideo (video_id : Z)
| ReadOwner (user_id : Z).

(** The gspread client: [self.client] is set; [open_by_key]; [worksheet];
    [append_rows]; [find] (the row of the cell found); [update]. *)
Record Gspread : Type := {
  sheets_client : bool;
  open_by_key : string -> result unit;
  worksheet : string -> string -> result unit;
  append_rows : string -> string -> list Row -> result unit;
  find : string -> string -> Value -> result (option Z);
  update : string -> string -> string * Z -> Value -> result unit
}.

Record Env : Type := {
  (** [client.actor(id).call(run_input=...)] *)
  actor_call : string -> RunInput -> result Value;
  (** [client.dataset(id).iterate_items()] *)
  iterate_items : Value -> result (list Item);
  (** [datetime.fromtimestamp], [datetime.fromisoformat], [strftime],
      and [str] of a dict *)
  fromtimestamp : Value -> result datetime;
  fromisoformat : string -> result datetime;
  strftime : datetime -> string;
  repr_dict : list (string * Atom) -> string;
  (** the text of a platform in an f-string (its value or its qualified
      name, by the version of Python) *)
  format_platform : PlatformEnum -> string;
  (** a database read that raises, with the text of the exception *)
  db_fault : DbRead -> option Exception;
  (** [ydl.download([url])]: the files left in the temporary directory
      (a download that raises leaves none) *)
  ydl_download : Value -> result (list string);
  (** [model.transcribe(audio_path, ...)]: the text of the segments *)
  whisper_transcribe : Value -> string -> result (list string);
  (** the spreadsheet mirror *)
  gspread : Gspread
}.

(** [str(v)] of any value. *)
Definition py_str_value (env : Env) (v : Value) : string :=
  match v with
  | Scalar a => py_str a
  | Dict d => repr_dict env d
  end.

(** ** The Apify service ([app/services/apify.py]) *)

(** [videos.sort(key=lambda x: x["likes"], reverse=True)]: a stable sort,
    larger keys first. *)
Fixpoint insert_by_likes (x : VideoData) (l : list VideoData) : list VideoData :=
  match l with
  | [] => [x]
  | y :: t =>
      if int_of_value (vd_likes x) >=? int_of_value (vd_likes y)
      then x :: y :: t
      else y :: insert_by_likes x t
  end.

Fixpoint sort_by_likes (l : list VideoData) : list VideoData :=
  match l with
  | [] => []
  | x :: t => insert_by_likes x (sort_by_likes t)
  end.

(** [item.get('authorMeta', {}).get(k)] *)
Definition author_meta (item : Item) (k : string) : result Value :=
  value_get (dict_get item "authorMeta" (Dict [])) k.

(** The request of [scrape_tiktok]: the actor and its [run_input]. *)
Definition tiktok_request (keyword : string) (max_results min_likes : Z)
    (date_filter : string) : string * RunInput :=
  ("clockworks/free-tiktok-scraper",
   [("searchQueries", IList [keyword]);
    ("resultsPerPage", IInt (max_results * 2));
    ("searchSection", IStr "video");
    ("maxProfilesPerQuery", IInt 0);
    ("shouldDownloadVideos", IBool false);
    ("shouldDownloadCovers", IBool false)]).

Definition tiktok_video_data (env : Env) (item : Item) : result VideoData :=
  rbind (let w := item_get item "webVideoUrl" in
         if value_truthy w then Ok w
         else rbind (author_meta item "name") (fun name =>
              Ok (Scalar (AStr ("https://www.tiktok.com/@" ++ py_str_value env name
                                ++ "/video/" ++ py_str_value env (item_get item "id"))))))
    (fun url =>
  rbind (author_meta item "name") (fun username =>
  rbind (author_meta item "nickName") (fun nick =>
  rbind (if value_truthy (item_get item "createTime")
         then rbind (fromtimestamp env (dict_get item "createTime" (Scalar (AInt 0))))
                    (fun t => Ok (Some t))
         else Ok None) (fun posted =>
  Ok {| vd_platform := TIKTOK;
        vd_video_url := url;
        vd_video_id := item_get item "id";
        vd_author_username := username;
        vd_author_name := nick;
        vd_description := item_get item "text";
        vd_likes := dict_get item "diggCount" (Scalar (AInt 0));
        vd_comments := dict_get item "commentCount" (Scalar (AInt 0));
        vd_shares := dict_get item "shareCount" (Scalar (AInt 0));
        vd_views := dict_get item "playCount" (Scalar (AInt 0));
        vd_posted_at := posted |})))).

Fixpoint tiktok_collect (env : Env) (min_likes : Z) (items : list Item)
    : result (list VideoData) :=
  match items with
  | [] => Ok []
  | item :: rest =>
      rbind (py_ge_int (dict_get item "diggCount" (Scalar (AInt 0))) min_likes)
        (fun keep =>
           if keep : bool
           then rbind (tiktok_video_data env item) (fun vd =>
                rbind (tiktok_collect env min_likes rest) (fun vs => Ok (vd :: vs)))
           else tiktok_collect env min_likes rest)
  end.

Definition scrape_tiktok (env : Env) (keyword : string)
    (max_results min_likes : Z) (date_filter : string) : result (list VideoData) :=
  let '(actor, run_input) := tiktok_request keyword max_results min_likes date_filter in
  rbind (actor_call env actor run_input) (fun run =>
  rbind (subscript run "defaultDatasetId") (fun dataset =>
  rbind (iterate_items env dataset) (fun items =>
  rbind (tiktok_collect env min_likes items) (fun videos =>
  Ok (slice_to max_results (sort_by_likes videos)))))).

(** The request of [scrape_instagram]. *)
Definition instagram_request (keyword : string) (max_results min_likes : Z)
    (date_filter : string) : string * RunInput :=
  let hashtag := lower (replace_char " "%char "" keyword) in
  ("apify/instagram-scraper",
   [("hashtags", IList [hashtag]);
    ("resultsLimit", IInt (max_results * 2));
    ("resultsType", IStr "posts");
    ("searchType", IStr "hashtag")]).

Definition instagram_video_data (env : Env) (item : Item) : result VideoData :=
  rbind (let ts := item_get item "timestamp" in
         if value_truthy ts
         then match ts with
              | Scalar (AStr s) =>
                  rbind (fromisoformat env (replace_char "Z"%char "+00:00" s))
                        (fun t => Ok (Some t))
              | _ => Raise "AttributeError: object has no attribute 'replace'"
              end
         else Ok None) (fun posted =>
  Ok {| vd_platform := INSTAGRAM;
        vd_video_url := py_or (item_get item "url") (item_get item "videoUrl");
        vd_video_id := item_get item "id";
        vd_author_username := item_get item "ownerUsername";
        vd_author_name := item_get item "ownerFullName";
        vd_description := item_get item "caption";
        vd_likes := dict_get item "likesCount" (Scalar (AInt 0));
        vd_comments := dict_get item "commentsCount" (Scalar (AInt 0));
        vd_shares := Scalar (AInt 0);
        vd_views := dict_get item "videoViewCount" (Scalar (AInt 0));
        vd_posted_at := posted |}).

Fixpoint instagram_collect (env : Env) (min_likes : Z) (items : list Item)
    : result (list VideoData) :=
  match items with
  | [] => Ok []
  | item :: rest =>
      if (negb (Value_eqb (item_get item "type") (Scalar (AStr "Video")))
          && is_none (item_get item "videoUrl"))%bool
      then instagram_collect env min_likes rest
      else
        rbind (py_ge_int (dict_get item "likesCount" (Scalar (AInt 0))) min_likes)
          (fun keep =>
             if keep : bool
             then rbind (instagram_video_data env item) (fun vd =>
                  rbind (instagram_collect env min_likes rest) (fun vs => Ok (vd :: vs)))
             else instagram_collect env min_likes rest)
  end.

Definition scrape_instagram (env : Env) (keyword : string)
    (max_results min_likes : Z) (date_filter : string) : result (list VideoData) :=
  let '(actor, run_input) := instagram_request keyword max_results min_likes date_filter in
  rbind (actor_call env actor run_input) (fun run =>
  rbind (subscript run "defaultDatasetId") (fun dataset =>
  rbind (iterate_items env dataset) (fun items =>
  rbind (instagram_collect env min_likes items) (fun videos =>
  Ok (slice_to max_results (sort_by_likes videos)))))).

(** [scrape_by_platform]: route to the scraper of the platform. *)
Definition scrape_by_platform (env : Env) (platform : PlatformEnum)
    (keyword : string) (max_results min_likes : Z) (date_filter : string)
    : result (list VideoData) :=
  match platform with
  | TIKTOK => scrape_tiktok env keyword max_results min_likes date_filter
  | INSTAGRAM => scrape_instagram env keyword max_results min_likes date_filter
  | YOUTUBE => Raise ("Unsupported platform: " ++ format_platform env platform)
  end.

(** ** The store and the state of the world *)

Record Store : Type := {
  users : list User;
  keywords : list Keyword;
  videos : list Video;
  jobs : list ScrapeJob;
  user_settings : list UserSettings
}.

(** [status_writes] is a ghost field: every assignment to [job.status], in
    order, with the id of the job. *)
Record World : Type := {
  db : Store;
  clock : datetime;
  status_writes : list (Z * JobStatusEnum)
}.

(** The state-and-exception monad of the background tasks. *)
Definition M (A : Type) : Type := World -> result A * World.

Definition ret {A} (a : A) : M A := fun w => (Ok a, w).

Definition bind {A B} (m : M A) (k : A -> M B) : M B :=
  fun w => match m w with
           | (Ok a, w') => k a w'
           | (Raise e, w') => (Raise e, w')
           end.

Definition raise {A} (e : Exception) : M A := fun w => (Raise e, w).

Definition lift {A} (r : result A) : M A := fun w => (r, w).

(** [try: m except Exception as e: h e] *)
Definition try_except {A} (m : M A) (h : Exception -> M A) : M A :=
  fun w => match m w with
           | (Ok a, w') => (Ok a, w')
           | (Raise e, w') => h e w'
           end.

Definition get_db : M Store := fun w => (Ok (db w), w).

Definition modify_db (f : Store -> Store) : M unit :=
  fun w => (Ok tt, {| db := f (db w); clock := clock w;
                      status_writes := status_writes w |}).

(** [datetime.utcnow()] *)
Definition utcnow : M datetime := fun w => (Ok (clock w), w).

Declare Scope monad_scope.
Delimit Scope monad_scope with monad.
Notation "x <- m ;; k" := (bind m (fun x => k))
  (at level 61, m at next level, right associativity) : monad_scope.
Notation "m ;; k" := (bind m (fun _ => k))
  (at level 61, right associativity) : monad_scope.
Local Open Scope monad_scope.

(** A database read: raises when the environment says so. *)
Definition db_read {A} (env : Env) (r : DbRead) (q : Store -> A) : M A :=
  match db_fault env r with
  | Some e => raise e
  | None => s <- get_db ;; ret (q s)
  end.

(** [query.first()] *)
Definition first {A} (p : A -> bool) (l : list A) : option A := List.find p l.

(** A primary key for a new row. *)
Definition fresh_id (ids : list Z) : Z := 1 + fold_right Z.max 0 ids.

Definition set_videos (f : list Video -> list Video) (s : Store) : Store :=
  {| users := users s; keywords := keywords s; videos := f (videos s);
     jobs := jobs s; user_settings := user_settings s |}.

Definition set_jobs (f : list ScrapeJob -> list ScrapeJob) (s : Store) : Store :=
  {| users := users s; keywords := keywords s; videos := videos s;
     jobs := f (jobs s); user_settings := user_settings s |}.

(** Assignments to the attributes of the row with a given primary key. *)
Definition update_job (job_id : Z) (f : ScrapeJob -> ScrapeJob) : M unit :=
  modify_db (set_jobs (map (fun j => if j_id j =? job_id then f j else j))).

Definition update_video (video_id : Z) (f : Video -> Video) : M unit :=
  modify_db (set_videos (map (fun v => if v_id v =? video_id then f v else v))).

Definition write_status (job_id : Z) (st : JobStatusEnum) : M unit :=
  fun w => (Ok tt, {| db := db w; clock := clock w;
                      status_writes := (status_writes w ++ [(job_id, st)])%list |}).

(** ** The spreadsheet mirror ([app/services/sheets.py]) *)

(** [platform.value.capitalize()] *)
Definition worksheet_name (p : PlatformEnum) : string := capitalize (platform_value p).

(** [len(v)]; the length of a string is its number of characters when the
    string is ASCII. *)
Definition py_len (v : Value) : result nat :=
  match v with
  | Scalar (AStr s) => Ok (String.length s)
  | Dict d => Ok (List.length d)
  | Scalar _ => Raise "TypeError: object has no len()"
  end.

(** [v[:200] + "..."], on ASCII text. *)
Definition truncate_200 (v : Value) : result Value :=
  match v with
  | Scalar (AStr s) => Ok (Scalar (AStr (str_prefix 200 s ++ "...")))
  | _ => Raise "TypeError"
  end.

(** One row of [add_videos_batch]. *)
Definition batch_row (now keyword : string) (video : VideoData) : result Row :=
  let description := py_or (vd_description video) (Scalar (AStr "")) in
  rbind (py_len description) (fun n =>
  rbind (if (200 <? n)%nat then truncate_200 description else Ok description)
    (fun description =>
  Ok [Scalar (AStr now);
      Scalar (AStr keyword);
      vd_video_url video;
      vd_author_username video;
      description;
      vd_likes video;
      vd_comments video;
      vd_shares video;
      vd_views video;
      Scalar (AStr "");
      Scalar (AStr "pending")])).

(** [self.client.open_by_key(sheet_id).worksheet(worksheet_name)];
    [self.client] is [None] when the service could not log in. *)
Definition open_worksheet (env : Env) (sheet_id name : string) : M unit :=
  (if sheets_client (gspread env) then ret tt
   else raise "AttributeError: 'NoneType' object has no attribute 'open_by_key'") ;;
  lift (open_by_key (gspread env) sheet_id) ;;
  lift (worksheet (gspread env) sheet_id name).

Definition add_videos_batch (env : Env) (sheet_id : string)
    (videos : list VideoData) (platform : PlatformEnum) (keyword : string) : M Z :=
  try_except
    (let name := worksheet_name platform in
     open_worksheet env sheet_id name ;;
     now <- utcnow ;;
     rows <- lift (rmap (batch_row (strftime env now) keyword) videos) ;;
     match rows with
     | [] => ret tt
     | _ => lift (append_rows (gspread env) sheet_id name rows)
     end ;;
     ret (Z.of_nat (List.length rows)))
    (fun _ => ret 0).

Definition update_transcription_in_sheet (env : Env) (sheet_id : string)
    (video_url : Value) (platform : PlatformEnum) (transcription status : string)
    : M bool :=
  try_except
    (let name := worksheet_name platform in
     open_worksheet env sheet_id name ;;
     cell <- lift (find (gspread env) sheet_id name video_url) ;;
     match cell with
     | Some row_num =>
         lift (update (gspread env) sheet_id name ("J", row_num) (Scalar (AStr transcription))) ;;
         lift (update (gspread env) sheet_id name ("K", row_num) (Scalar (AStr status))) ;;
         ret true
     | None => ret false
     end)
    (fun _ => ret false).

(** ** The transcription service ([app/services/transcription.py]) *)

(** The temporary directory is fresh, so the files in it are those the
    download leaves there; [output_path] is its file [audio]. *)
Definition exists_in (files : list string) (name : string) : bool :=
  existsb (String.eqb name) files.

Definition download_audio (env : Env) (video_url : Value) : result string :=
  rbind (ydl_download env video_url) (fun files =>
    if exists_in files "audio.mp3" then Ok "audio.mp3"
    else
      match List.find (fun ext => exists_in files ("audio" ++ ext))
                      [".mp3"; ".m4a"; ".webm"; ".mp4"] with
      | Some ext => Ok ("audio" ++ ext)
      | None => Raise "Downloaded audio file not found"
      end).

Definition transcribe_audio (env : Env) (video_url : Value) (audio_path : string)
    : result string :=
  rbind (whisper_transcribe env video_url audio_path) (fun segments =>
    Ok (strip (join " " (map strip segments)))).

(** [transcribe_video]: the [finally] block removes the audio file and
    then the directory, and [os.rmdir] raises when the directory still holds
    a file. *)
Definition transcribe_video (env : Env) (video_url : Value) : result string :=
  let audio_path := download_audio env video_url in
  let body := rbind audio_path (transcribe_audio env video_url) in
  let files := match ydl_download env video_url with Ok fs => fs | Raise _ => [] end in
  let left := match audio_path with
              | Ok p => filter (fun f => negb (String.eqb f p)) files
              | Raise _ => files
              end in
  match left with
  | [] => body
  | _ => Raise "OSError: Directory not empty"
  end.

(** ** The background tasks ([app/routers/jobs.py]) *)

(** Modelled from the spec: the session factory [app/database.py] is not
    among the sources.  Following the spec's persistent store (a lookup by
    source URL has global scope, and a row is stored when it is added), an
    assignment to a loaded row and [db.add] act on the store at once, a
    query sees every row added so far, and [db.commit] has nothing left to
    do.

    The store does not check the constraints of the columns, and its writes
    do not raise.  In the code a row that the table refuses ([video_url] is
    declared [nullable=False] in [app/models.py], and [scrape_instagram] can
    return a candidate without URL) makes the flush raise; [run_scrape_job]
    never rolls the session back, so every later use of it raises as well,
    the commits of lines 112 and 118 included, and the run ends with an
    exception and its job as the last commit left it, [RUNNING].  Such runs
    are outside the model: a statement that concludes on how a run ends
    takes the rows of the run to be accepted ([rows_accepted] below). *)
Definition db_add_video (v : Video) : M unit :=
  modify_db (set_videos (fun vs => (vs ++ [v])%list)).



Inductive Outcome : Type := Inserted | Skipped.

(** [db.query(Video).filter(Video.video_url == url).first()] *)
Definition find_by_url (url : Value) (s : Store) : option Video :=
  first (fun v => Value_eqb (v_video_url v) url) (videos s).

(** Lines 73-88: the row built from a candidate. *)
Definition new_video (s : Store) (user_id : Z) (kw : Keyword)
    (video_data : VideoData) (now : datetime) : Video :=
  {| v_id := fresh_id (map v_id (videos s));
     v_user_id := user_id;
     v_keyword_id := k_id kw;
     v_platform := vd_platform video_data;
     v_video_url := vd_video_url video_data;
     v_video_id := vd_video_id video_data;
     v_author_username := vd_author_username video_data;
     v_author_name := vd_author_name video_data;
     v_description := vd_description video_data;
     v_likes := vd_likes video_data;
     v_comments := vd_comments video_data;
     v_shares := vd_shares video_data;
     v_views := vd_views video_data;
     v_transcription := None;
     v_transcription_status := "pending";
     v_posted_at := vd_posted_at video_data;
     v_scraped_at := now |}.

(** Lines 64-90 of [run_scrape_job]: the duplicate check and the insertion
    of one candidate. *)
Definition ingest (env : Env) (user_id : Z) (kw : Keyword) (video_data : VideoData)
    : M Outcome :=
  existing <- db_read env (ReadExisting (vd_video_url video_data))
                (find_by_url (vd_video_url video_data)) ;;
  match existing with
  | Some _ => ret Skipped
  | None =>
      s <- get_db ;;
      now <- utcnow ;;
      db_add_video (new_video s user_id kw video_data now) ;;
      ret Inserted
  end.

(** The loop over [videos_data]; [total_videos] is a local variable, so it
    keeps its value when the loop is left by an exception. *)
Fixpoint ingest_all (env : Env) (user_id : Z) (kw : Keyword)
    (videos_data : list VideoData) (total_videos : Z) (w : World)
    : result unit * Z * World :=
  match videos_data with
  | [] => (Ok tt, total_videos, w)
  | video_data :: rest =>
      match ingest env user_id kw video_data w with
      | (Ok Inserted, w') => ingest_all env user_id kw rest (total_videos + 1) w'
      | (Ok Skipped, w') => ingest_all env user_id kw rest total_videos w'
      | (Raise e, w') => (Raise e, total_videos, w')
      end
  end.

Definition sheet_connected (u : User) : option string :=
  match u_google_sheet_id u with
  | Some s => if String.eqb s "" then None else Some s
  | None => None
  end.

Definition bump_keywords_processed (j : ScrapeJob) : ScrapeJob :=
  {| j_id := j_id j; j_user_id := j_user_id j; j_status := j_status j;
     j_platform := j_platform j;
     j_keywords_processed := j_keywords_processed j + 1;
     j_videos_found := j_videos_found j;
     j_videos_transcribed := j_videos_transcribed j;
     j_error_message := j_error_message j;
     j_started_at := j_started_at j; j_completed_at := j_completed_at j;
     j_created_at := j_created_at j |}.

Definition mark_running (now : datetime) (j : ScrapeJob) : ScrapeJob :=
  {| j_id := j_id j; j_user_id := j_user_id j; j_status := RUNNING;
     j_platform := j_platform j;
     j_keywords_processed := j_keywords_processed j;
     j_videos_found := j_videos_found j;
     j_videos_transcribed := j_videos_transcribed j;
     j_error_message := j_error_message j;
     j_started_at := Some now; j_completed_at := j_completed_at j;
     j_created_at := j_created_at j |}.

Definition mark_completed (total_videos : Z) (now : datetime) (j : ScrapeJob)
    : ScrapeJob :=
  {| j_id := j_id j; j_user_id := j_user_id j; j_status := COMPLETED;
     j_platform := j_platform j;
     j_keywords_processed := j_keywords_processed j;
     j_videos_found := total_videos;
     j_videos_transcribed := j_videos_transcribed j;
     j_error_message := j_error_message j;
     j_started_at := j_started_at j; j_completed_at := Some now;
     j_created_at := j_created_at j |}.

Definition mark_failed (e : Exception) (now : datetime) (j : ScrapeJob) : ScrapeJob :=
  {| j_id := j_id j; j_user_id := j_user_id j; j_status := FAILED;
     j_platform := j_platform j;
     j_keywords_processed := j_keywords_processed j;
     j_videos_found := j_videos_found j;
     j_videos_transcribed := j_videos_transcribed j;
     j_error_message := Some e;
     j_started_at := j_started_at j; j_completed_at := Some now;
     j_created_at := j_created_at j |}.

(** Lines 92-102: the mirror, then [job.keywords_processed += 1]. *)
Definition finish_keyword (env : Env) (job_id : Z) (user : User) (kw : Keyword)
    (videos_data : list VideoData) : M unit :=
  match sheet_connected user with
  | Some sheet_id =>
      add_videos_batch env sheet_id videos_data (k_platform kw) (k_keyword kw) ;;
      ret tt
  | None => ret tt
  end ;;
  update_job job_id bump_keywords_processed.

(** Lines 53-106: one turn of the loop over the keywords, with its own
    [try]/[except] whose handler goes on to the next keyword.  The result is
    the new value of [total_videos]. *)
Definition process_keyword (env : Env) (job_id user_id : Z) (user : User)
    (settings : option UserSettings) (kw : Keyword) (total_videos : Z) : M Z :=
  fun w =>
    match scrape_by_platform env (k_platform kw) (k_keyword kw) (k_results_per_run kw)
            (match settings with Some s => s_min_likes s | None => 1000 end)
            (match settings with Some s => s_date_filter s | None => "this_week" end)
    with
    | Raise _ => (Ok total_videos, w)
    | Ok videos_data =>
        match ingest_all env user_id kw videos_data total_videos w with
        | (Raise _, total, w1) => (Ok total, w1)
        | (Ok _, total, w1) =>
            match finish_keyword env job_id user kw videos_data w1 with
            | (_, w2) => (Ok total, w2)
            end
        end
    end.

Fixpoint scrape_loop (env : Env) (job_id user_id : Z) (user : User)
    (settings : option UserSettings) (kws : list Keyword) (total_videos : Z) : M Z :=
  match kws with
  | [] => ret total_videos
  | kw :: rest =>
      total <- process_keyword env job_id user_id user settings kw total_videos ;;
      scrape_loop env job_id user_id user settings rest total
  end.

(** Lines 40-48: the active keywords of the user, of the job's platform
    when it has one. *)
Definition select_keywords (user_id : Z) (platform : option PlatformEnum)
    (s : Store) : list Keyword :=
  filter (fun k =>
            (k_user_id k =? user_id) && k_is_active k &&
            match platform with
            | Some p => PlatformEnum_eqb (k_platform k) p
            | None => true
            end)%bool
         (keywords s).

Definition find_job (job_id : Z) (s : Store) : option ScrapeJob :=
  first (fun j => j_id j =? job_id) (jobs s).

Definition find_user (user_id : Z) (s : Store) : option User :=
  first (fun u => u_id u =? user_id) (users s).

Definition find_settings (user_id : Z) (s : Store) : option UserSettings :=
  first (fun x => s_user_id x =? user_id) (user_settings s).

(** Lines 34-37. *)
Definition start_job (job_id : Z) : M unit :=
  write_status job_id RUNNING ;;
  now <- utcnow ;;
  update_job job_id (mark_running now).

(** Lines 108-112. *)
Definition complete_job (job_id : Z) (total_videos : Z) : M unit :=
  write_status job_id COMPLETED ;;
  now <- utcnow ;;
  update_job job_id (mark_completed total_videos now).

(** Lines 114-118, the handler of the outer [try]; [job] is the value of
    the local variable of that name. *)
Definition fail_job (job : option ScrapeJob) (e : Exception) : M unit :=
  match job with
  | None => raise "AttributeError: 'NoneType' object has no attribute 'status'"
  | Some j =>
      write_status (j_id j) FAILED ;;
      now <- utcnow ;;
      update_job (j_id j) (mark_failed e now)
  end.

(** The body of the outer [try] after the lookup of the job. *)
Definition scrape_body (env : Env) (job : option ScrapeJob) (user_id : Z)
    (platform : option PlatformEnum) : M unit :=
  user <- db_read env (ReadUser user_id) (find_user user_id) ;;
  settings <- db_read env (ReadSettings user_id) (find_settings user_id) ;;
  match job, user with
  | Some j, Some u =>
      start_job (j_id j) ;;
      kws <- db_read env (ReadKeywords user_id) (select_keywords user_id platform) ;;
      total_videos <- scrape_loop env (j_id j) user_id u settings kws 0 ;;
      complete_job (j_id j) total_videos
  | _, _ => ret tt
  end.

(** [run_scrape_job].  When the lookup of the job itself raises, the
    handler finds [job] unbound and raises in its turn. *)
Definition run_scrape_job (env : Env) (job_id user_id : Z)
    (platform : option PlatformEnum) : M unit :=
  job <- try_except (db_read env (ReadJob job_id) (find_job job_id))
           (fun _ => raise "UnboundLocalError: local variable 'job'") ;;
  try_except (scrape_body env job user_id platform) (fail_job job).

Definition with_transcription_status (st : string) (v : Video) : Video :=
  {| v_id := v_id v; v_user_id := v_user_id v; v_keyword_id := v_keyword_id v;
     v_platform := v_platform v; v_video_url := v_video_url v;
     v_video_id := v_video_id v; v_author_username := v_author_username v;
     v_author_name := v_author_name v; v_description := v_description v;
     v_likes := v_likes v; v_comments := v_comments v; v_shares := v_shares v;
     v_views := v_views v;
     v_transcription := v_transcription v;
     v_transcription_status := st;
     v_posted_at := v_posted_at v; v_scraped_at := v_scraped_at v |}.

Definition with_transcription (t : string) (v : Video) : Video :=
  {| v_id := v_id v; v_user_id := v_user_id v; v_keyword_id := v_keyword_id v;
     v_platform := v_platform v; v_video_url := v_video_url v;
     v_video_id := v_video_id v; v_author_username := v_author_username v;
     v_author_name := v_author_name v; v_description := v_description v;
     v_likes := v_likes v; v_comments := v_comments v; v_shares := v_shares v;
     v_views := v_views v;
     v_transcription := Some t;
     v_transcription_status := v_transcription_status v;
     v_posted_at := v_posted_at v; v_scraped_at := v_scraped_at v |}.

Definition find_video (video_id : Z) (s : Store) : option Video :=
  first (fun v => v_id v =? video_id) (videos s).

(** Lines 144-152: the update of the mirror after a transcription. *)
Definition mirror_transcription (env : Env) (v : Video) (transcription : string)
    : M unit :=
  user <- db_read env (ReadOwner (v_user_id v)) (find_user (v_user_id v)) ;;
  match user with
  | Some u =>
      match sheet_connected u with
      | Some sheet_id =>
          update_transcription_in_sheet env sheet_id (v_video_url v) (v_platform v)
            transcription "completed" ;;
          ret tt
      | None => ret tt
      end
  | None => ret tt
  end.

(** Lines 137-152, after the status has been set to [processing]. *)
Definition transcription_pipeline (env : Env) (v : Video) : M unit :=
  transcription <- lift (transcribe_video env (v_video_url v)) ;;
  update_video (v_id v)
    (fun x => with_transcription_status "completed" (with_transcription transcription x)) ;;
  mirror_transcription env v transcription.

(** The body of the [try] of [run_transcription_job]. *)
Definition transcription_body (env : Env) (video : option Video) : M unit :=
  match video with
  | None => ret tt
  | Some v =>
      update_video (v_id v) (with_transcription_status "processing") ;;
      transcription_pipeline env v
  end.

(** Lines 154-157, the handler. *)
Definition fail_transcription (video : option Video) (e : Exception) : M unit :=
  match video with
  | None =>
      raise "AttributeError: 'NoneType' object has no attribute 'transcription_status'"
  | Some v => update_video (v_id v) (with_transcription_status "failed")
  end.

Definition run_transcription_job (env : Env) (video_id : Z) : M unit :=
  video <- try_except (db_read env (ReadVideo video_id) (find_video video_id))
             (fun _ => raise "UnboundLocalError: local variable 'video'") ;;
  try_except (transcription_body env video) (fail_transcription video).

(** ** The request handlers ([app/routers/jobs.py]) *)

(** What a handler hands to [background_tasks.add_task]. *)
Inductive Task : Type :=
| ScrapeTask (job_id user_id : Z) (platform : option PlatformEnum)
| TranscriptionTask (video_id : Z).

Inductive Response (A : Type) : Type :=
| Returned (a : A)
| HTTPException (status_code : Z) (detail : string).

Arguments Returned {A} a.
Arguments HTTPException {A} status_code detail.

Definition running_job_of (user_id : Z) (s : Store) : option ScrapeJob :=
  first (fun j => (j_user_id j =? user_id) && JobStatusEnum_eqb (j_status j) RUNNING)%bool
        (jobs s).

Definition new_job (s : Store) (user_id : Z) (platform : option PlatformEnum)
    (now : datetime) : ScrapeJob :=
  {| j_id := fresh_id (map j_id (jobs s));
     j_user_id := user_id;
     j_status := PENDING;
     j_platform := platform;
     j_keywords_processed := 0;
     j_videos_found := 0;
     j_videos_transcribed := 0;
     j_error_message := None;
     j_started_at := None;
     j_completed_at := None;
     j_created_at := now |}.

(** [start_scrape_job]: the response, the world, and the tasks scheduled. *)
Definition start_scrape_job (current_user : User) (platform : option PlatformEnum)
    (w : World) : Response ScrapeJob * World * list Task :=
  match running_job_of (u_id current_user) (db w) with
  | Some _ =>
      (HTTPException 400 "A job is already running. Please wait for it to complete.",
       w, [])
  | None =>
      let job := new_job (db w) (u_id current_user) platform (clock w) in
      (Returned job,
       {| db := set_jobs (fun js => (js ++ [job])%list) (db w);
          clock := clock w;
          status_writes := (status_writes w ++ [(j_id job, PENDING)])%list |},
       [ScrapeTask (j_id job) (u_id current_user) platform])
  end.

(** The video the handler finds for the user. *)
Definition owned_video (current_user : User) (video_id : Z) (s : Store) : option Video :=
  first (fun v => (v_id v =? video_id) && (v_user_id v =? u_id current_user))%bool
        (videos s).

(** [start_transcription] *)
Definition start_transcription (current_user : User) (video_id : Z) (w : World)
    : Response (string * Z) * World * list Task :=
  match owned_video current_user video_id (db w) with
  | None => (HTTPException 404 "Video not found", w, [])
  | Some video =>
      if String.eqb (v_transcription_status video) "processing"
      then (HTTPException 400 "Transcription already in progress", w, [])
      else (Returned ("Transcription started", v_id video), w,
            [TranscriptionTask (v_id video)])
  end.

(** [transcribe_all_pending]: the number of videos and the tasks. *)
Definition transcribe_all_pending (current_user : User) (w : World)
    : Response nat * World * list Task :=
  let pending_videos :=
    filter (fun v => (v_user_id v =? u_id current_user) &&
                     String.eqb (v_transcription_status v) "pending")%bool
           (videos (db w)) in
  (Returned (List.length pending_videos), w,
   map (fun v => TranscriptionTask (v_id v)) pending_videos).

(** ** The system: handlers and background tasks taking turns

    The handlers and the background tasks run on one event loop.  A scrape
    task runs in one piece: [scrape_tiktok] and [scrape_instagram] call the
    synchronous client and nowhere give way, so nothing else runs between
    the first lookup of [run_scrape_job] and its last write.  A
    transcription task is taken in two pieces: up to the status
    [processing], then the pipeline. *)

Inductive TaskState : Type :=
| Scheduled (t : Task)
| Transcribing (video : Video).

(** Lines 130-135 with the handler. *)
Definition transcription_prologue (env : Env) (video_id : Z) : M (option Video) :=
  video <- try_except (db_read env (ReadVideo video_id) (find_video video_id))
             (fun _ => raise "UnboundLocalError: local variable 'video'") ;;
  match video with
  | None => ret None
  | Some v =>
      update_video (v_id v) (with_transcription_status "processing") ;;
      ret (Some v)
  end.

(** One piece of a task: the new world and what is left of the task. *)
Definition advance (env : Env) (t : TaskState) (w : World)
    : World * option TaskState :=
  match t with
  | Scheduled (ScrapeTask job_id user_id platform) =>
      (snd (run_scrape_job env job_id user_id platform w), None)
  | Scheduled (TranscriptionTask video_id) =>
      match transcription_prologue env video_id w with
      | (Ok (Some v), w') => (w', Some (Transcribing v))
      | (_, w') => (w', None)
      end
  | Transcribing v =>
      (snd (try_except (transcription_pipeline env v) (fail_transcription (Some v)) w),
       None)
  end.

Record System : Type := {
  world : World;
  tasks : list TaskState
}.

Inductive Event : Type :=
| StartScrape (current_user : User) (platform : option PlatformEnum)
| StartTranscription (current_user : User) (video_id : Z)
| TranscribeAll (current_user : User)
| RunTask (env : Env) (i : nat)
| Tick (now : datetime).

Definition replace_task (i : nat) (t : option TaskState) (l : list TaskState)
    : list TaskState :=
  (firstn i l ++ match t with Some t' => [t'] | None => [] end ++ skipn (S i) l)%list.

Definition schedule (s : System) (w : World) (new : list Task) : System :=
  {| world := w; tasks := (tasks s ++ map Scheduled new)%list |}.

(** One turn of the system. *)
Definition step (e : Event) (s : System) : System :=
  match e with
  | StartScrape u platform =>
      let '(_, w, new) := start_scrape_job u platform (world s) in schedule s w new
  | StartTranscription u video_id =>
      let '(_, w, new) := start_transcription u video_id (world s) in schedule s w new
  | TranscribeAll u =>
      let '(_, w, new) := transcribe_all_pending u (world s) in schedule s w new
  | RunTask env i =>
      match nth_error (tasks s) i with
      | Some t =>
          let '(w, t') := advance env t (world s) in
          {| world := w; tasks := replace_task i t' (tasks s) |}
      | None => s
      end
  | Tick now =>
      {| world := {| db := db (world s); clock := now;
                     status_writes := status_writes (world s) |};
         tasks := tasks s |}
  end.

Definition run (es : list Event) (s : System) : System :=
  fold_left (fun s e => step e s) es s.

(** ** A small instance

    One user with the keywords "ai tools" and "crypto" on TikTok and "news"
    on YouTube; the provider returns three items for "ai tools", two of them
    above the floor of 1000 likes, and raises for "crypto". *)

Module Sample.

Definition user1 : User := {| u_id := 1; u_google_sheet_id := Some "sheet-1" |}.

Definition kw (id : Z) (text : string) (p : PlatformEnum) : Keyword :=
  {| k_id := id; k_user_id := 1; k_keyword := text; k_platform := p;
     k_is_active := true; k_results_per_run := 10 |}.

Definition settings1 : UserSettings :=
  {| s_user_id := 1; s_min_likes := 1000; s_min_views := 5000;
     s_date_filter := "this_week" |}.

Definition job1 : ScrapeJob :=
  {| j_id := 1; j_user_id := 1; j_status := PENDING; j_platform := None;
     j_keywords_processed := 0; j_videos_found := 0; j_videos_transcribed := 0;
     j_error_message := None; j_started_at := None; j_completed_at := None;
     j_created_at := 0 |}.

Definition tiktok_item (id : string) (likes : Z) : Item :=
  [("id", Scalar (AStr id));
   ("webVideoUrl", Scalar (AStr ("https://www.tiktok.com/@ann/video/" ++ id)));
   ("authorMeta", Dict [("name", AStr "ann"); ("nickName", AStr "Ann")]);
   ("text", Scalar (AStr "a video"));
   ("diggCount", Scalar (AInt likes))].

Definition provider (actor : string) (input : RunInput) : result Value :=
  match assoc "searchQueries" input with
  | Some (IList [q]) =>
      if String.eqb q "crypto" then Raise "actor run failed"
      else Ok (Dict [("defaultDatasetId", AStr q)])
  | _ => Ok (Dict [("defaultDatasetId", AStr "")])
  end.

Definition dataset (id : Value) : result (list Item) :=
  Ok [tiktok_item "1" 5000; tiktok_item "2" 10; tiktok_item "3" 2000].

(** A mirror whose every call fails, and one whose every call succeeds. *)
Definition failing_mirror : Gspread :=
  {| sheets_client := false;
     open_by_key := fun _ => Raise "APIError";
     worksheet := fun _ _ => Raise "WorksheetNotFound";
     append_rows := fun _ _ _ => Raise "APIError";
     find := fun _ _ _ => Raise "APIError";
     update := fun _ _ _ _ => Raise "APIError" |}.

Definition working_mirror : Gspread :=
  {| sheets_client := true;
     open_by_key := fun _ => Ok tt;
     worksheet := fun _ _ => Ok tt;
     append_rows := fun _ _ _ => Ok tt;
     find := fun _ _ _ => Ok (Some 2);
     update := fun _ _ _ _ => Ok tt |}.

Definition make_env (fault : DbRead -> option Exception)
    (segments : result (list string)) (mirror : Gspread) : Env :=
  {| actor_call := provider;
     iterate_items := dataset;
     fromtimestamp := fun _ => Ok 0;
     fromisoformat := fun _ => Ok 0;
     strftime := fun _ => "2024-01-01 00:00";
     repr_dict := fun _ => "{}";
     format_platform := platform_value;
     db_fault := fault;
     ydl_download := fun _ => Ok ["audio.mp3"];
     whisper_transcribe := fun _ _ => segments;
     gspread := mirror |}.

Definition no_fault (r : DbRead) : option Exception := None.


Definition env : Env := make_env no_fault (Ok [" hello "; "world "]) working_mirror.

(** The backend fails; the backend finds no speech in the audio. *)
Definition env_backend_down : Env := make_env no_fault (Raise "model failed") working_mirror.
Definition env_silent : Env := make_env no_fault (Ok []) working_mirror.

Definition video1 (status : string) : Video :=
  {| v_id := 1; v_user_id := 1; v_keyword_id := 1; v_platform := TIKTOK;
     v_video_url := Scalar (AStr "https://www.tiktok.com/@ann/video/9");
     v_video_id := Scalar (AStr "9");
     v_author_username := Scalar (AStr "ann"); v_author_name := Scalar (AStr "Ann");
     v_description := Scalar ANone;
     v_likes := Scalar (AInt 4000); v_comments := Scalar (AInt 0);
     v_shares := Scalar (AInt 0); v_views := Scalar (AInt 0);
     v_transcription := None; v_transcription_status := status;
     v_posted_at := None; v_scraped_at := 0 |}.

Definition store (vs : list Video) (js : list ScrapeJob) : Store :=
  {| users := [user1];
     keywords := [kw 1 "ai tools" TIKTOK; kw 2 "crypto" TIKTOK; kw 3 "news" YOUTUBE];
     videos := vs;
     jobs := js;
     user_settings := [settings1] |}.

Definition world_of (vs : list Video) (js : list ScrapeJob) : World :=
  {| db := store vs js; clock := 100; status_writes := [] |}.

(** A pending job and no video; no job at all; one video of a given status. *)
Definition world : World := world_of [] [job1].
Definition world_with_video (status : string) : World := world_of [video1 status] [].

Definition candidate (url : string) : VideoData :=
  {| vd_platform := TIKTOK; vd_video_url := Scalar (AStr url);
     vd_video_id := Scalar ANone; vd_author_username := Scalar ANone;
     vd_author_name := Scalar ANone; vd_description := Scalar ANone;
     vd_likes := Scalar (AInt 0); vd_comments := Scalar (AInt 0);
     vd_shares := Scalar (AInt 0); vd_views := Scalar (AInt 0);
     vd_posted_at := None |}.

End Sample.

(** * More of the code *)

(** ** [ApifyService._get_date_filter] ([app/services/apify.py]) *)

(** [timedelta(days=n)], with time counted in seconds. *)
Definition timedelta_days (n : Z) : Z := n * 86400.

Definition _get_date_filter (now : datetime) (date_filter : string) : datetime :=
  if String.eqb date_filter "today" then now - timedelta_days 1
  else if String.eqb date_filter "this_week" then now - timedelta_days 7
  else if String.eqb date_filter "this_month" then now - timedelta_days 30
  else now - timedelta_days 7.

(** The sort key of a candidate, [x["likes"]]. *)
Definition likes_of (v : VideoData) : Z := int_of_value (vd_likes v).

(** Larger likes first. *)
Definition by_likes_desc (a b : VideoData) : Prop := likes_of b <= likes_of a.

(** The candidates with a given number of likes, in the order of the list. *)
Definition with_likes (k : Z) (l : list VideoData) : list VideoData :=
  filter (fun v => likes_of v =? k) l.

(** [#{hashtag}] of [scrape_instagram]. *)
Definition hashtag_of (keyword : string) : string :=
  lower (replace_char " "%char "" keyword).

(** A value that [>=] compares with an integer. *)
Definition is_number (v : Value) : bool :=
  match v with
  | Scalar (AInt _) | Scalar (ABool _) => true
  | _ => false
  end.

(** What [scrape_tiktok] makes of the items it keeps. *)
Definition tiktok_candidate (min_likes : Z) (v : VideoData) : Prop :=
  vd_platform v = TIKTOK /\ min_likes <= likes_of v /\
  value_truthy (vd_video_url v) = true.

(** A candidate of a platform above the floor of likes. *)
Definition candidate_of (p : PlatformEnum) (min_likes : Z) (v : VideoData) : Prop :=
  vd_platform v = p /\ min_likes <= likes_of v.

(** An environment whose provider returns the given items for every
    request. *)
Definition env_with_items (items : list Item) : Env :=
  {| actor_call := fun _ _ => Ok (Dict [("defaultDatasetId", AStr "dataset")]);
     iterate_items := fun _ => Ok items;
     fromtimestamp := fun _ => Ok 0;
     fromisoformat := fun _ => Ok 0;
     strftime := fun _ => "2024-01-01 00:00";
     repr_dict := fun _ => "{}";
     format_platform := platform_value;
     db_fault := fun _ => None;
     ydl_download := fun _ => Ok ["audio.mp3"];
     whisper_transcribe := fun _ _ => Ok [];
     gspread := Sample.working_mirror |}.

(** An environment whose download leaves the given files in the
    directory. *)
Definition env_with_files (files : list string) : Env :=
  {| actor_call := actor_call Sample.env;
     iterate_items := iterate_items Sample.env;
     fromtimestamp := fromtimestamp Sample.env;
     fromisoformat := fromisoformat Sample.env;
     strftime := strftime Sample.env;
     repr_dict := repr_dict Sample.env;
     format_platform := format_platform Sample.env;
     db_fault := db_fault Sample.env;
     ydl_download := fun _ => Ok files;
     whisper_transcribe := whisper_transcribe Sample.env;
     gspread := gspread Sample.env |}.

(** [c * n] *)
Fixpoint repeat_char (c : ascii) (n : nat) : string :=
  match n with
  | O => EmptyString
  | S k => String c (repeat_char c k)
  end.

(** A candidate with a description of 250 characters. *)
Definition wordy_candidate : VideoData :=
  {| vd_platform := TIKTOK;
     vd_video_url := Scalar (AStr "https://www.tiktok.com/@ann/video/7");
     vd_video_id := Scalar (AStr "7");
     vd_author_username := Scalar (AStr "ann");
     vd_author_name := Scalar (AStr "Ann");
     vd_description := Scalar (AStr (repeat_char "a" 250));
     vd_likes := Scalar (AInt 5000); vd_comments := Scalar (AInt 0);
     vd_shares := Scalar (AInt 0); vd_views := Scalar (AInt 0);
     vd_posted_at := None |}.

(** ** More of the spreadsheet service ([app/services/sheets.py]) *)

(** The header row of [setup_sheet_for_user]. *)
Definition headers : list string :=
  ["Date Scraped"; "Keyword"; "Video URL"; "Author"; "Description"; "Likes";
   "Comments"; "Shares"; "Views"; "Transcription"; "Transcription Status"].

(** The outcome of [spreadsheet.worksheet(name)] where the code tells
    [gspread.WorksheetNotFound] from the other exceptions. *)
Inductive WorksheetLookup : Type :=
| WorksheetFound
| WorksheetNotFound
| WorksheetError (e : Exception).

(** The calls of gspread that only the set-up and [add_video_to_sheet]
    make: [worksheet] with its exception told apart, [add_worksheet],
    [update('A1', ...)], [format('A1:Z1', ...)] and [append_row]. *)
Record GspreadSetup : Type := {
  lookup_worksheet : string -> string -> WorksheetLookup;
  add_worksheet : string -> string -> Z -> nat -> result unit;
  update_a1 : string -> string -> list (list string) -> result unit;
  format_bold : string -> string -> result unit;
  append_row : string -> string -> Row -> result unit
}.

(** [get_or_create_worksheet]: every exception is logged and raised again. *)
Definition get_or_create_worksheet (g : Gspread) (gs : GspreadSetup)
    (sheet_id worksheet_name : string) (headers : list string) : result unit :=
  rbind (if sheets_client g then Ok tt
         else Raise "AttributeError: 'NoneType' object has no attribute 'open_by_key'")
    (fun _ =>
  rbind (open_by_key g sheet_id) (fun _ =>
  match lookup_worksheet gs sheet_id worksheet_name with
  | WorksheetFound => Ok tt
  | WorksheetError e => Raise e
  | WorksheetNotFound =>
      rbind (add_worksheet gs sheet_id worksheet_name 1000 (List.length headers))
        (fun _ =>
      rbind (update_a1 gs sheet_id worksheet_name [headers]) (fun _ =>
      format_bold gs sheet_id worksheet_name))
  end)).

(** The tabs [setup_sheet_for_user] asks for. *)
Definition setup_tabs : list string := ["TikTok"; "Instagram"].

(** [setup_sheet_for_user]: the dict of its results. *)
Definition setup_sheet_for_user (g : Gspread) (gs : GspreadSetup) (sheet_id : string)
    : list (string * bool) :=
  [("tiktok", is_ok (get_or_create_worksheet g gs sheet_id "TikTok" headers));
   ("instagram", is_ok (get_or_create_worksheet g gs sheet_id "Instagram" headers))].

(** [x or ""] for an optional text. *)
Definition text_or_empty (o : option string) : string :=
  match o with Some s => s | None => "" end.

(** The row of [add_video_to_sheet]. *)
Definition video_row (env : Env) (video : Video) (keyword : string) : result Row :=
  let d := v_description video in
  rbind (if value_truthy d
         then rbind (py_len d) (fun n =>
                if (200 <? n)%nat then truncate_200 d
                else Ok (py_or d (Scalar (AStr ""))))
         else Ok (py_or d (Scalar (AStr "")))) (fun description =>
  Ok [Scalar (AStr (strftime env (v_scraped_at video)));
      Scalar (AStr keyword);
      v_video_url video;
      py_or (v_author_username video) (Scalar (AStr ""));
      description;
      v_likes video;
      v_comments video;
      v_shares video;
      v_views video;
      Scalar (AStr (text_or_empty (v_transcription video)));
      Scalar (AStr (v_transcription_status video))]).

(** [add_video_to_sheet] *)
Definition add_video_to_sheet (env : Env) (gs : GspreadSetup) (sheet_id : string)
    (video : Video) (keyword : string) : bool :=
  let name := worksheet_name (v_platform video) in
  is_ok
    (rbind (if sheets_client (gspread env) then Ok tt
            else Raise "AttributeError: 'NoneType' object has no attribute 'open_by_key'")
       (fun _ =>
     rbind (open_by_key (gspread env) sheet_id) (fun _ =>
     rbind (worksheet (gspread env) sheet_id name) (fun _ =>
     rbind (video_row env video keyword) (fun row =>
     append_row gs sheet_id name row))))).

(** The cell of a row, counted from 0. *)
Definition cell (row : Row) (i : nat) : Value := nth i row (Scalar ANone).

(** ** More of the transcription service ([app/services/transcription.py]) *)

(** The names [download_audio] looks for in the temporary directory. *)
Definition audio_names : list string :=
  ["audio.mp3"; "audio.m4a"; "audio.webm"; "audio.mp4"].

(** The files the [finally] block finds in the directory after it has
    removed the audio file. *)
Definition left_over (env : Env) (video_url : Value) : list string :=
  let files := match ydl_download env video_url with Ok fs => fs | Raise _ => [] end in
  match download_audio env video_url with
  | Ok p => filter (fun f => negb (String.eqb f p)) files
  | Raise _ => files
  end.

(** [transcribe_video_sync]: as [transcribe_video], but the [OSError] of
    [os.rmdir] on a directory that is not empty is caught and dropped. *)
Definition transcribe_video_sync (env : Env) (video_url : Value) : result string :=
  let audio_path := download_audio env video_url in
  let body := rbind audio_path (transcribe_audio env video_url) in
  match left_over env video_url with
  | [] => body
  | _ => body
  end.

(** Every character is white space. *)
Fixpoint blank (s : string) : bool :=
  match s with
  | EmptyString => true
  | String c t => (is_space c && blank t)%bool
  end.

(** ** More of the job router ([app/routers/jobs.py]) *)

(** [get_job] *)
Definition get_job (current_user : User) (job_id : Z) (w : World) : Response ScrapeJob :=
  match first (fun j => (j_id j =? job_id) && (j_user_id j =? u_id current_user))%bool
              (jobs (db w)) with
  | Some job => Returned job
  | None => HTTPException 404 "Job not found"
  end.

(** [status.value] *)
Definition status_value (s : JobStatusEnum) : string :=
  match s with
  | PENDING => "pending"
  | RUNNING => "running"
  | COMPLETED => "completed"
  | FAILED => "failed"
  end.

Record DashboardStats : Type := {
  total_keywords : nat;
  total_videos : nat;
  videos_today : nat;
  pending_transcriptions : nat;
  last_job_status : option string;
  last_job_time : option datetime
}.

(** [order_by(ScrapeJob.created_at.desc()).first()]: a job with the
    latest creation time (the first of them in the table, where the database
    is free to choose). *)
Definition newer (best : option ScrapeJob) (j : ScrapeJob) : option ScrapeJob :=
  match best with
  | None => Some j
  | Some b => if j_created_at b <? j_created_at j then Some j else Some b
  end.

Definition latest_job (js : list ScrapeJob) : option ScrapeJob :=
  fold_left newer js None.

Definition jobs_of (user_id : Z) (s : Store) : list ScrapeJob :=
  filter (fun j => j_user_id j =? user_id) (jobs s).

Definition videos_of (user_id : Z) (s : Store) : list Video :=
  filter (fun v => v_user_id v =? user_id) (videos s).

Definition is_pending (v : Video) : bool :=
  String.eqb (v_transcription_status v) "pending".

(** [get_dashboard_stats]; [today] is [date.today()], the start of the
    day. *)
Definition get_dashboard_stats (today : datetime) (current_user : User) (w : World)
    : DashboardStats :=
  let uid := u_id current_user in
  let last_job := latest_job (jobs_of uid (db w)) in
  {| total_keywords :=
       List.length (filter (fun k => (k_user_id k =? uid) && k_is_active k)%bool
                           (keywords (db w)));
     total_videos := List.length (videos_of uid (db w));
     videos_today :=
       List.length (filter (fun v => (v_user_id v =? uid) && (today <=? v_scraped_at v))%bool
                           (videos (db w)));
     pending_transcriptions :=
       List.length (filter (fun v => (v_user_id v =? uid) && is_pending v)%bool
                           (videos (db w)));
     last_job_status := option_map (fun j => status_value (j_status j)) last_job;
     last_job_time :=
       match last_job with Some j => j_completed_at j | None => None end |}.

(** ** The keyword router ([app/routers/keywords.py]) *)

(** [KeywordCreate] and [KeywordUpdate] of [app/schemas.py]; a field of an
    update that is [None] is left as it is. *)
Record KeywordCreate : Type := {
  kc_keyword : string;
  kc_platform : PlatformEnum;
  kc_results_per_run : Z
}.

Record KeywordUpdate : Type := {
  ku_keyword : option string;
  ku_platform : option PlatformEnum;
  ku_is_active : option bool;
  ku_results_per_run : option Z
}.

Definition set_keywords (f : list Keyword -> list Keyword) (w : World) : World :=
  {| db := {| users := users (db w); keywords := f (keywords (db w));
              videos := videos (db w); jobs := jobs (db w);
              user_settings := user_settings (db w) |};
     clock := clock w;
     status_writes := status_writes w |}.

(** The check for a duplicate: a keyword of the user with the same text and
    platform, the texts compared as strings. *)
Definition existing_keyword (user_id : Z) (text : string) (p : PlatformEnum) (s : Store)
    : option Keyword :=
  first (fun k => (k_user_id k =? user_id) && String.eqb (k_keyword k) text &&
                  PlatformEnum_eqb (k_platform k) p)%bool
        (keywords s).

(** [create_keyword]; [is_active] takes the default of the column. *)
Definition create_keyword (current_user : User) (keyword_data : KeywordCreate) (w : World)
    : Response Keyword * World :=
  match existing_keyword (u_id current_user) (kc_keyword keyword_data)
          (kc_platform keyword_data) (db w) with
  | Some _ => (HTTPException 400 "Keyword already exists for this platform", w)
  | None =>
      let new_keyword :=
        {| k_id := fresh_id (map k_id (keywords (db w)));
           k_user_id := u_id current_user;
           k_keyword := kc_keyword keyword_data;
           k_platform := kc_platform keyword_data;
           k_is_active := true;
           k_results_per_run := kc_results_per_run keyword_data |} in
      (Returned new_keyword, set_keywords (fun ks => (ks ++ [new_keyword])%list) w)
  end.

Definition owned_keyword (current_user : User) (keyword_id : Z) (s : Store)
    : option Keyword :=
  first (fun k => (k_id k =? keyword_id) && (k_user_id k =? u_id current_user))%bool
        (keywords s).

(** The assignments of [update_keyword]. *)
Definition apply_update (keyword_data : KeywordUpdate) (k : Keyword) : Keyword :=
  {| k_id := k_id k;
     k_user_id := k_user_id k;
     k_keyword := match ku_keyword keyword_data with Some x => x | None => k_keyword k end;
     k_platform := match ku_platform keyword_data with Some x => x | None => k_platform k end;
     k_is_active :=
       match ku_is_active keyword_data with Some x => x | None => k_is_active k end;
     k_results_per_run :=
       match ku_results_per_run keyword_data with
       | Some x => x
       | None => k_results_per_run k
       end |}.

(** [update_keyword] *)
Definition update_keyword (current_user : User) (keyword_id : Z)
    (keyword_data : KeywordUpdate) (w : World) : Response Keyword * World :=
  match owned_keyword current_user keyword_id (db w) with
  | None => (HTTPException 404 "Keyword not found", w)
  | Some keyword =>
      (Returned (apply_update keyword_data keyword),
       set_keywords (map (fun k => if k_id k =? k_id keyword
                                   then apply_update keyword_data k else k)) w)
  end.

(** ** The settings router ([app/routers/settings.py]) *)

(** [UserSettings(user_id=...)] with the defaults of the columns
    ([app/models.py]). *)
Definition default_settings (user_id : Z) : UserSettings :=
  {| s_user_id := user_id; s_min_likes := 1000; s_min_views := 5000;
     s_date_filter := "this_week" |}.

Definition with_user_settings (ss : list UserSettings) (w : World) : World :=
  {| db := {| users := users (db w); keywords := keywords (db w);
              videos := videos (db w); jobs := jobs (db w);
              user_settings := ss |};
     clock := clock w;
     status_writes := status_writes w |}.

(** [get_settings]: the settings of the user, created when there are
    none. *)
Definition get_settings (current_user : User) (w : World) : UserSettings * World :=
  match find_settings (u_id current_user) (db w) with
  | Some settings => (settings, w)
  | None =>
      let settings := default_settings (u_id current_user) in
      (settings, with_user_settings (user_settings (db w) ++ [settings])%list w)
  end.

(** * The vocabulary of the statements *)

(** The computation returns the world it was given. *)
Definition reads_only {A} (m : M A) : Prop := forall w, snd (m w) = w.

(** The world with [new] appended to the stored videos. *)
Definition extend_videos (new : list Video) (w : World) : World :=
  {| db := set_videos (fun vs => (vs ++ new)%list) (db w);
     clock := clock w;
     status_writes := status_writes w |}.

(** The source URLs of a list of videos. *)
Definition urls (vs : list Video) : list Value := map v_video_url vs.

(** No two stored videos share a source URL. *)
Definition unique_urls (s : Store) : Prop := NoDup (urls (videos s)).

(** The number of stored videos with a given source URL. *)
Definition count_url (url : Value) (s : Store) : nat :=
  List.length (filter (fun v => Value_eqb (v_video_url v) url) (videos s)).

(** [new] holds no URL twice and none of [old]. *)
Definition fresh_urls (old new : list Video) : Prop :=
  NoDup (urls new) /\ forall v, In v new -> ~ In (v_video_url v) (urls old).

(** A sequence of ingestions, one after the other, each for its own user,
    keyword and candidate. *)
Definition ingest_seq (l : list (Env * Z * Keyword * VideoData)) (w : World) : World :=
  fold_left (fun w '(env, user_id, kw, vd) => snd (ingest env user_id kw vd w)) l w.

(** [job.keywords_processed += 1], [n] times. *)
Definition add_keywords_processed (n : Z) (j : ScrapeJob) : ScrapeJob :=
  {| j_id := j_id j; j_user_id := j_user_id j; j_status := j_status j;
     j_platform := j_platform j;
     j_keywords_processed := j_keywords_processed j + n;
     j_videos_found := j_videos_found j;
     j_videos_transcribed := j_videos_transcribed j;
     j_error_message := j_error_message j;
     j_started_at := j_started_at j; j_completed_at := j_completed_at j;
     j_created_at := j_created_at j |}.

(** Apply [f] to the rows of a job id. *)
Definition on_job (job_id : Z) (f : ScrapeJob -> ScrapeJob) (js : list ScrapeJob)
    : list ScrapeJob :=
  map (fun j => if j_id j =? job_id then f j else j) js.

(** The world after [n] keywords of job [job_id] were processed and the
    videos [new] were stored. *)
Definition loop_effect (job_id : Z) (n : Z) (new : list Video) (w : World) : World :=
  {| db := set_jobs (on_job job_id (add_keywords_processed n))
                    (set_videos (fun vs => (vs ++ new)%list) (db w));
     clock := clock w;
     status_writes := status_writes w |}.

(** The search of a keyword returns, under the settings of the user. *)
Definition search_ok (env : Env) (settings : option UserSettings) (kw : Keyword) : bool :=
  is_ok (scrape_by_platform env (k_platform kw) (k_keyword kw) (k_results_per_run kw)
           (match settings with Some s => s_min_likes s | None => 1000 end)
           (match settings with Some s => s_date_filter s | None => "this_week" end)).

Definition searches_ok (env : Env) (settings : option UserSettings)
    (kws : list Keyword) : Z :=
  Z.of_nat (List.length (filter (search_ok env settings) kws)).

(** The exception of the lookups of the user and of the settings, if any. *)
Definition lookup_fault (env : Env) (user_id : Z) : option Exception :=
  match db_fault env (ReadUser user_id) with
  | Some e => Some e
  | None => db_fault env (ReadSettings user_id)
  end.

(** The environment with another mirror. *)
Definition with_mirror (env : Env) (g : Gspread) : Env :=
  {| actor_call := actor_call env;
     iterate_items := iterate_items env;
     fromtimestamp := fromtimestamp env;
     fromisoformat := fromisoformat env;
     strftime := strftime env;
     repr_dict := repr_dict env;
     format_platform := format_platform env;
     db_fault := db_fault env;
     ydl_download := ydl_download env;
     whisper_transcribe := whisper_transcribe env;
     gspread := g |}.




Definition accepted {A} (r : Response A) : bool :=
  match r with Returned _ => true | HTTPException _ _ => false end.









(** A task run alone, piece after piece. *)
Fixpoint run_task (fuel : nat) (env : Env) (t : TaskState) (w : World) : World :=
  match fuel with
  | O => w
  | S n =>
      match advance env t w with
      | (w', Some t') => run_task n env t' w'
      | (w', None) => w'
      end
  end.

(** The floor of likes a run searches with. *)
Definition min_likes_of (settings : option UserSettings) : Z :=
  match settings with Some s => s_min_likes s | None => 1000 end.

(** The candidates the search of a keyword returns under the settings of
    the user; none when it raises. *)
Definition candidates (env : Env) (settings : option UserSettings) (kw : Keyword)
    : list VideoData :=
  match scrape_by_platform env (k_platform kw) (k_keyword kw) (k_results_per_run kw)
          (match settings with Some s => s_min_likes s | None => 1000 end)
          (match settings with Some s => s_date_filter s | None => "this_week" end)
  with
  | Ok videos_data => videos_data
  | Raise _ => []
  end.

(** The row was built at time [now], for user [user_id], from a candidate of
    one of the keywords [kws]. *)
Definition stored_from (env : Env) (user_id : Z) (settings : option UserSettings)
    (kws : list Keyword) (now : datetime) (v : Video) : Prop :=
  exists kw vd s,
    In kw kws /\ In vd (candidates env settings kw) /\
    v = new_video s user_id kw vd now.

(** Every candidate of the keywords [kws] has its URL among [us]. *)
Definition covered (env : Env) (settings : option UserSettings) (kws : list Keyword)
    (us : list Value) : Prop :=
  forall kw vd, In kw kws -> In vd (candidates env settings kw) ->
                In (vd_video_url vd) us.






(** The fields of a job that a run leaves alone. *)
Definition same_identity (j j' : ScrapeJob) : Prop :=
  j_id j' = j_id j /\ j_user_id j' = j_user_id j /\ j_platform j' = j_platform j /\
  j_created_at j' = j_created_at j /\ j_videos_transcribed j' = j_videos_transcribed j.

(** Apply [g] to the rows of a video id. *)
Definition on_video (video_id : Z) (g : Video -> Video) (vs : list Video) : list Video :=
  map (fun v => if v_id v =? video_id then g v else v) vs.

(** A video without what a transcription writes. *)
Definition source_of (v : Video) : Video :=
  {| v_id := v_id v; v_user_id := v_user_id v; v_keyword_id := v_keyword_id v;
     v_platform := v_platform v; v_video_url := v_video_url v;
     v_video_id := v_video_id v; v_author_username := v_author_username v;
     v_author_name := v_author_name v; v_description := v_description v;
     v_likes := v_likes v; v_comments := v_comments v; v_shares := v_shares v;
     v_views := v_views v;
     v_transcription := None;
     v_transcription_status := "";
     v_posted_at := v_posted_at v; v_scraped_at := v_scraped_at v |}.

(** What must not be stored twice: the user, the text and the platform of a
    keyword. *)
Definition keyword_key (k : Keyword) : Z * string * PlatformEnum :=
  (k_user_id k, k_keyword k, k_platform k).

Definition unique_keywords (s : Store) : Prop := NoDup (map keyword_key (keywords s)).

(** Every character of the text passes the test. *)
Fixpoint all_chars (p : ascii -> bool) (s : string) : bool :=
  match s with
  | EmptyString => true
  | String c t => (p c && all_chars p t)%bool
  end.

(** An ASCII upper-case letter. *)
Definition is_upper (c : ascii) : bool :=
  let n := nat_of_ascii c in
  ((65 <=? n) && (n <=? 90))%nat.

(** * Properties *)

(** ** The embedding at work *)

Example strip_example : strip "  hello world	" = "hello world".
Proof. reflexivity. Qed.

Example transcript_example :
  transcribe_audio Sample.env (Scalar (AStr "u")) "audio.mp3" = Ok "hello world".
Proof. reflexivity. Qed.

Example worksheet_name_example : worksheet_name TIKTOK = "Tiktok".
Proof. reflexivity. Qed.

Example hashtag_example :
  fst (instagram_request "AI Tools" 10 1000 "this_week") = "apify/instagram-scraper" /\
  assoc "hashtags" (snd (instagram_request "AI Tools" 10 1000 "this_week"))
  = Some (IList ["aitools"]).
Proof. split; reflexivity. Qed.

Example slice_to_example :
  slice_to 2 [1; 2; 3] = [1; 2] /\ slice_to (-1) [1; 2; 3] = [1; 2] /\
  slice_to 5 [1; 2; 3] = [1; 2; 3] /\ slice_to (-7) [1; 2; 3] = [].
Proof. repeat split; reflexivity. Qed.

(** The likes floor, the order and the cap of [scrape_tiktok]. *)
Example scrape_tiktok_example :
  option_map (map (fun v => (vd_video_id v, vd_likes v)))
    (match scrape_tiktok Sample.env "ai tools" 10 1000 "this_week" with
     | Ok vs => Some vs
     | Raise _ => None
     end)
  = Some [(Scalar (AStr "1"), Scalar (AInt 5000));
          (Scalar (AStr "3"), Scalar (AInt 2000))].
Proof. reflexivity. Qed.

(** The scenario of the sample: two keywords on TikTok, the second of which
    fails, and one on YouTube. *)
Example run_scrape_job_example :
  let w' := snd (run_scrape_job Sample.env 1 1 None Sample.world) in
  map (fun j => (j_status j, j_keywords_processed j, j_videos_found j)) (jobs (db w'))
  = [(COMPLETED, 1, 2)] /\
  map v_transcription_status (videos (db w')) = ["pending"; "pending"].
Proof. split; reflexivity. Qed.

(** ** Equality tests *)

Lemma Atom_eqb_eq (a b : Atom) : Atom_eqb a b = true <-> a = b.
Proof.
  destruct a, b; simpl; split; intros H; try discriminate; try reflexivity.
  - apply Bool.eqb_prop in H. now subst.
  - injection H as ->. apply Bool.eqb_reflx.
  - apply Z.eqb_eq in H. now subst.
  - injection H as ->. apply Z.eqb_refl.
  - apply String.eqb_eq in H. now subst.
  - injection H as ->. apply String.eqb_refl.
Qed.

Lemma dict_eqb_eq (d1 d2 : list (string * Atom)) : dict_eqb d1 d2 = true <-> d1 = d2.
Proof.
  unfold dict_eqb. revert d2.
  induction d1 as [|[k1 a1] t1 IH]; intros [|[k2 a2] t2]; simpl;
    split; intros H; try discriminate; try reflexivity.
  - apply andb_prop in H as [Hlen H]. apply andb_prop in H as [Hhd Htl].
    apply andb_prop in Hhd as [Hk Ha].
    apply String.eqb_eq in Hk. apply Atom_eqb_eq in Ha. subst.
    f_equal. apply IH. now rewrite Hlen, Htl.
  - injection H as -> -> ->.
    assert (Hrec : (Nat.eqb (List.length t2) (List.length t2) &&
                    forallb (fun p => String.eqb (fst (fst p)) (fst (snd p)) &&
                                      Atom_eqb (snd (fst p)) (snd (snd p)))
                            (combine t2 t2))%bool = true)
      by now apply IH.
    apply andb_prop in Hrec as [Hlen Htl].
    rewrite Hlen, Htl, String.eqb_refl. simpl.
    rewrite andb_true_r. now apply Atom_eqb_eq.
Qed.

Lemma Value_eqb_eq (a b : Value) : Value_eqb a b = true <-> a = b.
Proof.
  destruct a as [x|x], b as [y|y]; simpl; split; intros H; try discriminate.
  - apply Atom_eqb_eq in H. now subst.
  - injection H as ->. now apply Atom_eqb_eq.
  - apply dict_eqb_eq in H. now subst.
  - injection H as ->. now apply dict_eqb_eq.
Qed.

Lemma Value_eqb_neq (a b : Value) : Value_eqb a b = false <-> a <> b.
Proof.
  split.
  - intros H Heq. apply Value_eqb_eq in Heq. congruence.
  - intros H. destruct (Value_eqb a b) eqn:E; [|reflexivity].
    apply Value_eqb_eq in E. contradiction.
Qed.

Lemma PlatformEnum_eqb_eq (a b : PlatformEnum) : PlatformEnum_eqb a b = true <-> a = b.
Proof. destruct a, b; simpl; split; intros H; congruence. Qed.

(** ** The search wrappers and the recency window *)

(** C10: the TikTok and Instagram wrappers build the same provider request
    and return the same result (the same candidates, or the same exception)
    whatever the value of [date_filter], for every behaviour of the provider
    and all other arguments equal; so does the dispatch that calls them. *)
Theorem search_ignores_date_filter (env : Env) (keyword : string)
    (max_results min_likes : Z) (d1 d2 : string) :
  tiktok_request keyword max_results min_likes d1
    = tiktok_request keyword max_results min_likes d2 /\
  scrape_tiktok env keyword max_results min_likes d1
    = scrape_tiktok env keyword max_results min_likes d2 /\
  instagram_request keyword max_results min_likes d1
    = instagram_request keyword max_results min_likes d2 /\
  scrape_instagram env keyword max_results min_likes d1
    = scrape_instagram env keyword max_results min_likes d2 /\
  (forall platform,
      scrape_by_platform env platform keyword max_results min_likes d1
      = scrape_by_platform env platform keyword max_results min_likes d2).
Proof.
  split; [reflexivity|]. split; [reflexivity|]. split; [reflexivity|].
  split; [reflexivity|].
  intros platform. destruct platform; reflexivity.
Qed.

(** ** Computations that leave the world alone *)

Lemma reads_only_ret {A} (a : A) : reads_only (ret a).
Proof. intros w. reflexivity. Qed.

Lemma reads_only_raise {A} (e : Exception) : reads_only (@raise A e).
Proof. intros w. reflexivity. Qed.

Lemma reads_only_lift {A} (r : result A) : reads_only (lift r).
Proof. intros w. reflexivity. Qed.

Lemma reads_only_utcnow : reads_only utcnow.
Proof. intros w. reflexivity. Qed.

Lemma reads_only_bind {A B} (m : M A) (k : A -> M B) :
  reads_only m -> (forall a, reads_only (k a)) -> reads_only (bind m k).
Proof.
  intros Hm Hk w. unfold bind. specialize (Hm w).
  destruct (m w) as [[a|e] w']; simpl in *; subst; [apply Hk | reflexivity].
Qed.

Lemma reads_only_try_except {A} (m : M A) (h : Exception -> M A) :
  reads_only m -> (forall e, reads_only (h e)) -> reads_only (try_except m h).
Proof.
  intros Hm Hh w. unfold try_except. specialize (Hm w).
  destruct (m w) as [[a|e] w']; simpl in *; subst; [reflexivity | apply Hh].
Qed.

Lemma reads_only_db_read {A} (env : Env) (r : DbRead) (q : Store -> A) :
  reads_only (db_read env r q).
Proof.
  unfold db_read. destruct (db_fault env r).
  - apply reads_only_raise.
  - apply reads_only_bind; [intros w; reflexivity | intros; apply reads_only_ret].
Qed.

Create HintDb reads_only.

#[local] Hint Resolve reads_only_ret reads_only_raise reads_only_lift
  reads_only_utcnow reads_only_db_read : reads_only.

Ltac reads_only_tac :=
  repeat first
    [ apply reads_only_bind; [|intros ?]
    | apply reads_only_try_except; [|intros ?]
    | solve [auto with reads_only]
    | match goal with
      | |- reads_only (match ?x with _ => _ end) => destruct x
      | |- reads_only (if ?x then _ else _) => destruct x
      end ].

(** An exception handler that returns a value makes a computation total. *)
Lemma try_except_ret_ok {A} (m : M A) (d : A) (w : World) :
  exists a, fst (try_except m (fun _ => ret d) w) = Ok a.
Proof.
  unfold try_except. destruct (m w) as [[a|e] w']; simpl; eauto.
Qed.

(** ** The mirror never raises and never touches the store *)

Lemma open_worksheet_reads_only env sheet_id name :
  reads_only (open_worksheet env sheet_id name).
Proof. unfold open_worksheet. reads_only_tac. Qed.

Lemma add_videos_batch_reads_only env sheet_id videos platform keyword :
  reads_only (add_videos_batch env sheet_id videos platform keyword).
Proof.
  unfold add_videos_batch. pose proof open_worksheet_reads_only. reads_only_tac.
Qed.

Lemma update_transcription_in_sheet_reads_only env sheet_id url platform t st :
  reads_only (update_transcription_in_sheet env sheet_id url platform t st).
Proof.
  unfold update_transcription_in_sheet. pose proof open_worksheet_reads_only.
  reads_only_tac.
Qed.

Lemma add_videos_batch_total env sheet_id videos platform keyword w :
  exists n, add_videos_batch env sheet_id videos platform keyword w = (Ok n, w).
Proof.
  destruct (try_except_ret_ok
              (let name := worksheet_name platform in
               open_worksheet env sheet_id name ;;
               now <- utcnow ;;
               rows <- lift (rmap (batch_row (strftime env now) keyword) videos) ;;
               match rows with
               | [] => ret tt
               | _ => lift (append_rows (gspread env) sheet_id name rows)
               end ;;
               ret (Z.of_nat (List.length rows))) 0 w) as [n Hn].
  exists n.
  pose proof (add_videos_batch_reads_only env sheet_id videos platform keyword w) as Hw.
  unfold add_videos_batch in *.
  destruct (try_except _ _ w) as [r w']. simpl in *. now subst.
Qed.

Lemma update_transcription_in_sheet_total env sheet_id url platform t st w :
  exists b, update_transcription_in_sheet env sheet_id url platform t st w = (Ok b, w).
Proof.
  pose proof (update_transcription_in_sheet_reads_only env sheet_id url platform t st w)
    as Hw.
  unfold update_transcription_in_sheet in *.
  match goal with
  | |- context [try_except ?m ?h w] =>
      destruct (try_except_ret_ok m false w) as [b Hb]
  end.
  exists b.
  destruct (try_except _ _ w) as [r w']. simpl in *. now subst.
Qed.

(** ** Ingestion *)

Lemma extend_videos_nil w : extend_videos [] w = w.
Proof.
  destruct w as [[us ks vs js ss] c sw]. unfold extend_videos, set_videos. simpl.
  now rewrite app_nil_r.
Qed.

Lemma extend_videos_app a b w :
  extend_videos b (extend_videos a w) = extend_videos (a ++ b)%list w.
Proof.
  unfold extend_videos, set_videos. simpl. now rewrite app_assoc.
Qed.

Lemma find_by_url_None url s :
  find_by_url url s = None <-> ~ In url (urls (videos s)).
Proof.
  unfold find_by_url, first, urls. induction (videos s) as [|v vs IH]; simpl.
  - tauto.
  - destruct (Value_eqb (v_video_url v) url) eqn:E.
    + apply Value_eqb_eq in E. split; [discriminate | intros H; exfalso; auto].
    + apply Value_eqb_neq in E. rewrite IH. tauto.
Qed.

Lemma find_by_url_Some url s v :
  find_by_url url s = Some v -> In v (videos s) /\ v_video_url v = url.
Proof.
  unfold find_by_url, first. intros H. apply find_some in H as [Hin E].
  apply Value_eqb_eq in E. auto.
Qed.

Lemma ingest_spec env user_id kw vd w :
  ingest env user_id kw vd w =
  match db_fault env (ReadExisting (vd_video_url vd)) with
  | Some e => (Raise e, w)
  | None =>
      match find_by_url (vd_video_url vd) (db w) with
      | Some _ => (Ok Skipped, w)
      | None =>
          (Ok Inserted, extend_videos [new_video (db w) user_id kw vd (clock w)] w)
      end
  end.
Proof.
  unfold ingest, db_read, bind.
  destruct (db_fault env _); [reflexivity|]. simpl.
  destruct (find_by_url _ _); reflexivity.
Qed.

Lemma fresh_urls_nil old : fresh_urls old [].
Proof. split; [constructor | intros v []]. Qed.

Lemma fresh_urls_app old a b :
  fresh_urls old a -> fresh_urls (old ++ a)%list b -> fresh_urls old (a ++ b)%list.
Proof.
  unfold fresh_urls, urls. intros [Na Fa] [Nb Fb]. split.
  - rewrite map_app. apply NoDup_app; auto.
    intros u Hu Hu'. apply in_map_iff in Hu' as [v [<- Hv]].
    apply (Fb v Hv). rewrite map_app. apply in_or_app. now right.
  - intros v Hv Hold. apply in_app_or in Hv as [Hv|Hv].
    + now apply (Fa v).
    + apply (Fb v Hv). rewrite map_app. apply in_or_app. now left.
Qed.

Lemma unique_urls_extend new w :
  unique_urls (db w) -> fresh_urls (videos (db w)) new ->
  unique_urls (db (extend_videos new w)).
Proof.
  unfold unique_urls, fresh_urls, urls. simpl. intros Hu [Hn Hf].
  rewrite map_app. apply NoDup_app; auto.
  intros u Hold Hnew. apply in_map_iff in Hnew as [v [<- Hv]]. now apply (Hf v).
Qed.

(** What a batch does: it appends the videos [new], one for each candidate
    counted, none of whose URLs was stored before. *)
Lemma ingest_all_spec env user_id kw vds : forall total w,
  exists r new,
    ingest_all env user_id kw vds total w
      = (r, total + Z.of_nat (List.length new), extend_videos new w) /\
    fresh_urls (videos (db w)) new /\
    (forall v, In v new -> v_transcription_status v = "pending"
                           /\ v_transcription v = None).
Proof.
  induction vds as [|vd rest IH]; intros total w; simpl.
  - exists (Ok tt), []. rewrite extend_videos_nil. simpl.
    rewrite Z.add_0_r. split; [reflexivity|].
    split; [apply fresh_urls_nil | intros v []].
  - rewrite ingest_spec.
    destruct (db_fault env _) as [e|].
    { exists (Raise e), []. rewrite extend_videos_nil. simpl. rewrite Z.add_0_r.
      split; [reflexivity|]. split; [apply fresh_urls_nil | intros v []]. }
    destruct (find_by_url _ _) eqn:Hfind.
    + apply IH.
    + destruct (IH (total + 1) (extend_videos [new_video (db w) user_id kw vd (clock w)] w))
        as (r & new & Heq & Hfresh & Hpend).
      exists r, (new_video (db w) user_id kw vd (clock w) :: new).
      rewrite Heq, extend_videos_app. simpl List.length.
      split; [f_equal; f_equal; lia|]. split.
      * change (new_video (db w) user_id kw vd (clock w) :: new)
          with ([new_video (db w) user_id kw vd (clock w)] ++ new)%list.
        apply fresh_urls_app; [|exact Hfresh].
        split; [repeat constructor; intros []|].
        intros v [<-|[]]. simpl. now apply find_by_url_None.
      * intros v [<-|Hv]; [split; reflexivity | now apply Hpend].
Qed.

Lemma ingest_all_no_fault env user_id kw vds :
  (forall url, db_fault env (ReadExisting url) = None) ->
  forall total w, fst (fst (ingest_all env user_id kw vds total w)) = Ok tt.
Proof.
  intros Hnf. induction vds as [|vd rest IH]; intros total w; simpl.
  - reflexivity.
  - rewrite ingest_spec, Hnf. destruct (find_by_url _ _); apply IH.
Qed.

Lemma ingest_keeps_unique_urls env user_id kw vd w :
  unique_urls (db w) -> unique_urls (db (snd (ingest env user_id kw vd w))).
Proof.
  intros Hu. rewrite ingest_spec.
  destruct (db_fault env _); [exact Hu|].
  destruct (find_by_url _ _) eqn:Hfind; [exact Hu|]. simpl snd.
  apply unique_urls_extend; [exact Hu|].
  split; [repeat constructor; intros []|].
  intros v [<-|[]]. simpl. now apply find_by_url_None.
Qed.

Lemma ingest_keeps_urls env user_id kw vd w url :
  In url (urls (videos (db w))) ->
  In url (urls (videos (db (snd (ingest env user_id kw vd w))))).
Proof.
  intros Hin. rewrite ingest_spec.
  destruct (db_fault env _); [exact Hin|].
  destruct (find_by_url _ _); [exact Hin|]. simpl. unfold urls in *.
  rewrite map_app. apply in_or_app. now left.
Qed.

Lemma ingest_seq_keeps l : forall w url,
  unique_urls (db w) -> In url (urls (videos (db w))) ->
  unique_urls (db (ingest_seq l w)) /\ In url (urls (videos (db (ingest_seq l w)))).
Proof.
  induction l as [|[[[env uid] kw] vd] l IH]; intros w url Hu Hin; simpl.
  - auto.
  - apply IH; [now apply ingest_keeps_unique_urls | now apply ingest_keeps_urls].
Qed.

Lemma count_url_unique url vs :
  NoDup (urls vs) -> In url (urls vs) ->
  List.length (filter (fun v => Value_eqb (v_video_url v) url) vs) = 1%nat.
Proof.
  unfold urls. induction vs as [|v vs IH]; simpl; intros Hnd Hin; [contradiction|].
  inversion Hnd as [|? ? Hnotin Hnd']; subst.
  destruct (Value_eqb (v_video_url v) url) eqn:E.
  - apply Value_eqb_eq in E. subst. simpl. f_equal.
    clear IH Hnd Hnd' Hin. induction vs as [|x xs IHx]; simpl; [reflexivity|].
    destruct (Value_eqb (v_video_url x) (v_video_url v)) eqn:E'.
    + apply Value_eqb_eq in E'. exfalso. apply Hnotin. simpl. now left.
    + apply IHx. intros H. apply Hnotin. simpl. now right.
  - apply Value_eqb_neq in E. destruct Hin as [Hin|Hin]; [contradiction|]. now apply IH.
Qed.

(** C1: starting from a store in which no two videos share a source URL,
    once a candidate has been ingested, a later ingestion of a candidate with
    the same URL (for any user and keyword, after any other ingestions) is
    skipped and leaves the world as it was; exactly one stored video has that
    URL; and every ingestion keeps the source URLs of the store distinct. *)
Theorem ingest_same_url_once (env1 env2 : Env) (u1 u2 : Z) (k1 k2 : Keyword)
    (c1 c2 : VideoData) (between : list (Env * Z * Keyword * VideoData)) (w : World) :
  unique_urls (db w) ->
  vd_video_url c2 = vd_video_url c1 ->
  db_fault env1 (ReadExisting (vd_video_url c1)) = None ->
  db_fault env2 (ReadExisting (vd_video_url c1)) = None ->
  let w1 := ingest_seq between (snd (ingest env1 u1 k1 c1 w)) in
  ingest env2 u2 k2 c2 w1 = (Ok Skipped, w1) /\
  count_url (vd_video_url c1) (db w1) = 1%nat /\
  unique_urls (db w1) /\
  (forall env u k c w0,
      unique_urls (db w0) -> unique_urls (db (snd (ingest env u k c w0)))).
Proof.
  intros Hu Hurl Hf1 Hf2 w1.
  assert (Hin : In (vd_video_url c1)
                   (urls (videos (db (snd (ingest env1 u1 k1 c1 w)))))).
  { rewrite ingest_spec, Hf1.
    destruct (find_by_url _ _) eqn:Hfind; simpl.
    - apply find_by_url_Some in Hfind as [Hv Hv'].
      unfold urls. apply in_map_iff. eauto.
    - unfold urls. rewrite map_app. apply in_or_app. right. simpl. now left. }
  destruct (ingest_seq_keeps between _ _
              (ingest_keeps_unique_urls env1 u1 k1 c1 w Hu) Hin) as [Hu1 Hin1].
  fold w1 in Hu1, Hin1.
  repeat split.
  - rewrite ingest_spec, Hurl, Hf2.
    destruct (find_by_url _ _) eqn:Hfind; [reflexivity|].
    apply find_by_url_None in Hfind. contradiction.
  - unfold count_url. now apply count_url_unique.
  - exact Hu1.
  - intros. now apply ingest_keeps_unique_urls.
Qed.

(** ** The loop over the keywords *)

Lemma add_keywords_processed_0 j : add_keywords_processed 0 j = j.
Proof. destruct j. unfold add_keywords_processed. simpl. now rewrite Z.add_0_r. Qed.

Lemma on_job_id job_id f js : (forall j, f j = j) -> on_job job_id f js = js.
Proof.
  intros Hf. unfold on_job. induction js as [|j js IH]; simpl; [reflexivity|].
  rewrite IH. destruct (j_id j =? job_id); now rewrite ?Hf.
Qed.

Lemma on_job_on_job job_id f g js :
  (forall j, j_id (f j) = j_id j) ->
  on_job job_id g (on_job job_id f js) = on_job job_id (fun j => g (f j)) js.
Proof.
  intros Hf. unfold on_job. rewrite map_map. apply map_ext. intros j.
  destruct (j_id j =? job_id) eqn:E; [now rewrite Hf, E | now rewrite E].
Qed.

Lemma on_job_ext job_id f g js : (forall j, f j = g j) -> on_job job_id f js = on_job job_id g js.
Proof.
  intros H. unfold on_job. apply map_ext. intros j. now rewrite H.
Qed.

Lemma loop_effect_0 job_id w : loop_effect job_id 0 [] w = w.
Proof.
  destruct w as [[us ks vs js ss] c sw]. unfold loop_effect, set_jobs, set_videos. simpl.
  rewrite app_nil_r, on_job_id; [reflexivity | apply add_keywords_processed_0].
Qed.

Lemma loop_effect_extend job_id new w : loop_effect job_id 0 new w = extend_videos new w.
Proof.
  unfold loop_effect, extend_videos, set_jobs, set_videos. simpl.
  rewrite on_job_id; [reflexivity | apply add_keywords_processed_0].
Qed.

Lemma loop_effect_compose job_id n1 n2 new1 new2 w :
  loop_effect job_id n2 new2 (loop_effect job_id n1 new1 w)
  = loop_effect job_id (n1 + n2) (new1 ++ new2)%list w.
Proof.
  unfold loop_effect, set_jobs, set_videos. simpl.
  rewrite app_assoc, on_job_on_job by reflexivity.
  f_equal. f_equal. apply on_job_ext. intros j.
  unfold add_keywords_processed. simpl. now rewrite Z.add_assoc.
Qed.

Lemma update_job_spec job_id f w :
  update_job job_id f w
  = (Ok tt, {| db := set_jobs (on_job job_id f) (db w); clock := clock w;
               status_writes := status_writes w |}).
Proof. reflexivity. Qed.

Lemma finish_keyword_spec env job_id user kw vds w :
  finish_keyword env job_id user kw vds w = (Ok tt, loop_effect job_id 1 [] w).
Proof.
  unfold finish_keyword, bind.
  assert (Hbump : update_job job_id bump_keywords_processed w
                  = (Ok tt, loop_effect job_id 1 [] w)).
  { rewrite update_job_spec. unfold loop_effect, set_jobs, set_videos. simpl.
    now rewrite app_nil_r. }
  destruct (sheet_connected user) as [sheet_id|]; simpl.
  - destruct (add_videos_batch_total env sheet_id vds (k_platform kw) (k_keyword kw) w)
      as [n ->]. simpl. exact Hbump.
  - exact Hbump.
Qed.

(** One keyword: the turn never raises; it stores the videos of the
    candidates it counts and counts the keyword when it gets to the end. *)
Lemma process_keyword_spec env job_id user_id user settings kw total w :
  exists n new,
    process_keyword env job_id user_id user settings kw total w
      = (Ok (total + Z.of_nat (List.length new)), loop_effect job_id n new w) /\
    fresh_urls (videos (db w)) new /\
    (n = 0 \/ n = 1 /\ search_ok env settings kw = true) /\
    (search_ok env settings kw = false -> new = []) /\
    ((forall url, db_fault env (ReadExisting url) = None) ->
     n = if search_ok env settings kw then 1 else 0).
Proof.
  unfold process_keyword, search_ok.
  destruct (scrape_by_platform env _ _ _ _ _) as [vds|e]; simpl.
  - destruct (ingest_all_spec env user_id kw vds total w) as (r & new & Heq & Hfresh & _).
    pose proof (ingest_all_no_fault env user_id kw vds) as Hnf.
    rewrite Heq. destruct r as [[]|e].
    + rewrite finish_keyword_spec, <- (loop_effect_extend job_id), loop_effect_compose.
      rewrite app_nil_r. exists 1, new. simpl.
      split; [reflexivity|]. split; [exact Hfresh|]. split; [right; auto|].
      split; [discriminate | reflexivity].
    + exists 0, new. rewrite (loop_effect_extend job_id).
      split; [reflexivity|]. split; [exact Hfresh|]. split; [now left|].
      split; [discriminate|].
      intros Hall. specialize (Hnf Hall total w). rewrite Heq in Hnf. discriminate.
  - exists 0, []. rewrite loop_effect_0. simpl. rewrite Z.add_0_r.
    split; [reflexivity|]. split; [apply fresh_urls_nil|]. split; [now left|].
    split; reflexivity.
Qed.

Lemma process_keyword_search_fails env job_id user_id user settings kw total w :
  search_ok env settings kw = false ->
  process_keyword env job_id user_id user settings kw total w = (Ok total, w).
Proof.
  unfold process_keyword, search_ok.
  destruct (scrape_by_platform env _ _ _ _ _); [discriminate | reflexivity].
Qed.

Lemma scrape_loop_spec env job_id user_id user settings kws : forall total w,
  exists n new,
    scrape_loop env job_id user_id user settings kws total w
      = (Ok (total + Z.of_nat (List.length new)), loop_effect job_id n new w) /\
    fresh_urls (videos (db w)) new /\
    0 <= n <= searches_ok env settings kws /\
    ((forall url, db_fault env (ReadExisting url) = None) ->
     n = searches_ok env settings kws).
Proof.
  unfold searches_ok.
  induction kws as [|kw rest IH]; intros total w; simpl.
  - exists 0, []. rewrite loop_effect_0. unfold ret. simpl. rewrite Z.add_0_r.
    split; [reflexivity|]. split; [apply fresh_urls_nil|]. split; [lia | reflexivity].
  - unfold bind.
    destruct (process_keyword_spec env job_id user_id user settings kw total w)
      as (n1 & new1 & Heq1 & Hf1 & Hn1 & _ & Hex1).
    rewrite Heq1.
    destruct (IH (total + Z.of_nat (List.length new1)) (loop_effect job_id n1 new1 w))
      as (n2 & new2 & Heq2 & Hf2 & Hn2 & Hex2).
    rewrite Heq2, loop_effect_compose.
    exists (n1 + n2), (new1 ++ new2)%list.
    split; [f_equal; f_equal; rewrite length_app; lia|].
    split; [apply fresh_urls_app; assumption|].
    split.
    + destruct Hn1 as [->|[-> ->]]; simpl List.length;
        destruct (search_ok env settings kw); simpl List.length; lia.
    + intros Hall. rewrite (Hex1 Hall), (Hex2 Hall).
      destruct (search_ok env settings kw); simpl List.length; lia.
Qed.


(** ** Lookups after an update *)

Lemma find_job_id job_id s j : find_job job_id s = Some j -> j_id j = job_id.
Proof.
  unfold find_job, first. intros H. apply find_some in H as [_ H]. now apply Z.eqb_eq.
Qed.

Lemma find_on_job job_id f js :
  (forall j, j_id (f j) = j_id j) ->
  List.find (fun j => j_id j =? job_id) (on_job job_id f js)
  = option_map f (List.find (fun j => j_id j =? job_id) js).
Proof.
  intros Hid. unfold on_job. induction js as [|j js IH]; simpl; [reflexivity|].
  destruct (j_id j =? job_id) eqn:E.
  - now rewrite Hid, E.
  - now rewrite E.
Qed.

Lemma find_job_loop_effect job_id n new w :
  find_job job_id (db (loop_effect job_id n new w))
  = option_map (add_keywords_processed n) (find_job job_id (db w)).
Proof. unfold find_job, first. simpl. now apply find_on_job. Qed.

(** ** The scrape job, case by case *)

Lemma run_scrape_job_cases env job_id user_id platform w :
  let job := find_job job_id (db w) in
  let user := find_user user_id (db w) in
  let settings := find_settings user_id (db w) in
  let kws := select_keywords user_id platform (db w) in
  let res := run_scrape_job env job_id user_id platform w in
  match db_fault env (ReadJob job_id) with
  | Some _ => res = (Raise "UnboundLocalError: local variable 'job'", w)
  | None =>
      match lookup_fault env user_id with
      | Some e => res = fail_job job e w
      | None =>
          match job, user with
          | Some j, Some u =>
              match db_fault env (ReadKeywords user_id) with
              | Some e => res = fail_job (Some j) e (snd (start_job job_id w))
              | None =>
                  exists n new,
                    res = complete_job job_id (Z.of_nat (List.length new))
                            (loop_effect job_id n new (snd (start_job job_id w))) /\
                    fresh_urls (videos (db w)) new /\
                    0 <= n <= searches_ok env settings kws /\
                    ((forall url, db_fault env (ReadExisting url) = None) ->
                     n = searches_ok env settings kws)
              end
          | _, _ => res = (Ok tt, w)
          end
      end
  end.
Proof.
  intros job user settings kws res. subst res job user settings kws.
  cbv [run_scrape_job scrape_body try_except bind db_read lookup_fault raise get_db ret].
  destruct (db_fault env (ReadJob job_id)) as [e0|]; [reflexivity|].
  destruct (db_fault env (ReadUser user_id)) as [e1|]; [reflexivity|].
  destruct (db_fault env (ReadSettings user_id)) as [e2|]; [reflexivity|].
  destruct (find_job job_id (db w)) as [j|] eqn:Hjob; [|reflexivity].
  destruct (find_user user_id (db w)) as [u|] eqn:Huser; [|reflexivity].
  assert (Hid : j_id j = job_id) by (eapply find_job_id; exact Hjob).
  rewrite Hid.
  destruct (start_job job_id w) as [[[]|e] w1] eqn:Hstart; [|discriminate].
  simpl snd.
  destruct (db_fault env (ReadKeywords user_id)) as [e3|]; [reflexivity|].
  replace (select_keywords user_id platform (db w1))
    with (select_keywords user_id platform (db w))
    by (injection Hstart as <-; reflexivity).
  destruct (scrape_loop_spec env job_id user_id u (find_settings user_id (db w))
              (select_keywords user_id platform (db w)) 0 w1)
    as (n & new & Heq & Hfresh & Hn & Hex).
  replace (videos (db w1)) with (videos (db w)) in Hfresh
    by (injection Hstart as <-; reflexivity).
  exists n, new. simpl in Heq. rewrite Heq.
  split; [reflexivity|]. split; [exact Hfresh|]. split; assumption.
Qed.

Lemma find_job_start_job job_id w :
  find_job job_id (db (snd (start_job job_id w)))
  = option_map (mark_running (clock w)) (find_job job_id (db w)).
Proof. unfold find_job, first. simpl. now apply find_on_job. Qed.

Lemma find_job_complete_job job_id total w :
  find_job job_id (db (snd (complete_job job_id total w)))
  = option_map (mark_completed total (clock w)) (find_job job_id (db w)).
Proof. unfold find_job, first. simpl. now apply find_on_job. Qed.

Lemma find_job_fail_job j e w :
  find_job (j_id j) (db (snd (fail_job (Some j) e w)))
  = option_map (mark_failed e (clock w)) (find_job (j_id j) (db w)).
Proof. unfold find_job, first. simpl. now apply find_on_job. Qed.

(** ** What a run does to the store *)

(** A batch, with where its rows come from, what it covers, and when it
    stores nothing. *)
Lemma ingest_all_from env user_id kw vds : forall total w,
  exists r new,
    ingest_all env user_id kw vds total w
      = (r, total + Z.of_nat (List.length new), extend_videos new w) /\
    Forall (fun v => exists vd s, In vd vds /\ v = new_video s user_id kw vd (clock w))
           new /\
    (r = Ok tt ->
     forall vd, In vd vds -> In (vd_video_url vd) (urls (videos (db w) ++ new))) /\
    ((forall vd, In vd vds -> In (vd_video_url vd) (urls (videos (db w)))) -> new = []).
Proof.
  induction vds as [|vd rest IH]; intros total w; simpl.
  - exists (Ok tt), []. rewrite extend_videos_nil. simpl. rewrite Z.add_0_r.
    split; [reflexivity|]. split; [constructor|]. split; [intros _ ? []|reflexivity].
  - rewrite ingest_spec.
    destruct (db_fault env _) as [e|].
    { exists (Raise e), []. rewrite extend_videos_nil. simpl. rewrite Z.add_0_r.
      split; [reflexivity|]. split; [constructor|]. split; [discriminate|reflexivity]. }
    destruct (find_by_url _ _) as [v0|] eqn:Hfind.
    + destruct (IH total w) as (r & new & Heq & Hfrom & Hcov & Hidle).
      exists r, new. split; [exact Heq|]. split; [|split].
      * eapply Forall_impl; [|exact Hfrom].
        intros v (vd' & s & Hin & ->). exists vd', s. split; [now right | reflexivity].
      * intros Hr vd' [<-|Hin]; [|now apply Hcov].
        apply find_by_url_Some in Hfind as [Hin0 Hurl].
        unfold urls. rewrite map_app. apply in_or_app. left.
        rewrite <- Hurl. now apply in_map.
      * intros Hall. apply Hidle. intros vd' Hin. apply Hall. now right.
    + destruct (IH (total + 1) (extend_videos [new_video (db w) user_id kw vd (clock w)] w))
        as (r & new & Heq & Hfrom & Hcov & _).
      exists r, (new_video (db w) user_id kw vd (clock w) :: new).
      rewrite Heq, extend_videos_app. simpl List.length.
      split; [f_equal; f_equal; lia|]. split; [|split].
      * constructor.
        -- exists vd, (db w). split; [now left | reflexivity].
        -- eapply Forall_impl; [|exact Hfrom].
           intros v (vd' & s & Hin & ->). exists vd', s. split; [now right | reflexivity].
      * intros Hr vd' Hin. simpl in Hcov. rewrite <- app_assoc in Hcov. simpl in Hcov.
        destruct Hin as [<-|Hin]; [|now apply Hcov].
        unfold urls. rewrite map_app. apply in_or_app. right. now left.
      * intros Hall. exfalso. apply find_by_url_None in Hfind. apply Hfind.
        apply Hall. now left.
Qed.

Lemma stored_from_more env user_id settings kws kws' now v :
  (forall kw, In kw kws -> In kw kws') ->
  stored_from env user_id settings kws now v ->
  stored_from env user_id settings kws' now v.
Proof.
  intros Hsub (kw & vd & s & Hin & Hvd & ->). exists kw, vd, s. auto.
Qed.

Lemma candidates_Ok env settings kw vds :
  scrape_by_platform env (k_platform kw) (k_keyword kw) (k_results_per_run kw)
    (match settings with Some s => s_min_likes s | None => 1000 end)
    (match settings with Some s => s_date_filter s | None => "this_week" end) = Ok vds ->
  candidates env settings kw = vds.
Proof. unfold candidates. now intros ->. Qed.

Lemma candidates_Raise env settings kw e :
  scrape_by_platform env (k_platform kw) (k_keyword kw) (k_results_per_run kw)
    (match settings with Some s => s_min_likes s | None => 1000 end)
    (match settings with Some s => s_date_filter s | None => "this_week" end) = Raise e ->
  candidates env settings kw = [].
Proof. unfold candidates. now intros ->. Qed.

Lemma covered_more env settings kws us us' :
  (forall u, In u us -> In u us') ->
  covered env settings kws us -> covered env settings kws us'.
Proof. intros Hsub H kw vd Hkw Hvd. apply Hsub. now apply (H kw vd). Qed.

Lemma covered_cons env settings kw kws us :
  covered env settings (kw :: kws) us <->
  covered env settings [kw] us /\ covered env settings kws us.
Proof.
  unfold covered. split.
  - intros H. split; intros kw0 vd Hin Hvd; apply (H kw0 vd); auto.
    + destruct Hin as [<-|[]]. now left.
    + now right.
  - intros [H1 H2] kw0 vd [<-|Hin] Hvd; [apply (H1 kw vd) | apply (H2 kw0 vd)]; auto.
    now left.
Qed.

Lemma process_keyword_from env job_id user_id user settings kw total w :
  exists n new,
    process_keyword env job_id user_id user settings kw total w
      = (Ok (total + Z.of_nat (List.length new)), loop_effect job_id n new w) /\
    0 <= n /\
    Forall (stored_from env user_id settings [kw] (clock w)) new /\
    ((forall url, db_fault env (ReadExisting url) = None) ->
     covered env settings [kw] (urls (videos (db w) ++ new))) /\
    (covered env settings [kw] (urls (videos (db w))) -> new = []).
Proof.
  unfold process_keyword.
  destruct (scrape_by_platform env _ _ _ _ _) as [vds|e] eqn:E.
  - pose proof (candidates_Ok _ _ _ _ E) as Hc.
    destruct (ingest_all_from env user_id kw vds total w)
      as (r & new & Heq & Hfrom & Hcov & Hidle).
    pose proof (ingest_all_no_fault env user_id kw vds) as Hnf.
    rewrite Heq.
    assert (Hfrom' : Forall (stored_from env user_id settings [kw] (clock w)) new).
    { eapply Forall_impl; [|exact Hfrom]. intros v (vd & s & Hin & ->).
      exists kw, vd, s. split; [now left|]. split; [now rewrite Hc | reflexivity]. }
    assert (Hidle' : covered env settings [kw] (urls (videos (db w))) -> new = []).
    { intros H. apply Hidle. intros vd Hin. apply (H kw vd); [now left | now rewrite Hc]. }
    destruct r as [[]|e0].
    + rewrite finish_keyword_spec, <- (loop_effect_extend job_id), loop_effect_compose.
      rewrite app_nil_r. exists 1, new. simpl.
      split; [reflexivity|]. split; [lia|]. split; [exact Hfrom'|].
      split; [|exact Hidle'].
      intros _ kw0 vd [<-|[]] Hin. apply Hcov; [reflexivity | now rewrite <- Hc].
    + exists 0, new. rewrite (loop_effect_extend job_id).
      split; [reflexivity|]. split; [lia|]. split; [exact Hfrom'|].
      split; [|exact Hidle'].
      intros Hall. specialize (Hnf Hall total w). rewrite Heq in Hnf. discriminate.
  - pose proof (candidates_Raise _ _ _ _ E) as Hc.
    exists 0, []. rewrite loop_effect_0. simpl. rewrite Z.add_0_r.
    split; [reflexivity|]. split; [lia|]. split; [constructor|].
    split; [|reflexivity].
    intros _ kw0 vd [<-|[]] Hin. rewrite Hc in Hin. destruct Hin.
Qed.

(** The loop over the keywords: where the rows it stores come from, what
    it covers, and when it stores nothing. *)
Lemma scrape_loop_from env job_id user_id user settings kws : forall total w,
  exists n new,
    scrape_loop env job_id user_id user settings kws total w
      = (Ok (total + Z.of_nat (List.length new)), loop_effect job_id n new w) /\
    0 <= n /\
    Forall (stored_from env user_id settings kws (clock w)) new /\
    ((forall url, db_fault env (ReadExisting url) = None) ->
     covered env settings kws (urls (videos (db w) ++ new))) /\
    (covered env settings kws (urls (videos (db w))) -> new = []).
Proof.
  induction kws as [|kw rest IH]; intros total w; simpl.
  - exists 0, []. rewrite loop_effect_0. unfold ret. simpl. rewrite Z.add_0_r.
    split; [reflexivity|]. split; [lia|]. split; [constructor|].
    split; [intros _ kw vd []|reflexivity].
  - unfold bind.
    destruct (process_keyword_from env job_id user_id user settings kw total w)
      as (n1 & new1 & Heq1 & Hn1 & Hfrom1 & Hcov1 & Hidle1).
    rewrite Heq1.
    destruct (IH (total + Z.of_nat (List.length new1)) (loop_effect job_id n1 new1 w))
      as (n2 & new2 & Heq2 & Hn2 & Hfrom2 & Hcov2 & Hidle2).
    rewrite Heq2, loop_effect_compose.
    change (videos (db (loop_effect job_id n1 new1 w)))
      with (videos (db w) ++ new1)%list in *.
    change (clock (loop_effect job_id n1 new1 w)) with (clock w) in *.
    exists (n1 + n2), (new1 ++ new2)%list.
    split; [f_equal; f_equal; rewrite length_app; lia|].
    split; [lia|]. split; [|split].
    + apply Forall_app. split.
      * eapply Forall_impl; [|exact Hfrom1]. intros v.
        apply stored_from_more. intros k [<-|[]]. now left.
      * eapply Forall_impl; [|exact Hfrom2]. intros v.
        apply stored_from_more. intros k Hk. now right.
    + intros Hall. apply covered_cons. split.
      * eapply covered_more; [|exact (Hcov1 Hall)].
        unfold urls. intros u Hu. rewrite app_assoc, map_app. apply in_or_app. now left.
      * rewrite app_assoc. exact (Hcov2 Hall).
    + intros Hc. apply covered_cons in Hc as [Hc1 Hc2].
      rewrite (Hidle1 Hc1) in *. rewrite app_nil_r in Hidle2.
      now rewrite (Hidle2 Hc2).
Qed.

(** A run that gets to the loop is the start, the loop and the end. *)
Lemma run_scrape_job_reaches_the_loop env job_id user_id platform w j u :
  db_fault env (ReadJob job_id) = None ->
  lookup_fault env user_id = None ->
  db_fault env (ReadKeywords user_id) = None ->
  find_job job_id (db w) = Some j ->
  find_user user_id (db w) = Some u ->
  exists total w2,
    scrape_loop env job_id user_id u (find_settings user_id (db w))
      (select_keywords user_id platform (db w)) 0 (snd (start_job job_id w))
      = (Ok total, w2) /\
    run_scrape_job env job_id user_id platform w = complete_job job_id total w2.
Proof.
  intros Hj Hl Hk Hjob Huser.
  destruct (scrape_loop_spec env job_id user_id u (find_settings user_id (db w))
              (select_keywords user_id platform (db w)) 0 (snd (start_job job_id w)))
    as (n & new & Heq & _).
  eexists _, _. split; [exact Heq|].
  revert Hl. cbv [run_scrape_job scrape_body try_except bind db_read lookup_fault raise
                  get_db ret].
  rewrite Hj. destruct (db_fault env (ReadUser user_id)); [discriminate|].
  intros ->. rewrite Hjob, Huser.
  assert (Hid : j_id j = job_id) by (eapply find_job_id; exact Hjob).
  rewrite Hid.
  destruct (start_job job_id w) as [[[]|e] w1] eqn:Hstart; [|discriminate].
  simpl snd in *. rewrite Hk.
  replace (select_keywords user_id platform (db w1))
    with (select_keywords user_id platform (db w))
    by (injection Hstart as <-; reflexivity).
  simpl in Heq. now rewrite Heq.
Qed.

Lemma same_identity_refl j : same_identity j j.
Proof. repeat split. Qed.

Lemma same_identity_trans a b c :
  same_identity a b -> same_identity b c -> same_identity a c.
Proof.
  unfold same_identity. intros (H1 & H2 & H3 & H4 & H5) (G1 & G2 & G3 & G4 & G5).
  repeat split; congruence.
Qed.

(** What a run does to the store, whatever it meets. *)
Lemma run_scrape_job_effect env job_id user_id platform w :
  exists f new,
    users (db (snd (run_scrape_job env job_id user_id platform w))) = users (db w) /\
    keywords (db (snd (run_scrape_job env job_id user_id platform w))) = keywords (db w) /\
    user_settings (db (snd (run_scrape_job env job_id user_id platform w)))
      = user_settings (db w) /\
    clock (snd (run_scrape_job env job_id user_id platform w)) = clock w /\
    jobs (db (snd (run_scrape_job env job_id user_id platform w)))
      = on_job job_id f (jobs (db w)) /\
    videos (db (snd (run_scrape_job env job_id user_id platform w)))
      = (videos (db w) ++ new)%list /\
    (forall j, same_identity j (f j) /\
               j_keywords_processed j <= j_keywords_processed (f j)) /\
    Forall (stored_from env user_id (find_settings user_id (db w))
              (select_keywords user_id platform (db w)) (clock w)) new.
Proof.
  pose proof (run_scrape_job_cases env job_id user_id platform w) as Hc.
  cbv zeta in Hc.
  assert (Hnothing : forall r,
    run_scrape_job env job_id user_id platform w = (r, w) ->
    exists f new,
    users (db (snd (run_scrape_job env job_id user_id platform w))) = users (db w) /\
    keywords (db (snd (run_scrape_job env job_id user_id platform w))) = keywords (db w) /\
    user_settings (db (snd (run_scrape_job env job_id user_id platform w)))
      = user_settings (db w) /\
    clock (snd (run_scrape_job env job_id user_id platform w)) = clock w /\
    jobs (db (snd (run_scrape_job env job_id user_id platform w)))
      = on_job job_id f (jobs (db w)) /\
    videos (db (snd (run_scrape_job env job_id user_id platform w)))
      = (videos (db w) ++ new)%list /\
    (forall j, same_identity j (f j) /\
               j_keywords_processed j <= j_keywords_processed (f j)) /\
    Forall (stored_from env user_id (find_settings user_id (db w))
              (select_keywords user_id platform (db w)) (clock w)) new).
  { intros r ->. exists (fun j => j), []. simpl.
    rewrite app_nil_r, on_job_id by reflexivity.
    repeat (split; [reflexivity|]). split; [|constructor].
    intros j. split; [apply same_identity_refl | lia]. }
  destruct (db_fault env (ReadJob job_id)) eqn:Hj; [now apply (Hnothing _ Hc)|].
  destruct (lookup_fault env user_id) as [e|] eqn:Hl.
  { destruct (find_job job_id (db w)) as [j|] eqn:Hjob; [|now apply (Hnothing _ Hc)].
    pose proof (find_job_id _ _ _ Hjob) as Hid.
    exists (mark_failed e (clock w)), []. rewrite Hc. simpl. rewrite app_nil_r, Hid.
    repeat (split; [reflexivity|]). split; [|constructor].
    intros j0. split; [repeat split | simpl; lia]. }
  destruct (find_job job_id (db w)) as [j|] eqn:Hjob; [|now apply (Hnothing _ Hc)].
  destruct (find_user user_id (db w)) as [u|] eqn:Huser; [|now apply (Hnothing _ Hc)].
  pose proof (find_job_id _ _ _ Hjob) as Hid.
  destruct (db_fault env (ReadKeywords user_id)) as [e|] eqn:Hk.
  { exists (fun x => mark_failed e (clock w) (mark_running (clock w) x)), [].
    rewrite Hc. simpl. rewrite app_nil_r, Hid.
    fold (on_job job_id (mark_running (clock w)) (jobs (db w))).
    fold (on_job job_id (mark_failed e (clock w))
            (on_job job_id (mark_running (clock w)) (jobs (db w)))).
    rewrite on_job_on_job by reflexivity.
    repeat (split; [reflexivity|]). split; [|constructor].
    intros j0. split; [repeat split | simpl; lia]. }
  clear Hc.
  destruct (run_scrape_job_reaches_the_loop env job_id user_id platform w j u
              Hj Hl Hk Hjob Huser) as (total & w2 & Hloop & ->).
  destruct (scrape_loop_from env job_id user_id u (find_settings user_id (db w))
              (select_keywords user_id platform (db w)) 0 (snd (start_job job_id w)))
    as (n & new & Heq & Hn & Hfrom & _).
  rewrite Hloop in Heq. injection Heq as -> ->.
  exists (fun x => mark_completed (0 + Z.of_nat (List.length new)) (clock w)
                     (add_keywords_processed n (mark_running (clock w) x))), new.
  simpl.
  fold (on_job job_id (mark_running (clock w)) (jobs (db w))).
  fold (on_job job_id (add_keywords_processed n)
          (on_job job_id (mark_running (clock w)) (jobs (db w)))).
  fold (on_job job_id (mark_completed (Z.of_nat (List.length new)) (clock w))
          (on_job job_id (add_keywords_processed n)
             (on_job job_id (mark_running (clock w)) (jobs (db w))))).
  rewrite !on_job_on_job by reflexivity.
  repeat (split; [reflexivity|]). split; [|exact Hfrom].
  intros j0. split; [repeat split | simpl; lia].
Qed.


(** ** A failing search is confined to its keyword *)


(** ** The counter of videos found *)

(** C5: when a run takes a job that was not [COMPLETED] to [COMPLETED], the
    stored videos are those of before followed by the videos [new] inserted
    by the run, [videos_found] is the number of these, and none of them has a
    URL that was stored before or that another of them has. *)
Theorem videos_found_counts_inserted (env : Env) (job_id user_id : Z)
    (platform : option PlatformEnum) (w : World) (j j' : ScrapeJob) :
  find_job job_id (db w) = Some j ->
  j_status j <> COMPLETED ->
  find_job job_id (db (snd (run_scrape_job env job_id user_id platform w))) = Some j' ->
  j_status j' = COMPLETED ->
  exists new,
    videos (db (snd (run_scrape_job env job_id user_id platform w)))
      = (videos (db w) ++ new)%list /\
    j_videos_found j' = Z.of_nat (List.length new) /\
    fresh_urls (videos (db w)) new.
Proof.
  intros Hjob Hnot Hjob' Hdone.
  pose proof (run_scrape_job_cases env job_id user_id platform w) as Hc.
  cbv zeta in Hc. rewrite Hjob in Hc.
  pose proof (find_job_id _ _ _ Hjob) as Hid.
  destruct (db_fault env (ReadJob job_id)).
  { rewrite Hc in Hjob'. simpl in Hjob'. congruence. }
  destruct (lookup_fault env user_id).
  { rewrite Hc, <- Hid, find_job_fail_job, Hid, Hjob in Hjob'. simpl in Hjob'.
    injection Hjob' as <-. discriminate. }
  destruct (find_user user_id (db w)).
  2:{ rewrite Hc in Hjob'. simpl in Hjob'. congruence. }
  destruct (db_fault env (ReadKeywords user_id)).
  { rewrite Hc in Hjob'. rewrite <- Hid in Hjob' at 1.
    rewrite find_job_fail_job, Hid, find_job_start_job, Hjob in Hjob'.
    simpl in Hjob'. injection Hjob' as <-. discriminate. }
  destruct Hc as (n & new & Hres & Hfresh & _).
  exists new. rewrite Hres in *.
  rewrite find_job_complete_job, find_job_loop_effect, find_job_start_job, Hjob in Hjob'.
  simpl in Hjob'. injection Hjob' as <-.
  split; [reflexivity|]. split; [reflexivity | exact Hfresh].
Qed.

(** ** Keywords on YouTube *)

(** C9: the dispatch raises the unsupported-platform error for YouTube, so
    the turn of a keyword on YouTube returns with the counter of videos and
    the world (jobs and videos included) as they were, and a run over a list
    of keywords is the run over the list without its YouTube keywords. *)
Theorem youtube_keyword_never_counts (env : Env) (job_id user_id : Z) (user : User)
    (settings : option UserSettings) (kw : Keyword) :
  k_platform kw = YOUTUBE ->
  scrape_by_platform env (k_platform kw) (k_keyword kw) (k_results_per_run kw)
    (match settings with Some s => s_min_likes s | None => 1000 end)
    (match settings with Some s => s_date_filter s | None => "this_week" end)
    = Raise ("Unsupported platform: " ++ format_platform env YOUTUBE) /\
  search_ok env settings kw = false /\
  (forall total w,
      process_keyword env job_id user_id user settings kw total w = (Ok total, w)) /\
  (forall kws total w,
      scrape_loop env job_id user_id user settings kws total w
      = scrape_loop env job_id user_id user settings
          (filter (fun k => negb (PlatformEnum_eqb (k_platform k) YOUTUBE)) kws)
          total w).
Proof.
  intros Hyt.
  assert (Hno : forall k, PlatformEnum_eqb (k_platform k) YOUTUBE = true ->
                          search_ok env settings k = false).
  { intros k Hk. apply PlatformEnum_eqb_eq in Hk. unfold search_ok. now rewrite Hk. }
  split; [now rewrite Hyt|].
  split; [apply Hno; now rewrite Hyt|].
  split.
  - intros. apply process_keyword_search_fails. apply Hno. now rewrite Hyt.
  - induction kws as [|k kws IH]; intros total w; simpl; [reflexivity|].
    destruct (PlatformEnum_eqb (k_platform k) YOUTUBE) eqn:Ek; simpl.
    + unfold bind. rewrite process_keyword_search_fails by now apply Hno. apply IH.
    + unfold bind.
      destruct (process_keyword _ _ _ _ _ _ _ _) as [[t|e] w']; [apply IH | reflexivity].
Qed.

(** ** The mirror has no say in the outcome *)

Lemma tiktok_collect_mirror env g min_likes items :
  tiktok_collect (with_mirror env g) min_likes items = tiktok_collect env min_likes items.
Proof.
  induction items as [|item rest IH]; simpl; [reflexivity|].
  destruct (py_ge_int _ _) as [[|]|e]; simpl; try reflexivity; [|exact IH].
  change (tiktok_video_data (with_mirror env g) item) with (tiktok_video_data env item).
  destruct (tiktok_video_data env item); simpl; [now rewrite IH | reflexivity].
Qed.

Lemma instagram_collect_mirror env g min_likes items :
  instagram_collect (with_mirror env g) min_likes items
  = instagram_collect env min_likes items.
Proof.
  induction items as [|item rest IH]; simpl; [reflexivity|].
  destruct (negb _ && _)%bool; [exact IH|].
  destruct (py_ge_int _ _) as [[|]|e]; simpl; try reflexivity; [|exact IH].
  change (instagram_video_data (with_mirror env g) item)
    with (instagram_video_data env item).
  destruct (instagram_video_data env item); simpl; [now rewrite IH | reflexivity].
Qed.

Lemma scrape_by_platform_mirror env g platform keyword max_results min_likes date_filter :
  scrape_by_platform (with_mirror env g) platform keyword max_results min_likes date_filter
  = scrape_by_platform env platform keyword max_results min_likes date_filter.
Proof.
  destruct platform; simpl; [| |reflexivity].
  - unfold scrape_tiktok. simpl.
    destruct (actor_call env _ _); simpl; [|reflexivity].
    destruct (subscript _ _); simpl; [|reflexivity].
    destruct (iterate_items env _); simpl; [|reflexivity].
    now rewrite tiktok_collect_mirror.
  - unfold scrape_instagram. simpl.
    destruct (actor_call env _ _); simpl; [|reflexivity].
    destruct (subscript _ _); simpl; [|reflexivity].
    destruct (iterate_items env _); simpl; [|reflexivity].
    now rewrite instagram_collect_mirror.
Qed.

Lemma ingest_all_mirror env g user_id kw vds : forall total w,
  ingest_all (with_mirror env g) user_id kw vds total w
  = ingest_all env user_id kw vds total w.
Proof.
  induction vds as [|vd rest IH]; intros total w; simpl; [reflexivity|].
  change (ingest (with_mirror env g) user_id kw vd w) with (ingest env user_id kw vd w).
  destruct (ingest env user_id kw vd w) as [[[|]|e] w']; auto.
Qed.

Lemma process_keyword_mirror env g job_id user_id user settings kw total w :
  process_keyword (with_mirror env g) job_id user_id user settings kw total w
  = process_keyword env job_id user_id user settings kw total w.
Proof.
  unfold process_keyword. rewrite scrape_by_platform_mirror.
  destruct (scrape_by_platform env _ _ _ _ _) as [vds|e]; [|reflexivity].
  rewrite ingest_all_mirror.
  destruct (ingest_all env user_id kw vds total w) as [[[[]|e] t] w1]; [|reflexivity].
  now rewrite !finish_keyword_spec.
Qed.

Lemma scrape_loop_mirror env g job_id user_id user settings kws : forall total w,
  scrape_loop (with_mirror env g) job_id user_id user settings kws total w
  = scrape_loop env job_id user_id user settings kws total w.
Proof.
  induction kws as [|kw rest IH]; intros total w; simpl; [reflexivity|].
  unfold bind. rewrite process_keyword_mirror.
  destruct (process_keyword env _ _ _ _ _ _ _) as [[t|e] w']; [apply IH | reflexivity].
Qed.

Lemma run_scrape_job_mirror env g job_id user_id platform w :
  run_scrape_job (with_mirror env g) job_id user_id platform w
  = run_scrape_job env job_id user_id platform w.
Proof.
  cbv [run_scrape_job scrape_body try_except bind db_read raise get_db ret].
  change (db_fault (with_mirror env g)) with (db_fault env).
  destruct (db_fault env (ReadJob job_id)); [reflexivity|].
  destruct (db_fault env (ReadUser user_id)); [reflexivity|].
  destruct (db_fault env (ReadSettings user_id)); [reflexivity|].
  destruct (find_job job_id (db w)); [|reflexivity].
  destruct (find_user user_id (db w)); [|reflexivity].
  destruct (start_job _ w) as [[[]|e] w1]; [|reflexivity].
  destruct (db_fault env (ReadKeywords user_id)); [reflexivity|].
  now rewrite scrape_loop_mirror.
Qed.

Lemma mirror_transcription_spec env v t w :
  mirror_transcription env v t w =
  match db_fault env (ReadOwner (v_user_id v)) with
  | Some e => (Raise e, w)
  | None => (Ok tt, w)
  end.
Proof.
  cbv [mirror_transcription bind db_read raise get_db ret].
  destruct (db_fault env _); [reflexivity|].
  destruct (find_user _ _) as [u|]; [|reflexivity].
  destruct (sheet_connected u) as [sheet_id|]; [|reflexivity].
  destruct (update_transcription_in_sheet_total env sheet_id (v_video_url v)
              (v_platform v) t "completed" w) as [b ->].
  reflexivity.
Qed.

Lemma transcription_pipeline_mirror env g v w :
  transcription_pipeline (with_mirror env g) v w = transcription_pipeline env v w.
Proof.
  unfold transcription_pipeline, bind, lift.
  change (transcribe_video (with_mirror env g)) with (transcribe_video env).
  destruct (transcribe_video env (v_video_url v)); [|reflexivity].
  destruct (update_video _ _ w) as [[[]|e] w1]; [|reflexivity].
  now rewrite !mirror_transcription_spec.
Qed.

Lemma run_transcription_job_mirror env g video_id w :
  run_transcription_job (with_mirror env g) video_id w
  = run_transcription_job env video_id w.
Proof.
  unfold run_transcription_job, bind, try_except at 1 3, db_read.
  change (db_fault (with_mirror env g)) with (db_fault env).
  destruct (db_fault env (ReadVideo video_id)); [reflexivity|].
  cbv [bind get_db ret]. 
  destruct (find_video video_id (db w)) as [v|]; [|reflexivity].
  unfold try_except, transcription_body, bind.
  destruct (update_video _ _ w) as [[[]|e] w1]; [|reflexivity].
  now rewrite transcription_pipeline_mirror.
Qed.

Lemma advance_mirror env g t w : advance (with_mirror env g) t w = advance env t w.
Proof.
  destruct t as [[job_id user_id platform|video_id]|v]; simpl.
  - now rewrite run_scrape_job_mirror.
  - reflexivity.
  - unfold try_except. now rewrite transcription_pipeline_mirror.
Qed.

(** C8: the two mirror operations never raise and leave the world as it
    was, whatever the spreadsheet client does; and a scrape job, a
    transcription job, and every piece of a task return the same result and
    the same world (jobs and videos included) under any two mirrors, for
    instance one that always fails and one that always succeeds. *)
Theorem mirror_failures_are_swallowed (env : Env) (g1 g2 : Gspread) :
  (forall sheet_id videos platform keyword w,
      exists n, add_videos_batch env sheet_id videos platform keyword w = (Ok n, w)) /\
  (forall sheet_id video_url platform transcription status w,
      exists b,
        update_transcription_in_sheet env sheet_id video_url platform transcription
          status w = (Ok b, w)) /\
  (forall job_id user_id platform w,
      run_scrape_job (with_mirror env g1) job_id user_id platform w
      = run_scrape_job (with_mirror env g2) job_id user_id platform w) /\
  (forall video_id w,
      run_transcription_job (with_mirror env g1) video_id w
      = run_transcription_job (with_mirror env g2) video_id w) /\
  (forall t w, advance (with_mirror env g1) t w = advance (with_mirror env g2) t w).
Proof.
  split; [intros; apply add_videos_batch_total|].
  split; [intros; apply update_transcription_in_sheet_total|].
  split; [intros; now rewrite !run_scrape_job_mirror|].
  split; [intros; now rewrite !run_transcription_job_mirror|].
  intros. now rewrite !advance_mirror.
Qed.

(** ** The transcription job *)

Lemma find_video_id video_id s v : find_video video_id s = Some v -> v_id v = video_id.
Proof.
  unfold find_video, first. intros H. apply find_some in H as [_ H]. now apply Z.eqb_eq.
Qed.

Lemma find_video_update video_id f w :
  (forall v, v_id (f v) = v_id v) ->
  find_video video_id (db (snd (update_video video_id f w)))
  = option_map f (find_video video_id (db w)).
Proof.
  intros Hid. unfold find_video, first. simpl.
  induction (videos (db w)) as [|v vs IH]; simpl; [reflexivity|].
  destruct (v_id v =? video_id) eqn:E.
  - now rewrite Hid, E.
  - now rewrite E.
Qed.

Lemma update_video_ok video_id f w :
  update_video video_id f w = (Ok tt, snd (update_video video_id f w)).
Proof. reflexivity. Qed.

(** The job on a video that is found: the statuses it goes through. *)
Lemma run_transcription_job_cases env video_id w v :
  db_fault env (ReadVideo video_id) = None ->
  find_video video_id (db w) = Some v ->
  let w1 := snd (update_video video_id (with_transcription_status "processing") w) in
  run_transcription_job env video_id w =
  match transcribe_video env (v_video_url v) with
  | Raise _ => update_video video_id (with_transcription_status "failed") w1
  | Ok t =>
      let w2 := snd (update_video video_id
                       (fun x => with_transcription_status "completed"
                                   (with_transcription t x)) w1) in
      match db_fault env (ReadOwner (v_user_id v)) with
      | Some _ => update_video video_id (with_transcription_status "failed") w2
      | None => (Ok tt, w2)
      end
  end.
Proof.
  intros Hf Hv w1. pose proof (find_video_id _ _ _ Hv) as Hid.
  unfold run_transcription_job, bind, try_except at 1, db_read. rewrite Hf.
  cbv [bind get_db ret]. rewrite Hv.
  unfold try_except, transcription_body, fail_transcription, bind. rewrite Hid.
  rewrite (update_video_ok video_id _ w). fold w1.
  unfold transcription_pipeline, bind, lift.
  destruct (transcribe_video env (v_video_url v)) as [t|e]; [|reflexivity].
  rewrite Hid, (update_video_ok video_id _ w1), mirror_transcription_spec.
  destruct (db_fault env (ReadOwner (v_user_id v))); reflexivity.
Qed.

(** C6, amended: on a video that is found, a pipeline that fails leaves the
    status [failed] and the transcript as it was (unset when it was unset); a
    pipeline that succeeds writes the text it returns, which may be the empty
    string, with the status [completed], provided the lookup of the owner
    that follows does not raise; and a successful run after a failed one
    leaves the status [completed] and the text of that run. *)
Theorem transcription_outcome (env env2 : Env) (video_id : Z) (w : World) (v : Video) :
  db_fault env (ReadVideo video_id) = None ->
  find_video video_id (db w) = Some v ->
  let w1 := snd (run_transcription_job env video_id w) in
  match transcribe_video env (v_video_url v) with
  | Raise _ =>
      find_video video_id (db w1) = Some (with_transcription_status "failed" v) /\
      option_map v_transcription (find_video video_id (db w1)) = Some (v_transcription v) /\
      (forall t,
          db_fault env2 (ReadVideo video_id) = None ->
          db_fault env2 (ReadOwner (v_user_id v)) = None ->
          transcribe_video env2 (v_video_url v) = Ok t ->
          find_video video_id (db (snd (run_transcription_job env2 video_id w1)))
          = Some (with_transcription_status "completed" (with_transcription t v)))
  | Ok t =>
      db_fault env (ReadOwner (v_user_id v)) = None ->
      find_video video_id (db w1)
      = Some (with_transcription_status "completed" (with_transcription t v))
  end.
Proof.
  intros Hf Hv w1. subst w1.
  rewrite (run_transcription_job_cases env video_id w v Hf Hv). cbv zeta.
  destruct (transcribe_video env (v_video_url v)) as [t|e].
  - intros Ho. rewrite Ho. unfold snd at 1.
    rewrite !find_video_update, Hv by reflexivity. reflexivity.
  - assert (H1 : find_video video_id
                   (db (snd (update_video video_id (with_transcription_status "failed")
                          (snd (update_video video_id
                                  (with_transcription_status "processing") w)))))
                 = Some (with_transcription_status "failed" v)).
    { rewrite !find_video_update, Hv by reflexivity. reflexivity. }
    split; [exact H1|]. split; [now rewrite H1|].
    intros t Hf2 Ho2 Ht.
    rewrite (run_transcription_job_cases env2 video_id _ _ Hf2 H1). cbv zeta.
    simpl v_video_url. simpl v_user_id. rewrite Ht, Ho2. unfold snd at 1.
    rewrite !find_video_update, Hv by reflexivity. reflexivity.
Qed.

(** C6 as stated fails: a video whose first run failed (the backend is
    down) is run again when the backend works and finds no speech; the
    pipeline succeeds, the status is [completed], and the transcript written
    is the empty string. *)
Lemma retrigger_writes_empty_transcript :
  let url := v_video_url (Sample.video1 "pending") in
  let w1 := snd (run_transcription_job Sample.env_backend_down 1
                   (Sample.world_with_video "pending")) in
  let w2 := snd (run_transcription_job Sample.env_silent 1 w1) in
  option_map v_transcription_status (find_video 1 (db w1)) = Some "failed" /\
  transcribe_video Sample.env_silent url = Ok "" /\
  option_map v_transcription_status (find_video 1 (db w2)) = Some "completed" /\
  option_map v_transcription (find_video 1 (db w2)) = Some (Some "").
Proof. repeat split; reflexivity. Qed.

(** The amended statement at the sample: a failed run, then a run that
    transcribes "hello world". *)
Lemma transcription_outcome_witness :
  let w := Sample.world_with_video "pending" in
  let v := Sample.video1 "pending" in
  let w1 := snd (run_transcription_job Sample.env_backend_down 1 w) in
  find_video 1 (db w1) = Some (with_transcription_status "failed" v) /\
  option_map v_transcription (find_video 1 (db w1)) = Some None /\
  find_video 1 (db (snd (run_transcription_job Sample.env 1 w1)))
  = Some (with_transcription_status "completed" (with_transcription "hello world" v)).
Proof.
  pose proof (transcription_outcome Sample.env_backend_down Sample.env 1
                (Sample.world_with_video "pending") (Sample.video1 "pending")
                eq_refl eq_refl) as H.
  cbv zeta in H.
  change (transcribe_video Sample.env_backend_down
            (v_video_url (Sample.video1 "pending")))
    with (@Raise string "model failed") in H.
  destruct H as (H1 & H2 & H3).
  split; [exact H1|]. split; [exact H2|].
  apply H3; reflexivity.
Defined.

(** ** Starting a transcription *)

Lemma owned_video_found current_user video_id s video :
  owned_video current_user video_id s = Some video ->
  v_id video = video_id /\ exists v, find_video video_id s = Some v.
Proof.
  unfold owned_video, find_video, first. intros H.
  apply find_some in H as [Hin H]. apply andb_prop in H as [H _].
  apply Z.eqb_eq in H. split; [exact H|].
  destruct (List.find (fun v => v_id v =? video_id) (videos s)) as [v|] eqn:E; [eauto|].
  exfalso. apply (find_none _ _ E) in Hin. apply Z.eqb_eq in H. congruence.
Qed.

(** C7, amended: for a video the handler finds for the user, a status
    [processing] is answered with the error 400 "Transcription already in
    progress", the world unchanged and nothing scheduled; any other status is
    accepted and the pipeline scheduled, the world, and so the stored status,
    still unchanged; the status becomes [processing] when the scheduled task
    runs its first piece. *)
Theorem start_transcription_outcome (current_user : User) (video_id : Z) (w : World)
    (video : Video) :
  owned_video current_user video_id (db w) = Some video ->
  (v_transcription_status video = "processing" ->
   start_transcription current_user video_id w
   = (HTTPException 400 "Transcription already in progress", w, [])) /\
  (v_transcription_status video <> "processing" ->
   start_transcription current_user video_id w
   = (Returned ("Transcription started", video_id), w, [TranscriptionTask video_id]) /\
   forall env,
     db_fault env (ReadVideo video_id) = None ->
     option_map v_transcription_status
       (find_video video_id
          (db (fst (advance env (Scheduled (TranscriptionTask video_id)) w))))
     = Some "processing").
Proof.
  intros Hown. destruct (owned_video_found _ _ _ _ Hown) as [Hid [v Hv]].
  unfold start_transcription.
  rewrite Hown, Hid. split.
  - intros ->. reflexivity.
  - intros Hne. apply String.eqb_neq in Hne. rewrite Hne. split; [reflexivity|].
    intros env Hf. simpl.
    unfold transcription_prologue, bind, try_except, db_read. rewrite Hf.
    cbv [bind get_db ret]. rewrite Hv.
    rewrite (update_video_ok (v_id v)). unfold fst.
    rewrite (find_video_id _ _ _ Hv), find_video_update, Hv by reflexivity.
    reflexivity.
Qed.

(** C7 as stated fails: the start is accepted for a pending video and the
    pipeline is scheduled, but the stored status is still [pending], so a
    second start is accepted as well. *)
Lemma start_transcription_leaves_status :
  let w := Sample.world_with_video "pending" in
  let '(response, w', scheduled) := start_transcription Sample.user1 1 w in
  response = Returned ("Transcription started", 1) /\
  scheduled = [TranscriptionTask 1] /\
  option_map v_transcription_status (find_video 1 (db w')) = Some "pending" /\
  option_map v_transcription_status (find_video 1 (db w')) <> Some "processing" /\
  fst (fst (start_transcription Sample.user1 1 w'))
  = Returned ("Transcription started", 1).
Proof. repeat split; try reflexivity. discriminate. Qed.

Lemma start_transcription_outcome_witness :
  start_transcription Sample.user1 1 (Sample.world_with_video "processing")
  = (HTTPException 400 "Transcription already in progress",
     Sample.world_with_video "processing", []) /\
  start_transcription Sample.user1 1 (Sample.world_with_video "failed")
  = (Returned ("Transcription started", 1), Sample.world_with_video "failed",
     [TranscriptionTask 1]) /\
  option_map v_transcription_status
    (find_video 1
       (db (fst (advance Sample.env (Scheduled (TranscriptionTask 1))
                   (Sample.world_with_video "failed")))))
  = Some "processing".
Proof.
  split.
  - apply (start_transcription_outcome Sample.user1 1
             (Sample.world_with_video "processing") (Sample.video1 "processing")
             eq_refl).
    reflexivity.
  - destruct (start_transcription_outcome Sample.user1 1
                (Sample.world_with_video "failed") (Sample.video1 "failed") eq_refl)
      as [_ H].
    destruct H as [H1 H2]; [discriminate|].
    split; [exact H1 | apply H2; reflexivity].
Defined.

(** ** Admission of a scrape job *)


Lemma fresh_id_gt ids i : In i ids -> i < fresh_id ids.
Proof.
  unfold fresh_id. induction ids as [|x xs IH]; cbn [fold_right In]; intros Hin;
    [contradiction|].
  destruct Hin as [->|Hin]; [lia | specialize (IH Hin); lia].
Qed.


Lemma fresh_id_not_in ids : ~ In (fresh_id ids) ids.
Proof. intros H. apply fresh_id_gt in H. lia. Qed.

(** ** The status writes of a run *)


(** ** The system keeps terminal jobs as they are *)


















(** ** At most one running job *)


















(** ** The pieces of a task make up the task *)

Lemma run_task_S n env t w :
  run_task (S n) env t w
  = match advance env t w with
    | (w', Some t') => run_task n env t' w'
    | (w', None) => w'
    end.
Proof. reflexivity. Qed.

(** The one piece of a scrape task is [run_scrape_job]. *)
Lemma run_task_scrape env job_id user_id platform w :
  run_task 1 env (Scheduled (ScrapeTask job_id user_id platform)) w
  = snd (run_scrape_job env job_id user_id platform w).
Proof. reflexivity. Qed.

(** The two pieces of a transcription task are [run_transcription_job]. *)
Lemma run_task_transcription env video_id w :
  run_task 2 env (Scheduled (TranscriptionTask video_id)) w
  = snd (run_transcription_job env video_id w).
Proof.
  rewrite run_task_S. cbn [advance].
  unfold transcription_prologue, run_transcription_job, bind.
  destruct (try_except (db_read env (ReadVideo video_id) (find_video video_id)) _ w)
    as [[[v|]|e] w1]; [|reflexivity|reflexivity].
  unfold transcription_body, try_except, bind.
  rewrite (update_video_ok (v_id v)). unfold ret at 1.
  rewrite run_task_S. cbn [advance].
  unfold try_except. reflexivity.
Qed.

(** ** The statements at the sample *)

Lemma ingest_same_url_once_witness :
  let c := Sample.candidate "https://www.tiktok.com/@ann/video/1" in
  let other := Sample.candidate "https://www.tiktok.com/@bob/video/2" in
  let k1 := Sample.kw 1 "ai tools" TIKTOK in
  let k2 := Sample.kw 2 "crypto" TIKTOK in
  let w1 := ingest_seq [(Sample.env, 2, k2, other)]
              (snd (ingest Sample.env 1 k1 c Sample.world)) in
  ingest Sample.env 2 k2 c w1 = (Ok Skipped, w1) /\
  count_url (vd_video_url c) (db w1) = 1%nat /\
  unique_urls (db w1).
Proof.
  destruct (ingest_same_url_once Sample.env Sample.env 1 2
              (Sample.kw 1 "ai tools" TIKTOK) (Sample.kw 2 "crypto" TIKTOK)
              (Sample.candidate "https://www.tiktok.com/@ann/video/1")
              (Sample.candidate "https://www.tiktok.com/@ann/video/1")
              [(Sample.env, 2, Sample.kw 2 "crypto" TIKTOK,
                Sample.candidate "https://www.tiktok.com/@bob/video/2")]
              Sample.world)
    as (H1 & H2 & H3 & _);
    [apply NoDup_nil | reflexivity | reflexivity | reflexivity |].
  split; [exact H1|]. split; [exact H2 | exact H3].
Defined.


Lemma videos_found_counts_inserted_witness :
  let j' := mark_completed 2 100
              (add_keywords_processed 1 (mark_running 100 Sample.job1)) in
  let w' := snd (run_scrape_job Sample.env 1 1 None Sample.world) in
  find_job 1 (db w') = Some j' /\
  exists new,
    videos (db w') = (videos (db Sample.world) ++ new)%list /\
    j_videos_found j' = Z.of_nat (List.length new) /\
    j_videos_found j' = 2.
Proof.
  split; [reflexivity|].
  destruct (videos_found_counts_inserted Sample.env 1 1 None Sample.world Sample.job1
              (mark_completed 2 100
                 (add_keywords_processed 1 (mark_running 100 Sample.job1))))
    as (new & H1 & H2 & _);
    [reflexivity | discriminate | reflexivity | reflexivity |].
  exists new. split; [exact H1|]. split; [exact H2 | reflexivity].
Defined.

Lemma youtube_keyword_never_counts_witness :
  let news := Sample.kw 3 "news" YOUTUBE in
  search_ok Sample.env (Some Sample.settings1) news = false /\
  process_keyword Sample.env 1 1 Sample.user1 (Some Sample.settings1) news 0 Sample.world
  = (Ok 0, Sample.world).
Proof.
  destruct (youtube_keyword_never_counts Sample.env 1 1 Sample.user1
              (Some Sample.settings1) (Sample.kw 3 "news" YOUTUBE) eq_refl)
    as (_ & H2 & H3 & _).
  split; [exact H2 | apply H3].
Defined.

(** * More properties of the code *)

(** ** The search wrappers *)

Lemma insert_by_likes_perm x l : Permutation (x :: l) (insert_by_likes x l).
Proof.
  induction l as [|y t IH]; simpl; [reflexivity|].
  destruct (_ >=? _); [reflexivity|].
  rewrite perm_swap. now apply perm_skip.
Qed.

Lemma sort_by_likes_perm l : Permutation l (sort_by_likes l).
Proof.
  induction l as [|x t IH]; simpl; [reflexivity|].
  rewrite <- insert_by_likes_perm. now apply perm_skip.
Qed.

Lemma insert_by_likes_sorted x l :
  StronglySorted by_likes_desc l -> StronglySorted by_likes_desc (insert_by_likes x l).
Proof.
  induction l as [|y t IH]; simpl; intros Hs.
  - repeat constructor.
  - inversion Hs as [|? ? Hst Hall]; subst.
    fold (likes_of x). fold (likes_of y).
    destruct (likes_of x >=? likes_of y) eqn:E.
    + apply Z.geb_le in E. constructor; [exact Hs|].
      constructor; [exact E|].
      eapply Forall_impl; [|exact Hall]. unfold by_likes_desc. intros a Ha. lia.
    + rewrite Z.geb_leb in E. apply Z.leb_gt in E.
      constructor; [now apply IH|].
      apply (Permutation_Forall (insert_by_likes_perm x t)).
      constructor; [unfold by_likes_desc; lia | exact Hall].
Qed.

Lemma sort_by_likes_sorted l : StronglySorted by_likes_desc (sort_by_likes l).
Proof.
  induction l as [|x t IH]; simpl; [constructor | now apply insert_by_likes_sorted].
Qed.

Lemma insert_by_likes_stable k x l :
  with_likes k (insert_by_likes x l) = with_likes k (x :: l).
Proof.
  unfold with_likes. induction l as [|y t IH]; [reflexivity|].
  cbn [insert_by_likes]. fold (likes_of x). fold (likes_of y).
  destruct (likes_of x >=? likes_of y) eqn:E; [reflexivity|].
  rewrite Z.geb_leb in E. apply Z.leb_gt in E.
  cbn [filter] in *. rewrite IH.
  destruct (likes_of x =? k) eqn:Ex; destruct (likes_of y =? k) eqn:Ey; try reflexivity.
  apply Z.eqb_eq in Ex, Ey. lia.
Qed.

Lemma sort_by_likes_stable k l : with_likes k (sort_by_likes l) = with_likes k l.
Proof.
  induction l as [|x t IH]; [reflexivity|].
  cbn [sort_by_likes]. rewrite insert_by_likes_stable.
  unfold with_likes in *. cbn [filter]. now rewrite IH.
Qed.

Lemma in_firstn {A} (x : A) n l : In x (firstn n l) -> In x l.
Proof.
  revert l. induction n as [|n IH]; intros [|y t]; simpl; try tauto.
  intros [->|H]; auto.
Qed.

Lemma in_slice_to {A} (x : A) n l : In x (slice_to n l) -> In x l.
Proof. unfold slice_to. destruct (n <? 0); apply in_firstn. Qed.

Lemma firstn_sorted {A} (R : A -> A -> Prop) n l :
  StronglySorted R l -> StronglySorted R (firstn n l).
Proof.
  revert l. induction n as [|n IH]; intros [|y t] Hs; simpl; try constructor.
  - inversion Hs; subst. now apply IH.
  - inversion Hs as [|? ? _ Hall]; subst.
    rewrite Forall_forall in *. intros a Ha. apply Hall. now apply in_firstn in Ha.
Qed.

Lemma slice_to_sorted {A} (R : A -> A -> Prop) n l :
  StronglySorted R l -> StronglySorted R (slice_to n l).
Proof. unfold slice_to. destruct (n <? 0); apply firstn_sorted. Qed.

Lemma slice_to_length {A} n (l : list A) :
  Z.of_nat (List.length (slice_to n l))
  = if n <? 0 then Z.max 0 (Z.of_nat (List.length l) + n)
    else Z.min n (Z.of_nat (List.length l)).
Proof.
  unfold slice_to. destruct (n <? 0) eqn:E; rewrite length_firstn.
  - apply Z.ltb_lt in E. lia.
  - apply Z.ltb_ge in E. lia.
Qed.

Lemma py_ge_int_true v m : py_ge_int v m = Ok true -> m <= int_of_value v.
Proof.
  destruct v as [[| b | x | s]|d]; simpl; intros H; try discriminate;
    injection H as H; rewrite Z.geb_leb in H; now apply Z.leb_le.
Qed.

Lemma py_ge_int_number v m : is_number v = false -> is_ok (py_ge_int v m) = false.
Proof. destruct v as [[| b | x | s]|d]; simpl; intros H; congruence. Qed.

Lemma tiktok_video_data_spec env item vd :
  tiktok_video_data env item = Ok vd ->
  vd_platform vd = TIKTOK /\
  vd_likes vd = dict_get item "diggCount" (Scalar (AInt 0)) /\
  value_truthy (vd_video_url vd) = true.
Proof.
  unfold tiktok_video_data. intros H.
  destruct (value_truthy (item_get item "webVideoUrl")) eqn:Hw; simpl in H.
  - destruct (author_meta item "name"); simpl in H; [|discriminate].
    destruct (author_meta item "nickName"); simpl in H; [|discriminate].
    destruct (if value_truthy (item_get item "createTime") then _ else _);
      simpl in H; [|discriminate].
    injection H as <-. auto.
  - destruct (author_meta item "name"); simpl in H; [|discriminate].
    destruct (author_meta item "nickName"); simpl in H; [|discriminate].
    destruct (if value_truthy (item_get item "createTime") then _ else _);
      simpl in H; [|discriminate].
    injection H as <-. auto.
Qed.

Lemma tiktok_collect_spec env min_likes items : forall vs,
  tiktok_collect env min_likes items = Ok vs ->
  Forall (tiktok_candidate min_likes) vs /\
  (List.length vs <= List.length items)%nat.
Proof.
  induction items as [|item rest IH]; simpl; intros vs H.
  - injection H as <-. split; [apply Forall_nil | simpl; lia].
  - destruct (py_ge_int _ _) as [[|]|e] eqn:Hge; simpl in H; [| |discriminate].
    + destruct (tiktok_video_data env item) as [vd|] eqn:Hvd; simpl in H; [|discriminate].
      destruct (tiktok_collect env min_likes rest) as [vs'|]; simpl in H; [|discriminate].
      injection H as <-. destruct (IH vs' eq_refl) as [Hall Hlen].
      apply tiktok_video_data_spec in Hvd as (Hp & Hl & Hu).
      split; [|simpl; lia]. constructor; [|exact Hall].
      unfold tiktok_candidate, likes_of. rewrite Hl.
      split; [exact Hp|]. split; [now apply py_ge_int_true | exact Hu].
    + destruct (IH vs H) as [Hall Hlen]. split; [exact Hall | lia].
Qed.

Lemma scrape_tiktok_inv env keyword max_results min_likes date_filter vs :
  scrape_tiktok env keyword max_results min_likes date_filter = Ok vs ->
  exists items videos,
    tiktok_collect env min_likes items = Ok videos /\
    vs = slice_to max_results (sort_by_likes videos).
Proof.
  unfold scrape_tiktok. simpl. intros H.
  destruct (actor_call env _ _); simpl in H; [|discriminate].
  destruct (subscript _ _); simpl in H; [|discriminate].
  destruct (iterate_items env _) as [items|]; simpl in H; [|discriminate].
  destruct (tiktok_collect env min_likes items) as [videos|] eqn:Hc; simpl in H;
    [|discriminate].
  injection H as <-. eauto.
Qed.

Lemma instagram_video_data_spec env item vd :
  instagram_video_data env item = Ok vd ->
  vd_platform vd = INSTAGRAM /\
  vd_likes vd = dict_get item "likesCount" (Scalar (AInt 0)) /\
  vd_shares vd = Scalar (AInt 0).
Proof.
  unfold instagram_video_data. intros H.
  destruct (if value_truthy (item_get item "timestamp") then _ else _);
    simpl in H; [|discriminate].
  injection H as <-. auto.
Qed.

Lemma instagram_collect_spec env min_likes items : forall vs,
  instagram_collect env min_likes items = Ok vs ->
  Forall (candidate_of INSTAGRAM min_likes) vs /\
  (List.length vs <= List.length items)%nat.
Proof.
  induction items as [|item rest IH]; simpl; intros vs H.
  - injection H as <-. split; [apply Forall_nil | simpl; lia].
  - destruct (negb _ && _)%bool.
    { destruct (IH vs H) as [Hall Hlen]. split; [exact Hall | lia]. }
    destruct (py_ge_int _ _) as [[|]|e] eqn:Hge; simpl in H; [| |discriminate].
    + destruct (instagram_video_data env item) as [vd|] eqn:Hvd; simpl in H;
        [|discriminate].
      destruct (instagram_collect env min_likes rest) as [vs'|]; simpl in H;
        [|discriminate].
      injection H as <-. destruct (IH vs' eq_refl) as [Hall Hlen].
      apply instagram_video_data_spec in Hvd as (Hp & Hl & _).
      split; [|simpl; lia]. constructor; [|exact Hall].
      unfold candidate_of, likes_of. rewrite Hl.
      split; [exact Hp | now apply py_ge_int_true].
    + destruct (IH vs H) as [Hall Hlen]. split; [exact Hall | lia].
Qed.

Lemma scrape_instagram_inv env keyword max_results min_likes date_filter vs :
  scrape_instagram env keyword max_results min_likes date_filter = Ok vs ->
  exists items videos,
    instagram_collect env min_likes items = Ok videos /\
    vs = slice_to max_results (sort_by_likes videos).
Proof.
  unfold scrape_instagram. simpl. intros H.
  destruct (actor_call env _ _); simpl in H; [|discriminate].
  destruct (subscript _ _); simpl in H; [|discriminate].
  destruct (iterate_items env _) as [items|]; simpl in H; [|discriminate].
  destruct (instagram_collect env min_likes items) as [videos|] eqn:Hc; simpl in H;
    [|discriminate].
  injection H as <-. eauto.
Qed.

(** What both wrappers return: a prefix of the sorted list of the
    candidates kept, each of the platform and above the floor. *)
Lemma scrape_by_platform_inv env platform keyword max_results min_likes date_filter vs :
  scrape_by_platform env platform keyword max_results min_likes date_filter = Ok vs ->
  exists videos,
    Forall (candidate_of platform min_likes) videos /\
    vs = slice_to max_results (sort_by_likes videos).
Proof.
  destruct platform; simpl; intros H; [| |discriminate].
  - apply scrape_tiktok_inv in H as (items & videos & Hc & ->).
    exists videos. split; [|reflexivity].
    apply tiktok_collect_spec in Hc as [Hall _].
    eapply Forall_impl; [|exact Hall]. intros v (Hp & Hl & _). now split.
  - apply scrape_instagram_inv in H as (items & videos & Hc & ->).
    exists videos. split; [|reflexivity].
    now apply instagram_collect_spec in Hc as [Hall _].
Qed.

(** X1: a search that returns with a nonnegative [max_results] returns at
    most [max_results] candidates. *)
Theorem search_returns_at_most_max_results (env : Env) (platform : PlatformEnum)
    (keyword : string) (max_results min_likes : Z) (date_filter : string)
    (vs : list VideoData) :
  scrape_by_platform env platform keyword max_results min_likes date_filter = Ok vs ->
  0 <= max_results ->
  Z.of_nat (List.length vs) <= max_results.
Proof.
  intros H Hn. apply scrape_by_platform_inv in H as (videos & _ & ->).
  rewrite slice_to_length. destruct (max_results <? 0) eqn:E; [|lia].
  apply Z.ltb_lt in E. lia.
Qed.

Lemma search_returns_at_most_max_results_witness :
  exists vs,
    scrape_by_platform Sample.env TIKTOK "ai tools" 1 1000 "this_week" = Ok vs /\
    Z.of_nat (List.length vs) <= 1.
Proof.
  eexists. split; [reflexivity|].
  apply (search_returns_at_most_max_results Sample.env TIKTOK "ai tools" 1 1000
           "this_week"); [reflexivity | lia].
Defined.

(** X2: every candidate a search returns carries the platform that was
    searched and has at least [min_likes] likes. *)
Theorem search_results_are_above_the_floor (env : Env) (platform : PlatformEnum)
    (keyword : string) (max_results min_likes : Z) (date_filter : string)
    (vs : list VideoData) :
  scrape_by_platform env platform keyword max_results min_likes date_filter = Ok vs ->
  Forall (fun v => vd_platform v = platform /\ min_likes <= likes_of v) vs.
Proof.
  intros H. apply scrape_by_platform_inv in H as (videos & Hall & ->).
  rewrite Forall_forall in *. intros v Hv. apply in_slice_to in Hv.
  apply (Permutation_in _ (Permutation_sym (sort_by_likes_perm videos))) in Hv.
  apply (Hall v Hv).
Qed.

Lemma search_results_are_above_the_floor_witness :
  exists vs,
    scrape_by_platform Sample.env TIKTOK "ai tools" 10 1000 "this_week" = Ok vs /\
    List.length vs = 2%nat /\
    Forall (fun v => vd_platform v = TIKTOK /\ 1000 <= likes_of v) vs.
Proof.
  eexists. split; [reflexivity|]. split; [reflexivity|].
  apply (search_results_are_above_the_floor Sample.env TIKTOK "ai tools" 10 1000
           "this_week").
  reflexivity.
Defined.

(** X3: the candidates a search returns are in the order of their likes,
    the largest first; the sort behind it keeps the candidates it is given
    and leaves candidates of equal likes in the order of the provider. *)
Theorem search_results_are_sorted (env : Env) (platform : PlatformEnum)
    (keyword : string) (max_results min_likes : Z) (date_filter : string)
    (vs : list VideoData) :
  scrape_by_platform env platform keyword max_results min_likes date_filter = Ok vs ->
  StronglySorted by_likes_desc vs /\
  (forall l, Permutation l (sort_by_likes l)) /\
  (forall k l, with_likes k (sort_by_likes l) = with_likes k l).
Proof.
  intros H. apply scrape_by_platform_inv in H as (videos & _ & ->).
  split; [apply slice_to_sorted, sort_by_likes_sorted|].
  split; [apply sort_by_likes_perm | apply sort_by_likes_stable].
Qed.

Lemma search_results_are_sorted_witness :
  exists vs,
    scrape_by_platform Sample.env TIKTOK "ai tools" 10 1000 "this_week" = Ok vs /\
    map likes_of vs = [5000; 2000] /\
    StronglySorted by_likes_desc vs.
Proof.
  eexists. split; [reflexivity|]. split; [reflexivity|].
  apply (search_results_are_sorted Sample.env TIKTOK "ai tools" 10 1000 "this_week").
  reflexivity.
Defined.

Lemma tiktok_collect_malformed env min_likes item : forall items,
  In item items ->
  is_number (dict_get item "diggCount" (Scalar (AInt 0))) = false ->
  is_ok (tiktok_collect env min_likes items) = false.
Proof.
  induction items as [|x rest IH]; simpl; intros Hin Hbad; [contradiction|].
  destruct Hin as [->|Hin].
  - pose proof (py_ge_int_number _ min_likes Hbad) as Hge.
    destruct (py_ge_int _ _); [discriminate | reflexivity].
  - specialize (IH Hin Hbad).
    destruct (py_ge_int _ _) as [[|]|e]; simpl; [| exact IH | reflexivity].
    destruct (tiktok_video_data env x); simpl; [|reflexivity].
    destruct (tiktok_collect env min_likes rest); [discriminate | reflexivity].
Qed.

(** X4: one item whose [diggCount] is not a number (a JSON null, a
    string) makes the whole TikTok search raise: no candidate of that keyword
    is returned, not even those of the well-formed items. *)
Theorem tiktok_search_fails_on_a_malformed_item (env : Env) (keyword : string)
    (max_results min_likes : Z) (date_filter : string) (run dataset : Value)
    (items : list Item) (item : Item) :
  actor_call env (fst (tiktok_request keyword max_results min_likes date_filter))
    (snd (tiktok_request keyword max_results min_likes date_filter)) = Ok run ->
  subscript run "defaultDatasetId" = Ok dataset ->
  iterate_items env dataset = Ok items ->
  In item items ->
  is_number (dict_get item "diggCount" (Scalar (AInt 0))) = false ->
  is_ok (scrape_tiktok env keyword max_results min_likes date_filter) = false.
Proof.
  intros Hrun Hds Hitems Hin Hbad. unfold scrape_tiktok.
  simpl in Hrun. simpl. rewrite Hrun. simpl. rewrite Hds. simpl. rewrite Hitems. simpl.
  pose proof (tiktok_collect_malformed env min_likes item items Hin Hbad) as H.
  destruct (tiktok_collect env min_likes items); [discriminate | reflexivity].
Qed.

Lemma tiktok_search_fails_on_a_malformed_item_witness :
  let good := Sample.tiktok_item "1" 5000 in
  let bad := [("id", Scalar (AStr "2")); ("diggCount", Scalar ANone)] in
  is_ok (scrape_tiktok (env_with_items [good]) "ai tools" 10 1000 "this_week") = true /\
  is_ok (scrape_tiktok (env_with_items [good; bad]) "ai tools" 10 1000 "this_week")
  = false.
Proof.
  split; [reflexivity|].
  apply (tiktok_search_fails_on_a_malformed_item
           (env_with_items [Sample.tiktok_item "1" 5000;
                            [("id", Scalar (AStr "2")); ("diggCount", Scalar ANone)]])
           "ai tools" 10 1000 "this_week"
           (Dict [("defaultDatasetId", AStr "dataset")]) (Scalar (AStr "dataset"))
           [Sample.tiktok_item "1" 5000;
            [("id", Scalar (AStr "2")); ("diggCount", Scalar ANone)]]
           [("id", Scalar (AStr "2")); ("diggCount", Scalar ANone)]);
    try reflexivity.
  simpl. auto.
Defined.

(** X5: every candidate of a TikTok search has a source URL that is set and
    not empty: the URL of the item or, without one, the URL built from the
    author and the id. *)
Theorem tiktok_candidates_have_a_url (env : Env) (keyword : string)
    (max_results min_likes : Z) (date_filter : string) (vs : list VideoData) :
  scrape_tiktok env keyword max_results min_likes date_filter = Ok vs ->
  Forall (fun v => value_truthy (vd_video_url v) = true) vs.
Proof.
  intros H. apply scrape_tiktok_inv in H as (items & videos & Hc & ->).
  apply tiktok_collect_spec in Hc as [Hall _].
  rewrite Forall_forall in *. intros v Hv. apply in_slice_to in Hv.
  apply (Permutation_in _ (Permutation_sym (sort_by_likes_perm videos))) in Hv.
  apply (Hall v Hv).
Qed.

Lemma tiktok_candidates_have_a_url_witness :
  let item := [("id", Scalar (AStr "7")); ("diggCount", Scalar (AInt 9000))] in
  exists vs,
    scrape_tiktok (env_with_items [item]) "ai tools" 10 1000 "this_week" = Ok vs /\
    map vd_video_url vs = [Scalar (AStr "https://www.tiktok.com/@None/video/7")] /\
    Forall (fun v => value_truthy (vd_video_url v) = true) vs.
Proof.
  eexists. split; [reflexivity|]. split; [reflexivity|].
  apply (tiktok_candidates_have_a_url
           (env_with_items [[("id", Scalar (AStr "7"));
                             ("diggCount", Scalar (AInt 9000))]])
           "ai tools" 10 1000 "this_week").
  reflexivity.
Defined.

Lemma lower_ascii_idem c : lower_ascii (lower_ascii c) = lower_ascii c.
Proof. destruct c as [[] [] [] [] [] [] [] []]; reflexivity. Qed.

Lemma lower_ascii_space c : Ascii.eqb (lower_ascii c) " " = Ascii.eqb c " ".
Proof. destruct c as [[] [] [] [] [] [] [] []]; reflexivity. Qed.

Lemma lower_idem s : lower (lower s) = lower s.
Proof.
  unfold lower. induction s as [|c t IH]; simpl; [reflexivity|].
  now rewrite lower_ascii_idem, IH.
Qed.

Lemma hashtag_of_no_space s :
  replace_char " " "" (hashtag_of s) = hashtag_of s.
Proof.
  unfold hashtag_of, lower. induction s as [|c t IH]; simpl; [reflexivity|].
  destruct (Ascii.eqb c " ") eqn:E; simpl; [exact IH|].
  now rewrite lower_ascii_space, E, IH.
Qed.

Lemma hashtag_of_idem s : hashtag_of (hashtag_of s) = hashtag_of s.
Proof.
  unfold hashtag_of at 1. rewrite hashtag_of_no_space.
  unfold hashtag_of. apply lower_idem.
Qed.

Lemma lower_ascii_is_ascii c :
  (nat_of_ascii c <? 128)%nat = true -> (nat_of_ascii (lower_ascii c) <? 128)%nat = true.
Proof. destruct c as [[] [] [] [] [] [] [] []]; intros H; (exact H || reflexivity). Qed.

Lemma lower_ascii_not_upper c : is_upper (lower_ascii c) = false.
Proof. destruct c as [[] [] [] [] [] [] [] []]; reflexivity. Qed.

Lemma hashtag_of_chars s :
  is_ascii s = true ->
  is_ascii (hashtag_of s) = true /\
  all_chars (fun c => negb (Ascii.eqb c " ") && negb (is_upper c))%bool
            (hashtag_of s) = true.
Proof.
  unfold hashtag_of, lower. induction s as [|c t IH]; simpl; [auto|].
  intros H. apply andb_prop in H as [Hc Ht]. destruct (IH Ht) as [IH1 IH2].
  destruct (Ascii.eqb c " ") eqn:E; simpl; [auto|].
  rewrite (lower_ascii_is_ascii c Hc), IH1, lower_ascii_space, E,
    lower_ascii_not_upper, IH2.
  auto.
Qed.

(** X6: for an ASCII keyword, the Instagram search sees the keyword through
    its hashtag only, the keyword without its spaces and in lower case: the
    hashtag is ASCII and holds no space and no letter A-Z, the hashtag of a
    hashtag is the hashtag itself, and searching the hashtag of a keyword is
    searching the keyword. *)
Theorem instagram_search_normalises_the_keyword (env : Env) (keyword : string)
    (max_results min_likes : Z) (date_filter : string) :
  is_ascii keyword = true ->
  is_ascii (hashtag_of keyword) = true /\
  all_chars (fun c => negb (Ascii.eqb c " ") && negb (is_upper c))%bool
            (hashtag_of keyword) = true /\
  hashtag_of (hashtag_of keyword) = hashtag_of keyword /\
  instagram_request (hashtag_of keyword) max_results min_likes date_filter
  = instagram_request keyword max_results min_likes date_filter /\
  scrape_instagram env (hashtag_of keyword) max_results min_likes date_filter
  = scrape_instagram env keyword max_results min_likes date_filter.
Proof.
  intros Hascii.
  assert (Hreq : instagram_request (hashtag_of keyword) max_results min_likes date_filter
                 = instagram_request keyword max_results min_likes date_filter).
  { unfold instagram_request. fold (hashtag_of (hashtag_of keyword)).
    fold (hashtag_of keyword). now rewrite hashtag_of_idem. }
  destruct (hashtag_of_chars keyword Hascii) as [H1 H2].
  split; [exact H1|]. split; [exact H2|].
  split; [apply hashtag_of_idem|].
  split; [exact Hreq|].
  unfold scrape_instagram. now rewrite Hreq.
Qed.

Lemma instagram_search_normalises_the_keyword_witness :
  hashtag_of "AI Tools" = "aitools" /\
  scrape_instagram Sample.env "aitools" 10 1000 "this_week"
  = scrape_instagram Sample.env "AI Tools" 10 1000 "this_week".
Proof.
  split; [reflexivity|].
  destruct (instagram_search_normalises_the_keyword Sample.env "AI Tools" 10 1000
              "this_week" eq_refl) as (_ & _ & _ & _ & H).
  exact H.
Defined.

(** X7: the cut-off of [_get_date_filter] lies between thirty days and one
    day before now, is seven days before now for "this_week", and every
    label other than "today", "this_week" and "this_month" is read as
    "this_week". *)
Theorem date_filter_cutoff (now : datetime) (date_filter : string) :
  now - timedelta_days 30 <= _get_date_filter now date_filter <= now - timedelta_days 1 /\
  _get_date_filter now "this_week" = now - timedelta_days 7 /\
  (date_filter <> "today" -> date_filter <> "this_month" ->
   _get_date_filter now date_filter = _get_date_filter now "this_week").
Proof.
  unfold _get_date_filter, timedelta_days.
  split; [|split; [reflexivity|]].
  - destruct (String.eqb date_filter "today"); [lia|].
    destruct (String.eqb date_filter "this_week"); [lia|].
    destruct (String.eqb date_filter "this_month"); lia.
  - intros H1 H2. apply String.eqb_neq in H1, H2. rewrite H1, H2. simpl.
    destruct (String.eqb date_filter "this_week"); reflexivity.
Qed.

Lemma date_filter_cutoff_witness :
  _get_date_filter 1000000 "last_year" = _get_date_filter 1000000 "this_week".
Proof.
  destruct (date_filter_cutoff 1000000 "last_year") as (_ & _ & H).
  apply H; discriminate.
Defined.

(** ** The rows of the spreadsheet *)

Lemma length_append (a b : string) :
  String.length (a ++ b) = (String.length a + String.length b)%nat.
Proof. induction a as [|c t IH]; simpl; [reflexivity | now rewrite IH]. Qed.

Lemma length_str_prefix n s :
  String.length (str_prefix n s) = Nat.min n (String.length s).
Proof.
  unfold str_prefix. revert s. induction n as [|n IH]; intros [|c t]; simpl; try reflexivity.
  now rewrite IH.
Qed.

Lemma str_prefix_all n s : (String.length s <= n)%nat -> str_prefix n s = s.
Proof.
  unfold str_prefix. revert s. induction n as [|n IH]; intros [|c t]; simpl; intros H;
    try reflexivity; try lia.
  rewrite IH; [reflexivity | lia].
Qed.

Lemma batch_row_cells now keyword video row :
  batch_row now keyword video = Ok row ->
  exists description,
    row = [Scalar (AStr now); Scalar (AStr keyword); vd_video_url video;
           vd_author_username video; description; vd_likes video;
           vd_comments video; vd_shares video; vd_views video;
           Scalar (AStr ""); Scalar (AStr "pending")].
Proof.
  unfold batch_row. intros H.
  destruct (py_len _) as [n|]; simpl in H; [|discriminate].
  destruct (if (200 <? n)%nat then _ else _) as [d|]; simpl in H; [|discriminate].
  injection H as <-. eauto.
Qed.

(** X8: a row built for the spreadsheet, by [add_videos_batch] or by
    [add_video_to_sheet], has as many cells as the header row of the set-up,
    with the keyword in the second and the source URL in the third; a row of
    the batch has an empty transcript and the status "pending". *)
Theorem rows_match_the_header (env : Env) (now keyword : string)
    (video_data : VideoData) (video : Video) :
  (forall row,
      batch_row now keyword video_data = Ok row ->
      List.length row = List.length headers /\
      cell row 1 = Scalar (AStr keyword) /\
      cell row 2 = vd_video_url video_data /\
      cell row 9 = Scalar (AStr "") /\
      cell row 10 = Scalar (AStr "pending")) /\
  (forall row,
      video_row env video keyword = Ok row ->
      List.length row = List.length headers /\
      cell row 1 = Scalar (AStr keyword) /\
      cell row 2 = v_video_url video /\
      cell row 10 = Scalar (AStr (v_transcription_status video))).
Proof.
  split; intros row H.
  - apply batch_row_cells in H as [d ->]. repeat split.
  - unfold video_row in H.
    destruct (if value_truthy (v_description video) then _ else _) as [d|];
      simpl in H; [|discriminate].
    injection H as <-. repeat split.
Qed.

Lemma rows_match_the_header_witness :
  exists row,
    batch_row "2024-01-01 00:00" "ai tools"
      (Sample.candidate "https://www.tiktok.com/@ann/video/1") = Ok row /\
    List.length row = 11%nat /\
    cell row 2 = Scalar (AStr "https://www.tiktok.com/@ann/video/1").
Proof.
  eexists. split; [reflexivity|].
  destruct (rows_match_the_header Sample.env "2024-01-01 00:00" "ai tools"
              (Sample.candidate "https://www.tiktok.com/@ann/video/1")
              (Sample.video1 "pending")) as [H _].
  destruct (H _ eq_refl) as (H1 & _ & H3 & _).
  split; [exact H1 | exact H3].
Defined.

(** X9: for an ASCII description, the description cell of a batch row is
    the description when it has at most 200 characters, and otherwise its
    first 200 characters followed by "...", 203 characters in all; a missing
    description gives an empty cell. *)
Theorem description_is_truncated (now keyword : string) (video : VideoData) :
  (forall s,
      vd_description video = Scalar (AStr s) ->
      is_ascii s = true ->
      exists row s',
        batch_row now keyword video = Ok row /\
        cell row 4 = Scalar (AStr s') /\
        (String.length s' <= 203)%nat /\
        ((String.length s <= 200)%nat -> s' = s) /\
        ((200 < String.length s)%nat ->
         s' = str_prefix 200 s ++ "..." /\ String.length s' = 203%nat)) /\
  (vd_description video = Scalar ANone ->
   exists row, batch_row now keyword video = Ok row /\ cell row 4 = Scalar (AStr "")).
Proof.
  split.
  - intros s Hs _. unfold batch_row. rewrite Hs. unfold py_or. simpl value_truthy.
    destruct (String.eqb s "") eqn:Hempty; simpl.
    + apply String.eqb_eq in Hempty. subst s.
      eexists. exists "". split; [reflexivity|]. split; [reflexivity|].
      simpl. repeat split; try lia; auto.
    + destruct (200 <? String.length s)%nat eqn:Hlen; simpl.
      * apply Nat.ltb_lt in Hlen.
        eexists. exists (str_prefix 200 s ++ "..."). split; [reflexivity|].
        split; [reflexivity|].
        assert (Hl : String.length (str_prefix 200 s ++ "...") = 203%nat).
        { rewrite length_append, length_str_prefix.
          change (String.length "...") with 3%nat. lia. }
        split; [lia|]. split; [lia | auto].
      * apply Nat.ltb_ge in Hlen.
        eexists. exists s. split; [reflexivity|]. split; [reflexivity|].
        split; [lia|]. split; [auto | lia].
  - intros Hs. unfold batch_row. rewrite Hs. simpl. eexists. split; reflexivity.
Qed.

(** A description of 250 characters is cut to its first 200 and "...". *)
Lemma description_is_truncated_witness :
  exists row,
    batch_row "now" "kw" wordy_candidate = Ok row /\
    cell row 4 = Scalar (AStr (repeat_char "a" 200 ++ "...")).
Proof.
  destruct (description_is_truncated "now" "kw" wordy_candidate) as [H _].
  destruct (H (repeat_char "a" 250) eq_refl eq_refl)
    as (row & s' & Hrow & Hcell & _ & _ & Hcut).
  exists row. split; [exact Hrow|].
  destruct Hcut as [Hs' _]; [apply Nat.ltb_lt; reflexivity|].
  rewrite Hcell, Hs'. reflexivity.
Defined.

(** X10: the batch and the transcript update look for the worksheet named
    by capitalising the platform value, which is "Tiktok" for TikTok, while
    the set-up creates the tabs "TikTok" and "Instagram".  On a spreadsheet
    that has no worksheet under another name than those of the set-up, every
    batch for TikTok reports 0 rows and every transcript update for TikTok
    reports failure; for Instagram the name looked for is a tab of the
    set-up. *)
Theorem tiktok_rows_miss_the_tab (env : Env) (sheet_id : string) :
  (forall name, ~ In name setup_tabs ->
                is_ok (worksheet (gspread env) sheet_id name) = false) ->
  (forall videos keyword w,
      add_videos_batch env sheet_id videos TIKTOK keyword w = (Ok 0, w)) /\
  (forall video_url transcription status w,
      update_transcription_in_sheet env sheet_id video_url TIKTOK transcription status w
      = (Ok false, w)) /\
  ~ In (worksheet_name TIKTOK) setup_tabs /\
  In (worksheet_name INSTAGRAM) setup_tabs.
Proof.
  intros Hmiss.
  assert (Hno : ~ In (worksheet_name TIKTOK) setup_tabs).
  { simpl. intros [H|[H|[]]]; discriminate. }
  pose proof (Hmiss _ Hno) as Hws.
  assert (Hopen : forall w, exists e,
             open_worksheet env sheet_id (worksheet_name TIKTOK) w = (Raise e, w)).
  { intros w. unfold open_worksheet, bind, lift, ret, raise.
    destruct (sheets_client (gspread env)); [|eauto].
    destruct (open_by_key (gspread env) sheet_id); [|eauto].
    destruct (worksheet (gspread env) sheet_id (worksheet_name TIKTOK));
      [discriminate | eauto]. }
  split; [|split; [|split]].
  - intros videos keyword w. unfold add_videos_batch, try_except, bind.
    destruct (Hopen w) as [e ->]. reflexivity.
  - intros url t st w. unfold update_transcription_in_sheet, try_except, bind.
    destruct (Hopen w) as [e ->]. reflexivity.
  - exact Hno.
  - simpl. auto.
Qed.

Lemma tiktok_rows_miss_the_tab_witness :
  let exact_tabs :=
    {| sheets_client := true;
       open_by_key := fun _ => Ok tt;
       worksheet := fun _ name =>
         if existsb (String.eqb name) setup_tabs then Ok tt
         else Raise "WorksheetNotFound";
       append_rows := fun _ _ _ => Ok tt;
       find := fun _ _ _ => Ok (Some 2);
       update := fun _ _ _ _ => Ok tt |} in
  let env := with_mirror Sample.env exact_tabs in
  let batch := [Sample.candidate "https://www.tiktok.com/@ann/video/1"] in
  fst (add_videos_batch env "sheet-1" batch TIKTOK "ai tools" Sample.world) = Ok 0 /\
  fst (add_videos_batch env "sheet-1" batch INSTAGRAM "ai tools" Sample.world) = Ok 1.
Proof.
  split; [|reflexivity].
  destruct (tiktok_rows_miss_the_tab
              (with_mirror Sample.env
                 {| sheets_client := true;
                    open_by_key := fun _ => Ok tt;
                    worksheet := fun _ name =>
                      if existsb (String.eqb name) setup_tabs then Ok tt
                      else Raise "WorksheetNotFound";
                    append_rows := fun _ _ _ => Ok tt;
                    find := fun _ _ _ => Ok (Some 2);
                    update := fun _ _ _ _ => Ok tt |})
              "sheet-1") as [H _].
  - intros name Hnot. simpl.
    destruct (String.eqb name "TikTok") eqn:E1.
    { apply String.eqb_eq in E1. exfalso. apply Hnot. simpl. auto. }
    destruct (String.eqb name "Instagram") eqn:E2.
    { apply String.eqb_eq in E2. exfalso. apply Hnot. simpl. auto. }
    reflexivity.
  - now rewrite H.
Defined.

(** ** The transcription service *)

Lemma exists_in_In files name : exists_in files name = true <-> In name files.
Proof.
  unfold exists_in. rewrite existsb_exists. split.
  - intros [x [Hin E]]. apply String.eqb_eq in E. now subst.
  - intros Hin. exists name. split; [exact Hin | apply String.eqb_refl].
Qed.

Lemma find_first {A} (p : A -> bool) l x :
  List.find p l = Some x <->
  exists before after,
    l = (before ++ x :: after)%list /\ p x = true /\
    forall q, In q before -> p q = false.
Proof.
  split.
  - induction l as [|y t IH]; simpl; [discriminate|].
    destruct (p y) eqn:E.
    + intros [= <-]. exists [], t. split; [reflexivity|]. split; [exact E | intros q []].
    + intros H. destruct (IH H) as (a & b & -> & Hx & Ha).
      exists (y :: a), b. split; [reflexivity|]. split; [exact Hx|].
      intros q [<-|Hq]; [exact E | now apply Ha].
  - intros (a & b & -> & Hx & Ha). induction a as [|y a IH]; simpl.
    + now rewrite Hx.
    + rewrite (Ha y (or_introl eq_refl)). apply IH. intros q Hq. apply Ha. now right.
Qed.

(** [download_audio] looks the four names up in their order. *)
Lemma download_audio_find env video_url files :
  ydl_download env video_url = Ok files ->
  download_audio env video_url
  = match List.find (exists_in files) audio_names with
    | Some p => Ok p
    | None => Raise "Downloaded audio file not found"
    end.
Proof.
  intros Hd. unfold download_audio. rewrite Hd. simpl rbind.
  unfold audio_names. cbn [List.find append].
  destruct (exists_in files "audio.mp3"); [reflexivity|].
  destruct (exists_in files "audio.m4a"); [reflexivity|].
  destruct (exists_in files "audio.webm"); [reflexivity|].
  destruct (exists_in files "audio.mp4"); reflexivity.
Qed.

(** X11: when the download returns, [download_audio] returns the first of
    the names audio.mp3, audio.m4a, audio.webm and audio.mp4, in that order,
    that is a file of the directory: it returns a name exactly when that
    name is there and none of the names before it is; it raises exactly when
    none of the four is there. *)
Theorem download_audio_finds_the_audio (env : Env) (video_url : Value)
    (files : list string) :
  ydl_download env video_url = Ok files ->
  (forall p,
      download_audio env video_url = Ok p <->
      exists before after,
        audio_names = (before ++ p :: after)%list /\
        In p files /\
        forall q, In q before -> ~ In q files) /\
  (is_ok (download_audio env video_url) = false <->
   forall name, In name audio_names -> ~ In name files).
Proof.
  intros Hd. rewrite (download_audio_find env video_url files Hd). split.
  - intros p. split.
    + intros H. destruct (List.find (exists_in files) audio_names) as [x|] eqn:E;
        [|discriminate].
      injection H as ->. apply find_first in E as (a & b & Hl & Hp & Ha).
      exists a, b. split; [exact Hl|]. split; [now apply exists_in_In|].
      intros q Hq Hin. apply exists_in_In in Hin. rewrite (Ha q Hq) in Hin. discriminate.
    + intros (a & b & Hl & Hp & Ha).
      assert (E : List.find (exists_in files) audio_names = Some p).
      { apply find_first. exists a, b. split; [exact Hl|].
        split; [now apply exists_in_In|].
        intros q Hq. destruct (exists_in files q) eqn:Eq; [|reflexivity].
        apply exists_in_In in Eq. now destruct (Ha q Hq). }
      now rewrite E.
  - destruct (List.find (exists_in files) audio_names) as [x|] eqn:E.
    + split; [discriminate|]. intros H. exfalso.
      apply find_some in E as [Hin Hx]. apply exists_in_In in Hx. now apply (H x).
    + split; [|reflexivity]. intros _ name Hname Hin.
      apply (find_none _ _ E) in Hname. apply exists_in_In in Hin. congruence.
Qed.

(** With audio.mp4 and audio.m4a in the directory, audio.m4a is taken. *)
Lemma download_audio_finds_the_audio_witness :
  download_audio (env_with_files ["audio.mp4"; "notes.txt"; "audio.m4a"])
    (Scalar (AStr "u")) = Ok "audio.m4a".
Proof.
  destruct (download_audio_finds_the_audio
              (env_with_files ["audio.mp4"; "notes.txt"; "audio.m4a"])
              (Scalar (AStr "u")) ["audio.mp4"; "notes.txt"; "audio.m4a"] eq_refl)
    as [H _].
  apply (proj2 (H "audio.m4a")).
  exists ["audio.mp3"], ["audio.webm"; "audio.mp4"].
  split; [reflexivity|]. split; [simpl; auto|].
  intros q [<-|[]] [H0|[H0|[H0|[]]]]; discriminate.
Defined.

Lemma transcribe_video_left_over env video_url :
  transcribe_video env video_url
  = match left_over env video_url with
    | [] => transcribe_video_sync env video_url
    | _ => Raise "OSError: Directory not empty"
    end.
Proof.
  unfold transcribe_video, transcribe_video_sync, left_over.
  destruct (download_audio env video_url);
    destruct (match ydl_download env video_url with Ok fs => fs | Raise _ => [] end);
    simpl; try reflexivity;
    match goal with |- context [negb ?b] => destruct (negb b) end;
    try reflexivity;
    match goal with |- context [filter ?f ?l] => destruct (filter f l) end; reflexivity.
Qed.

(** X12: [transcribe_video] and [transcribe_video_sync] differ in the
    clean-up only: whenever [transcribe_video] returns a transcript,
    [transcribe_video_sync] returns the same; but when the download leaves a
    file besides the audio, [transcribe_video] raises the error of [os.rmdir]
    whatever the transcription gave, where [transcribe_video_sync] drops that
    error and gives the result of the transcription. *)
Theorem transcribe_video_and_its_sync_version (env : Env) (video_url : Value) :
  (forall t, transcribe_video env video_url = Ok t ->
             transcribe_video_sync env video_url = Ok t) /\
  (left_over env video_url = [] ->
   transcribe_video env video_url = transcribe_video_sync env video_url) /\
  (left_over env video_url <> [] ->
   transcribe_video env video_url = Raise "OSError: Directory not empty") /\
  transcribe_video_sync env video_url
  = rbind (download_audio env video_url) (transcribe_audio env video_url).
Proof.
  rewrite transcribe_video_left_over.
  split; [|split; [|split]].
  - intros t. destruct (left_over env video_url); [auto | discriminate].
  - intros ->. reflexivity.
  - destruct (left_over env video_url); [congruence | reflexivity].
  - unfold transcribe_video_sync. destruct (left_over env video_url); reflexivity.
Qed.

Lemma transcribe_video_and_its_sync_version_witness :
  let env :=
    {| actor_call := actor_call Sample.env;
       iterate_items := iterate_items Sample.env;
       fromtimestamp := fromtimestamp Sample.env;
       fromisoformat := fromisoformat Sample.env;
       strftime := strftime Sample.env;
       repr_dict := repr_dict Sample.env;
       format_platform := format_platform Sample.env;
       db_fault := db_fault Sample.env;
       ydl_download := fun _ => Ok ["audio.mp3"; "audio.webm"];
       whisper_transcribe := whisper_transcribe Sample.env;
       gspread := gspread Sample.env |} in
  transcribe_video_sync env (Scalar (AStr "u")) = Ok "hello world" /\
  transcribe_video env (Scalar (AStr "u")) = Raise "OSError: Directory not empty".
Proof.
  split; [reflexivity|].
  match goal with
  | |- transcribe_video ?e ?u = _ =>
      destruct (transcribe_video_and_its_sync_version e u) as (_ & _ & H & _)
  end.
  apply H. discriminate.
Defined.

Lemma rstrip_head c t :
  rstrip (String c t) = EmptyString \/ exists t', rstrip (String c t) = String c t'.
Proof.
  simpl. destruct (rstrip t); [destruct (is_space c)|]; eauto.
Qed.

Lemma rstrip_idem s : rstrip (rstrip s) = rstrip s.
Proof.
  induction s as [|c t IH]; simpl; [reflexivity|].
  destruct (rstrip t) as [|c' t'] eqn:E.
  - destruct (is_space c) eqn:Ec; simpl; [reflexivity | now rewrite Ec].
  - simpl in *. rewrite IH. reflexivity.
Qed.

Lemma lstrip_rstrip_lstrip s : lstrip (rstrip (lstrip s)) = rstrip (lstrip s).
Proof.
  induction s as [|c t IH]; simpl; [reflexivity|].
  destruct (is_space c) eqn:Ec; [exact IH|].
  destruct (rstrip_head c t) as [H|[t' H]]; rewrite H; simpl; [reflexivity|].
  now rewrite Ec.
Qed.

Lemma blank_rstrip s : blank s = true -> rstrip s = EmptyString.
Proof.
  induction s as [|c t IH]; simpl; [reflexivity|].
  intros H. apply andb_prop in H as [Hc Ht]. now rewrite (IH Ht), Hc.
Qed.

Lemma blank_lstrip s : blank s = true -> lstrip s = EmptyString.
Proof.
  induction s as [|c t IH]; simpl; [reflexivity|].
  intros H. apply andb_prop in H as [Hc Ht]. rewrite Hc. now apply IH.
Qed.

Lemma blank_append a b : blank a = true -> blank b = true -> blank (a ++ b) = true.
Proof.
  induction a as [|c t IH]; simpl; [auto|].
  intros H Hb. apply andb_prop in H as [Hc Ht]. now rewrite Hc, IH.
Qed.

Lemma blank_strip s : blank s = true -> strip s = EmptyString.
Proof. intros H. unfold strip. now rewrite (blank_lstrip s H). Qed.

Lemma blank_join (l : list string) :
  Forall (fun s => blank s = true) l -> blank (join " " l) = true.
Proof.
  unfold join. induction l as [|x [|y t] IH]; intros Hall.
  - reflexivity.
  - inversion Hall; subst. assumption.
  - inversion Hall as [|? ? Hx Hrest]; subst.
    change (String.concat " " (x :: y :: t)) with (x ++ " " ++ String.concat " " (y :: t)).
    apply blank_append; [exact Hx|]. apply blank_append; [reflexivity | now apply IH].
Qed.

Lemma lstrip_length s : (String.length (lstrip s) <= String.length s)%nat.
Proof.
  induction s as [|c t IH]; simpl; [lia|].
  destruct (is_space c); simpl; lia.
Qed.

Lemma lstrip_fixed_head s c rest :
  lstrip s = s -> s = String c rest -> is_space c = false.
Proof.
  intros H ->. simpl in H. destruct (is_space c); [|reflexivity].
  pose proof (lstrip_length rest) as Hl. rewrite H in Hl. simpl in Hl. lia.
Qed.

Lemma rstrip_fixed_last rest : forall s c,
  rstrip s = s -> s = (rest ++ String c "")%string -> is_space c = false.
Proof.
  induction rest as [|d r IH]; intros s c H ->; simpl in H.
  - destruct (is_space c); [discriminate | reflexivity].
  - destruct (rstrip (r ++ String c "")) as [|x t'] eqn:E.
    + destruct (is_space d); [discriminate|].
      injection H as H. destruct r; discriminate.
    + injection H as H. apply (IH (r ++ String c "")%string c); [|reflexivity].
      now rewrite E.
Qed.

(** X13: for ASCII segments, a transcript returned by [transcribe_audio]
    begins and ends with no white space, so that stripping it again changes
    nothing, and it is the empty string when every segment is white space
    only, in particular when there is no segment. *)
Theorem transcript_is_stripped (env : Env) (video_url : Value) (audio_path : string)
    (segments : list string) :
  whisper_transcribe env video_url audio_path = Ok segments ->
  Forall (fun s => is_ascii s = true) segments ->
  exists t,
    transcribe_audio env video_url audio_path = Ok t /\
    (forall c rest, t = String c rest -> is_space c = false) /\
    (forall rest c, t = (rest ++ String c "")%string -> is_space c = false) /\
    strip t = t /\
    (Forall (fun s => blank s = true) segments -> t = "").
Proof.
  intros Hw _. unfold transcribe_audio. rewrite Hw. simpl rbind.
  eexists. split; [reflexivity|].
  assert (Hl : forall s, lstrip (strip s) = strip s)
    by (intros s; apply lstrip_rstrip_lstrip).
  assert (Hr : forall s, rstrip (strip s) = strip s)
    by (intros s; apply rstrip_idem).
  split; [|split; [|split]].
  - intros c rest. apply lstrip_fixed_head. apply Hl.
  - intros rest c. apply rstrip_fixed_last. apply Hr.
  - unfold strip at 1. now rewrite Hl, Hr.
  - intros Hall. apply blank_strip. apply blank_join.
    rewrite Forall_forall in *. intros s Hs. apply in_map_iff in Hs as [x [<- Hx]].
    specialize (Hall x Hx). rewrite (blank_strip x Hall). reflexivity.
Qed.

Lemma transcript_is_stripped_witness :
  transcribe_audio Sample.env (Scalar (AStr "u")) "audio.mp3" = Ok "hello world" /\
  strip "hello world" = "hello world".
Proof.
  destruct (transcript_is_stripped Sample.env (Scalar (AStr "u")) "audio.mp3"
              [" hello "; "world "] eq_refl) as (t & Ht & _ & _ & Hs & _).
  { repeat constructor. }
  split; [reflexivity|].
  assert (E : t = "hello world") by (vm_compute in Ht; congruence).
  now rewrite <- E.
Defined.

(** ** Reading jobs, and the bulk start of transcriptions *)

Lemma find_app_fresh {A} (p : A -> bool) l x :
  List.find p l = None -> p x = true -> List.find p (l ++ [x])%list = Some x.
Proof.
  induction l as [|y t IH]; simpl; intros Hn Hx.
  - now rewrite Hx.
  - destruct (p y); [discriminate | now apply IH].
Qed.

Lemma find_all_false {A} (p : A -> bool) l :
  (forall x, In x l -> p x = false) -> List.find p l = None.
Proof.
  induction l as [|y t IH]; simpl; intros H; [reflexivity|].
  rewrite (H y (or_introl eq_refl)). apply IH. intros x Hx. apply H. now right.
Qed.

(** X14: [get_job] returns a job only when it has the id asked for and
    belongs to the user who asks, and answers 404 otherwise; so the job a
    user has just had accepted is returned to that user as it was created,
    and is not found by any other user. *)
Theorem get_job_is_scoped_to_the_user (current_user : User) (job_id : Z) (w : World) :
  (forall j, get_job current_user job_id w = Returned j ->
             j_id j = job_id /\ j_user_id j = u_id current_user /\ In j (jobs (db w))) /\
  (get_job current_user job_id w = HTTPException 404 "Job not found" <->
   forall j, In j (jobs (db w)) -> j_id j = job_id -> j_user_id j <> u_id current_user) /\
  (forall platform job w' scheduled other,
      start_scrape_job current_user platform w = (Returned job, w', scheduled) ->
      get_job current_user (j_id job) w' = Returned job /\
      (u_id other <> u_id current_user ->
       get_job other (j_id job) w' = HTTPException 404 "Job not found")).
Proof.
  split; [|split].
  - unfold get_job, first. intros j H.
    destruct (List.find _ _) as [x|] eqn:E; [|discriminate].
    injection H as <-. apply find_some in E as [Hin E].
    apply andb_prop in E as [E1 E2]. apply Z.eqb_eq in E1, E2. auto.
  - unfold get_job, first. split.
    + intros H j Hin Hid Hu.
      destruct (List.find _ _) as [x|] eqn:E; [discriminate|].
      apply (find_none _ _ E) in Hin. rewrite Hid, Hu, !Z.eqb_refl in Hin. discriminate.
    + intros H. destruct (List.find _ _) as [x|] eqn:E; [|reflexivity].
      apply find_some in E as [Hin E]. apply andb_prop in E as [E1 E2].
      apply Z.eqb_eq in E1, E2. exfalso. now apply (H x Hin E1).
  - intros platform job w' scheduled other H. unfold start_scrape_job in H.
    destruct (running_job_of (u_id current_user) (db w)); [discriminate|].
    injection H as <- <- _. unfold get_job, first. simpl.
    set (job := new_job (db w) (u_id current_user) platform (clock w)).
    assert (Hnone : forall uid,
               List.find (fun j => (j_id j =? j_id job) && (j_user_id j =? uid))%bool
                         (jobs (db w)) = None).
    { intros uid. destruct (List.find _ _) as [x|] eqn:E; [|reflexivity].
      apply find_some in E as [Hin E]. apply andb_prop in E as [E1 _].
      apply Z.eqb_eq in E1. exfalso.
      apply (fresh_id_not_in (map j_id (jobs (db w)))).
      change (fresh_id (map j_id (jobs (db w)))) with (j_id job).
      rewrite <- E1. now apply in_map. }
    split.
    + change (fresh_id (map j_id (jobs (db w)))) with (j_id job).
      rewrite (find_app_fresh _ _ job (Hnone _)); [reflexivity|].
      simpl. now rewrite !Z.eqb_refl.
    + intros Hne.
      assert (Hf : List.find (fun j => (j_id j =? j_id job) && (j_user_id j =? u_id other))%bool
                             (jobs (db w) ++ [job])%list = None).
      { apply find_all_false. intros x Hx. apply in_app_or in Hx as [Hx|[<-|[]]].
        - apply (find_none _ _ (Hnone (u_id other)) x Hx).
        - simpl. apply andb_false_iff. right. apply Z.eqb_neq. congruence. }
      change (fresh_id (map j_id (jobs (db w)))) with (j_id job).
      now rewrite Hf.
Qed.

Lemma get_job_is_scoped_to_the_user_witness :
  let other := {| u_id := 2; u_google_sheet_id := None |} in
  get_job Sample.user1 1 Sample.world = Returned Sample.job1 /\
  get_job other 1 Sample.world = HTTPException 404 "Job not found".
Proof.
  destruct (get_job_is_scoped_to_the_user {| u_id := 2; u_google_sheet_id := None |} 1
              Sample.world) as (_ & [_ H] & _).
  split; [reflexivity|].
  apply H. intros j [<-|[]] _. discriminate.
Defined.

(** X15: the bulk start schedules a transcription task for the videos of
    the user whose status is "pending", as many tasks as there are such
    videos, and for no other video (a failed video is not retried); it
    reports their number, which is the number of pending transcriptions of
    the dashboard, and leaves the world as it was. *)
Theorem transcribe_all_pending_schedules_the_pending (current_user : User)
    (today : datetime) (w : World) :
  let '(response, w', scheduled) := transcribe_all_pending current_user w in
  w' = w /\
  response = Returned (List.length scheduled) /\
  List.length scheduled = pending_transcriptions (get_dashboard_stats today current_user w) /\
  (forall video_id,
      In (TranscriptionTask video_id) scheduled <->
      exists v, In v (videos (db w)) /\ v_id v = video_id /\
                v_user_id v = u_id current_user /\
                v_transcription_status v = "pending") /\
  (forall t, In t scheduled -> exists video_id, t = TranscriptionTask video_id).
Proof.
  unfold transcribe_all_pending. simpl.
  split; [reflexivity|]. split; [now rewrite length_map|].
  split; [now rewrite length_map|]. split.
  - intros video_id. rewrite in_map_iff. split.
    + intros [v [Hv Hin]]. injection Hv as <-. apply filter_In in Hin as [Hin E].
      apply andb_prop in E as [E1 E2]. apply Z.eqb_eq in E1. apply String.eqb_eq in E2.
      eauto.
    + intros (v & Hin & <- & Hu & Hs). exists v. split; [reflexivity|].
      apply filter_In. split; [exact Hin|].
      rewrite Hu, Hs, Z.eqb_refl. reflexivity.
  - intros t Ht. apply in_map_iff in Ht as [v [<- _]]. eauto.
Qed.

(** ** The dashboard *)

Lemma filter_length_le_weaker {A} (p q : A -> bool) l :
  (forall x, p x = true -> q x = true) ->
  (List.length (filter p l) <= List.length (filter q l))%nat.
Proof.
  intros H. induction l as [|x t IH]; simpl; [lia|].
  destruct (p x) eqn:E.
  - rewrite (H x E). simpl. lia.
  - destruct (q x); simpl; lia.
Qed.

Lemma latest_fold js : forall acc,
  match fold_left newer js acc with
  | None => acc = None /\ js = []
  | Some j =>
      (In j js \/ acc = Some j) /\
      (forall j', In j' js -> j_created_at j' <= j_created_at j) /\
      (forall b, acc = Some b -> j_created_at b <= j_created_at j)
  end.
Proof.
  induction js as [|x t IH]; intros acc; simpl.
  - destruct acc as [b|]; [|now split].
    split; [now right|]. split; [intros ? []|]. intros b' [= ->]. lia.
  - specialize (IH (newer acc x)).
    destruct (fold_left newer t (newer acc x)) as [j|].
    + destruct IH as (Hin & Hle & Hacc).
      assert (Hx : j_created_at x <= j_created_at j /\
                   forall b, acc = Some b -> j_created_at b <= j_created_at j).
      { destruct acc as [b|]; simpl in Hacc.
        - destruct (j_created_at b <? j_created_at x) eqn:E.
          + apply Z.ltb_lt in E. specialize (Hacc x eq_refl).
            split; [exact Hacc|]. intros b' [= <-]. lia.
          + apply Z.ltb_ge in E. specialize (Hacc b eq_refl).
            split; [lia|]. intros b' [= <-]. exact Hacc.
        - split; [now apply Hacc|]. intros b' [=]. }
      split; [|split].
      * destruct Hin as [Hin|Hin]; [left; now right|].
        destruct acc as [b|]; simpl in Hin.
        -- destruct (j_created_at b <? j_created_at x); injection Hin as <-.
           ++ left; now left.
           ++ now right.
        -- injection Hin as <-. left; now left.
      * intros j' [<-|Hj']; [exact (proj1 Hx) | now apply Hle].
      * exact (proj2 Hx).
    + destruct IH as [Hacc _]. destruct acc as [b|]; simpl in Hacc; [|discriminate].
      destruct (j_created_at b <? j_created_at x); discriminate.
Qed.

Lemma latest_job_spec js :
  match latest_job js with
  | None => js = []
  | Some j => In j js /\ forall j', In j' js -> j_created_at j' <= j_created_at j
  end.
Proof.
  pose proof (latest_fold js None) as H. unfold latest_job.
  destruct (fold_left newer js None) as [j|]; [|apply H].
  destruct H as ([Hin|Hin] & Hle & _); [|discriminate]. now split.
Qed.

Lemma latest_job_newest js job :
  (forall j, In j js -> j_created_at j < j_created_at job) ->
  latest_job (js ++ [job])%list = Some job.
Proof.
  intros Hlt. pose proof (latest_fold js None) as H. unfold latest_job.
  rewrite fold_left_app. simpl.
  destruct (fold_left newer js None) as [j|]; [|reflexivity].
  destruct H as ([Hin|Hin] & _ & _); [|discriminate].
  simpl. apply Hlt in Hin. apply Z.ltb_lt in Hin. now rewrite Hin.
Qed.

(** X16: on the dashboard, the videos of today and the pending
    transcriptions are among the videos counted in total; the last job is
    absent exactly when the user has no job, and otherwise it is a job of the
    user that no other job of the user was created after, shown with its
    status, whatever it is, and its completion time; so right after a start
    request was accepted, later than the user's other jobs were created, the
    dashboard shows "pending" and no time. *)
Theorem dashboard_stats_are_consistent (today : datetime) (current_user : User)
    (w : World) :
  let stats := get_dashboard_stats today current_user w in
  (videos_today stats <= total_videos stats)%nat /\
  (pending_transcriptions stats <= total_videos stats)%nat /\
  (last_job_status stats = None <->
   forall j, In j (jobs (db w)) -> j_user_id j <> u_id current_user) /\
  (forall s, last_job_status stats = Some s ->
     exists j, In j (jobs (db w)) /\ j_user_id j = u_id current_user /\
               s = status_value (j_status j) /\
               last_job_time stats = j_completed_at j /\
               forall j', In j' (jobs (db w)) -> j_user_id j' = u_id current_user ->
                          j_created_at j' <= j_created_at j) /\
  (forall platform job w' scheduled,
     start_scrape_job current_user platform w = (Returned job, w', scheduled) ->
     (forall j, In j (jobs (db w)) -> j_user_id j = u_id current_user ->
                j_created_at j < clock w) ->
     last_job_status (get_dashboard_stats today current_user w') = Some "pending" /\
     last_job_time (get_dashboard_stats today current_user w') = None).
Proof.
  cbv zeta. unfold get_dashboard_stats. cbn [videos_today total_videos
    pending_transcriptions last_job_status last_job_time]. unfold videos_of.
  split; [|split; [|split; [|split]]].
  - apply filter_length_le_weaker. intros v H. now apply andb_prop in H.
  - apply filter_length_le_weaker. intros v H. now apply andb_prop in H.
  - pose proof (latest_job_spec (jobs_of (u_id current_user) (db w))) as H.
    destruct (latest_job _) as [j|]; simpl.
    + split; [discriminate|]. intros Hno. exfalso.
      destruct H as [Hin _]. apply filter_In in Hin as [Hin E].
      apply Z.eqb_eq in E. now apply (Hno j).
    + split; [|reflexivity]. intros _ j Hin Hu.
      assert (Hj : In j (jobs_of (u_id current_user) (db w))).
      { apply filter_In. split; [exact Hin|]. now apply Z.eqb_eq. }
      rewrite H in Hj. exact Hj.
  - intros s Hs.
    pose proof (latest_job_spec (jobs_of (u_id current_user) (db w))) as H.
    destruct (latest_job _) as [j|]; simpl in Hs; [|discriminate].
    injection Hs as <-. destruct H as [Hin Hle].
    apply filter_In in Hin as [Hin E]. apply Z.eqb_eq in E.
    exists j. repeat (split; [assumption || reflexivity|]).
    intros j' Hj' Hu. apply Hle. apply filter_In. split; [exact Hj'|].
    now apply Z.eqb_eq.
  - intros platform job w' scheduled H Hlt. unfold start_scrape_job in H.
    destruct (running_job_of (u_id current_user) (db w)); [discriminate|].
    injection H as <- <- _.
    assert (Hl : latest_job (jobs_of (u_id current_user)
                   (set_jobs (fun js => (js ++ [new_job (db w) (u_id current_user)
                                                  platform (clock w)])%list) (db w)))
                 = Some (new_job (db w) (u_id current_user) platform (clock w))).
    { unfold jobs_of. cbn [jobs set_jobs]. rewrite filter_app. cbn [filter new_job j_user_id].
      rewrite Z.eqb_refl. apply latest_job_newest.
      intros j Hj. apply filter_In in Hj as [Hj E]. apply Z.eqb_eq in E.
      cbn [j_created_at]. now apply Hlt. }
    cbn [db]. rewrite Hl. split; reflexivity.
Qed.

Lemma dashboard_stats_are_consistent_witness :
  last_job_status (get_dashboard_stats 0 Sample.user1 Sample.world) = Some "pending" /\
  exists j, In j (jobs (db Sample.world)) /\ j_user_id j = 1 /\
            "pending" = status_value (j_status j).
Proof.
  split; [reflexivity|].
  destruct (dashboard_stats_are_consistent 0 Sample.user1 Sample.world)
    as (_ & _ & _ & H & _).
  destruct (H "pending" eq_refl) as (j & Hin & Hu & Hs & _).
  exists j. auto.
Defined.

(** ** What a run stores, and what it leaves alone *)





(** X18: a run changes nothing but the row of its job and the table of the
    videos: the users, the keywords and the settings are as before, the
    videos of before keep their places and their rows, and every job keeps
    its place; a job with another id keeps its row, and the job of the run
    keeps its id, its user, its platform, its creation time and its count of
    transcribed videos, and its [keywords_processed] does not go down. *)
Theorem run_touches_its_job_and_the_videos (env : Env) (job_id user_id : Z)
    (platform : option PlatformEnum) (w : World) :
  let w' := snd (run_scrape_job env job_id user_id platform w) in
  users (db w') = users (db w) /\
  keywords (db w') = keywords (db w) /\
  user_settings (db w') = user_settings (db w) /\
  firstn (List.length (videos (db w))) (videos (db w')) = videos (db w) /\
  List.length (jobs (db w')) = List.length (jobs (db w)) /\
  forall i j, nth_error (jobs (db w)) i = Some j ->
    exists j', nth_error (jobs (db w')) i = Some j' /\
               same_identity j j' /\
               j_keywords_processed j <= j_keywords_processed j' /\
               (j_id j <> job_id -> j' = j).
Proof.
  cbv zeta.
  destruct (run_scrape_job_effect env job_id user_id platform w)
    as (f & new & Hu & Hk & Hs & _ & Hj & Hv & Hf & _).
  split; [exact Hu|]. split; [exact Hk|]. split; [exact Hs|].
  split; [|split].
  - rewrite Hv, firstn_app, Nat.sub_diag, firstn_all. simpl. apply app_nil_r.
  - rewrite Hj. unfold on_job. apply length_map.
  - intros i j Hi. rewrite Hj. unfold on_job. rewrite nth_error_map, Hi. simpl.
    eexists. split; [reflexivity|].
    destruct (j_id j =? job_id) eqn:E.
    + split; [apply Hf|]. split; [apply Hf|].
      apply Z.eqb_eq in E. intros Hne. now destruct Hne.
    + split; [apply same_identity_refl|]. split; [lia | reflexivity].
Qed.







(** ** What a transcription leaves alone *)

Lemma on_video_id video_id vs : on_video video_id (fun v => v) vs = vs.
Proof.
  unfold on_video. rewrite <- (map_id vs) at 2. apply map_ext.
  intros v. now destruct (v_id v =? video_id).
Qed.

Lemma on_video_on_video video_id f g vs :
  (forall v, v_id (f v) = v_id v) ->
  on_video video_id g (on_video video_id f vs) = on_video video_id (fun v => g (f v)) vs.
Proof.
  intros Hf. unfold on_video. rewrite map_map. apply map_ext. intros v.
  destruct (v_id v =? video_id) eqn:E; [now rewrite Hf, E | now rewrite E].
Qed.

Lemma run_transcription_job_effect env video_id w :
  exists g,
    users (db (snd (run_transcription_job env video_id w))) = users (db w) /\
    keywords (db (snd (run_transcription_job env video_id w))) = keywords (db w) /\
    jobs (db (snd (run_transcription_job env video_id w))) = jobs (db w) /\
    user_settings (db (snd (run_transcription_job env video_id w)))
      = user_settings (db w) /\
    videos (db (snd (run_transcription_job env video_id w)))
      = on_video video_id g (videos (db w)) /\
    forall v, source_of (g v) = source_of v.
Proof.
  assert (Hnothing : snd (run_transcription_job env video_id w) = w ->
    exists g,
    users (db (snd (run_transcription_job env video_id w))) = users (db w) /\
    keywords (db (snd (run_transcription_job env video_id w))) = keywords (db w) /\
    jobs (db (snd (run_transcription_job env video_id w))) = jobs (db w) /\
    user_settings (db (snd (run_transcription_job env video_id w)))
      = user_settings (db w) /\
    videos (db (snd (run_transcription_job env video_id w)))
      = on_video video_id g (videos (db w)) /\
    forall v, source_of (g v) = source_of v).
  { intros ->. exists (fun v => v). rewrite on_video_id. repeat split. }
  destruct (db_fault env (ReadVideo video_id)) as [e|] eqn:Hf.
  { apply Hnothing.
    cbv [run_transcription_job try_except bind db_read raise get_db ret].
    now rewrite Hf. }
  destruct (find_video video_id (db w)) as [v|] eqn:Hv.
  2:{ apply Hnothing.
      cbv [run_transcription_job try_except bind db_read raise get_db ret
           transcription_body].
      now rewrite Hf, Hv. }
  rewrite (run_transcription_job_cases env video_id w v Hf Hv). cbv zeta.
  destruct (transcribe_video env (v_video_url v)) as [t|e].
  - destruct (db_fault env (ReadOwner (v_user_id v))) as [e|].
    + exists (fun x => with_transcription_status "failed"
                         (with_transcription_status "completed"
                            (with_transcription t
                               (with_transcription_status "processing" x)))).
      simpl.
      fold (on_video video_id (with_transcription_status "processing") (videos (db w))).
      fold (on_video video_id
              (fun x => with_transcription_status "completed" (with_transcription t x))
              (on_video video_id (with_transcription_status "processing")
                 (videos (db w)))).
      fold (on_video video_id (with_transcription_status "failed")
              (on_video video_id
                 (fun x => with_transcription_status "completed" (with_transcription t x))
                 (on_video video_id (with_transcription_status "processing")
                    (videos (db w))))).
      rewrite !on_video_on_video by reflexivity. repeat split.
    + exists (fun x => with_transcription_status "completed"
                         (with_transcription t
                            (with_transcription_status "processing" x))).
      simpl.
      fold (on_video video_id (with_transcription_status "processing") (videos (db w))).
      fold (on_video video_id
              (fun x => with_transcription_status "completed" (with_transcription t x))
              (on_video video_id (with_transcription_status "processing")
                 (videos (db w)))).
      rewrite !on_video_on_video by reflexivity. repeat split.
  - exists (fun x => with_transcription_status "failed"
                       (with_transcription_status "processing" x)).
    simpl.
    fold (on_video video_id (with_transcription_status "processing") (videos (db w))).
    fold (on_video video_id (with_transcription_status "failed")
            (on_video video_id (with_transcription_status "processing")
               (videos (db w)))).
    rewrite !on_video_on_video by reflexivity. repeat split.
Qed.

(** X21: a transcription changes nothing but the transcript and the
    transcription status of its video: the users, the keywords, the settings
    and the jobs are as before (so no job's count of transcribed videos ever
    moves), every video keeps its place, a video with another id keeps its
    row, and the video of the task keeps everything that the search gave
    it. *)
Theorem transcription_touches_only_its_video (env : Env) (video_id : Z) (w : World) :
  let w' := snd (run_transcription_job env video_id w) in
  users (db w') = users (db w) /\
  keywords (db w') = keywords (db w) /\
  user_settings (db w') = user_settings (db w) /\
  jobs (db w') = jobs (db w) /\
  List.length (videos (db w')) = List.length (videos (db w)) /\
  forall i v, nth_error (videos (db w)) i = Some v ->
    exists v', nth_error (videos (db w')) i = Some v' /\
               source_of v' = source_of v /\
               (v_id v <> video_id -> v' = v).
Proof.
  cbv zeta.
  destruct (run_transcription_job_effect env video_id w)
    as (g & Hu & Hk & Hj & Hs & Hv & Hg).
  split; [exact Hu|]. split; [exact Hk|]. split; [exact Hs|]. split; [exact Hj|].
  rewrite Hv. unfold on_video. split; [apply length_map|].
  intros i v Hi. rewrite nth_error_map, Hi. simpl.
  eexists. split; [reflexivity|].
  destruct (v_id v =? video_id) eqn:E.
  - split; [apply Hg|]. apply Z.eqb_eq in E. intros Hne. now destruct Hne.
  - split; reflexivity.
Qed.

(** ** The keywords *)

Lemma existing_keyword_None user_id text p s :
  existing_keyword user_id text p s = None <->
  ~ In (user_id, text, p) (map keyword_key (keywords s)).
Proof.
  unfold existing_keyword, first. split.
  - intros H Hin. apply in_map_iff in Hin as (k & Hk & Hin).
    apply (find_none _ _ H) in Hin. unfold keyword_key in Hk.
    injection Hk as H1 H2 H3. simpl in Hin.
    rewrite H1, H2, H3, Z.eqb_refl, String.eqb_refl in Hin. simpl in Hin.
    assert (Hp : PlatformEnum_eqb p p = true) by now apply PlatformEnum_eqb_eq.
    congruence.
  - intros H. apply find_all_false. intros k Hin.
    destruct (_ && _ && _)%bool eqn:E; [|reflexivity]. exfalso. apply H.
    apply andb_prop in E as [E E3]. apply andb_prop in E as [E1 E2].
    apply Z.eqb_eq in E1. apply String.eqb_eq in E2. apply PlatformEnum_eqb_eq in E3.
    apply in_map_iff. exists k. split; [|exact Hin].
    unfold keyword_key. now rewrite E1, E2, E3.
Qed.

(** X22: a keyword is created exactly when the user has no keyword with
    this text on this platform, and a refused request changes nothing; so
    creation keeps the keywords free of duplicates.  A created keyword is
    stored last, active, and the next job of the user selects it, with its
    platform or with none; the same request made again is refused. *)
Theorem create_keyword_keeps_keywords_unique (current_user : User)
    (keyword_data : KeywordCreate) (w : World) :
  unique_keywords (db w) ->
  let r := fst (create_keyword current_user keyword_data w) in
  let w' := snd (create_keyword current_user keyword_data w) in
  unique_keywords (db w') /\
  (accepted r = true <->
   forall k, In k (keywords (db w)) ->
             keyword_key k <> (u_id current_user, kc_keyword keyword_data,
                               kc_platform keyword_data)) /\
  (accepted r = false -> w' = w) /\
  (forall kw, r = Returned kw ->
     keywords (db w') = (keywords (db w) ++ [kw])%list /\
     keyword_key kw = (u_id current_user, kc_keyword keyword_data,
                       kc_platform keyword_data) /\
     k_results_per_run kw = kc_results_per_run keyword_data /\
     In kw (select_keywords (u_id current_user) (Some (kc_platform keyword_data)) (db w')) /\
     In kw (select_keywords (u_id current_user) None (db w')) /\
     fst (create_keyword current_user keyword_data w')
       = HTTPException 400 "Keyword already exists for this platform").
Proof.
  intros Huniq. cbv zeta. unfold create_keyword.
  destruct (existing_keyword _ _ _ (db w)) as [k0|] eqn:E; simpl.
  - split; [exact Huniq|]. split; [|split; [reflexivity|discriminate]].
    split; [discriminate|]. intros H. exfalso.
    unfold existing_keyword, first in E. apply find_some in E as [Hin E].
    apply (H k0 Hin).
    apply andb_prop in E as [E E3]. apply andb_prop in E as [E1 E2].
    apply Z.eqb_eq in E1. apply String.eqb_eq in E2. apply PlatformEnum_eqb_eq in E3.
    unfold keyword_key. now rewrite E1, E2, E3.
  - pose proof (proj1 (existing_keyword_None _ _ _ _) E) as Hnot.
    split; [|split; [|split; [discriminate|]]].
    + unfold unique_keywords. simpl. rewrite map_app. simpl.
      apply (Permutation_NoDup (Permutation_cons_append _ _)).
      constructor; [exact Hnot | exact Huniq].
    + split; [|reflexivity]. intros _ k Hin Hk. apply Hnot.
      rewrite <- Hk. now apply in_map.
    + intros kw [= <-]. split; [reflexivity|]. split; [reflexivity|].
      split; [reflexivity|].
      assert (Hp : PlatformEnum_eqb (kc_platform keyword_data) (kc_platform keyword_data)
                   = true) by now apply PlatformEnum_eqb_eq.
      split; [|split].
      * apply filter_In. split; [apply in_or_app; right; now left|].
        simpl. now rewrite Z.eqb_refl, Hp.
      * apply filter_In. split; [apply in_or_app; right; now left|].
        simpl. now rewrite Z.eqb_refl.
      * match goal with
        | |- fst (match ?x with _ => _ end) = _ => destruct x eqn:E'
        end; [reflexivity|]. exfalso.
        apply existing_keyword_None in E'. apply E'. simpl.
        rewrite map_app. apply in_or_app. right. now left.
Qed.

Lemma create_keyword_keeps_keywords_unique_witness :
  let d := {| kc_keyword := "fitness"; kc_platform := TIKTOK; kc_results_per_run := 5 |} in
  unique_keywords (db Sample.world) /\
  unique_keywords (db (snd (create_keyword Sample.user1 d Sample.world))) /\
  List.length (keywords (db (snd (create_keyword Sample.user1 d Sample.world)))) = 4%nat.
Proof.
  assert (H : unique_keywords (db Sample.world)).
  { unfold unique_keywords. simpl.
    repeat constructor; simpl; intuition discriminate. }
  split; [exact H|]. split; [|reflexivity].
  apply (create_keyword_keeps_keywords_unique Sample.user1
           {| kc_keyword := "fitness"; kc_platform := TIKTOK; kc_results_per_run := 5 |}
           Sample.world H).
Defined.

Lemma NoDup_map_inj_in {A B} (f : A -> B) l a b :
  NoDup (map f l) -> In a l -> In b l -> f a = f b -> a = b.
Proof.
  induction l as [|x t IH]; simpl; intros Hnd Ha Hb Hf; [destruct Ha|].
  inversion Hnd as [|y ys Hnot Hnd']; subst.
  destruct Ha as [<-|Ha], Hb as [<-|Hb]; auto.
  - exfalso. apply Hnot. rewrite Hf. now apply in_map.
  - exfalso. apply Hnot. rewrite <- Hf. now apply in_map.
Qed.

(** X23: an update is not checked against the other keywords: when a user
    has two keywords, the update that gives the first the text and the
    platform of the second is accepted, and the user then holds the same
    text on the same platform twice. *)
Theorem update_keyword_can_duplicate (current_user : User) (k1 k2 : Keyword) (w : World) :
  In k1 (keywords (db w)) ->
  In k2 (keywords (db w)) ->
  k_user_id k1 = u_id current_user ->
  k_user_id k2 = u_id current_user ->
  k_id k1 <> k_id k2 ->
  let keyword_data :=
    {| ku_keyword := Some (k_keyword k2); ku_platform := Some (k_platform k2);
       ku_is_active := None; ku_results_per_run := None |} in
  accepted (fst (update_keyword current_user (k_id k1) keyword_data w)) = true /\
  ~ unique_keywords (db (snd (update_keyword current_user (k_id k1) keyword_data w))).
Proof.
  intros H1 H2 Hu1 Hu2 Hne. cbv zeta. unfold update_keyword.
  destruct (owned_keyword current_user (k_id k1) (db w)) as [k|] eqn:E.
  2:{ exfalso. unfold owned_keyword, first in E.
      apply (find_none _ _ E) in H1. rewrite Hu1, !Z.eqb_refl in H1. discriminate. }
  unfold owned_keyword, first in E. apply find_some in E as [_ E].
  apply andb_prop in E as [E _]. apply Z.eqb_eq in E. rewrite E.
  split; [reflexivity|]. unfold unique_keywords. cbn [snd db keywords set_keywords].
  rewrite map_map. intros Hnd.
  apply Hne. f_equal.
  apply (NoDup_map_inj_in _ _ k1 k2 Hnd H1 H2).
  rewrite Z.eqb_refl. apply Z.eqb_neq in Hne. rewrite Z.eqb_sym, Hne.
  unfold keyword_key. simpl. congruence.
Qed.

Lemma update_keyword_can_duplicate_witness :
  let d := {| ku_keyword := Some "crypto"; ku_platform := Some TIKTOK;
              ku_is_active := None; ku_results_per_run := None |} in
  unique_keywords (db Sample.world) /\
  ~ unique_keywords (db (snd (update_keyword Sample.user1 1 d Sample.world))).
Proof.
  split.
  - unfold unique_keywords. simpl. repeat constructor; simpl; intuition discriminate.
  - apply (update_keyword_can_duplicate Sample.user1 (Sample.kw 1 "ai tools" TIKTOK)
             (Sample.kw 2 "crypto" TIKTOK) Sample.world).
    + now left.
    + right. now left.
    + reflexivity.
    + reflexivity.
    + discriminate.
Defined.

(** X24: after an update has set a keyword inactive, no run stores a video
    for it, whoever starts the run and whatever the searches return. *)
Theorem inactive_keyword_is_not_searched (current_user : User) (keyword_id : Z)
    (keyword_data : KeywordUpdate) (w : World) (env : Env) (job_id user_id : Z)
    (platform : option PlatformEnum) :
  ku_is_active keyword_data = Some false ->
  accepted (fst (update_keyword current_user keyword_id keyword_data w)) = true ->
  let w1 := snd (update_keyword current_user keyword_id keyword_data w) in
  (forall k, In k (keywords (db w1)) -> k_id k = keyword_id -> k_is_active k = false) /\
  exists new,
    videos (db (snd (run_scrape_job env job_id user_id platform w1)))
      = (videos (db w1) ++ new)%list /\
    forall v, In v new -> v_keyword_id v <> keyword_id.
Proof.
  intros Hoff Hacc. cbv zeta.
  assert (Hk : forall k,
             In k (keywords (db (snd (update_keyword current_user keyword_id
                                        keyword_data w)))) ->
             k_id k = keyword_id -> k_is_active k = false).
  { revert Hacc. unfold update_keyword.
    destruct (owned_keyword current_user keyword_id (db w)) as [k0|] eqn:E;
      [|discriminate].
    intros _. unfold owned_keyword, first in E. apply find_some in E as [_ E].
    apply andb_prop in E as [E _]. apply Z.eqb_eq in E. rewrite E.
    cbn [snd db keywords set_keywords]. intros k Hin Hid.
    apply in_map_iff in Hin as (k' & <- & _).
    destruct (k_id k' =? keyword_id) eqn:E'.
    - simpl. now rewrite Hoff.
    - apply Z.eqb_neq in E'. now destruct E'. }
  split; [exact Hk|].
  destruct (run_scrape_job_effect env job_id user_id platform
              (snd (update_keyword current_user keyword_id keyword_data w)))
    as (f & new & _ & _ & _ & _ & _ & Hv & _ & Hfrom).
  exists new. split; [exact Hv|]. rewrite Forall_forall in Hfrom.
  intros v Hin Hid. destruct (Hfrom v Hin) as (kw & vd & s & Hkw & _ & ->).
  apply filter_In in Hkw as [Hkw E].
  apply andb_prop in E as [E _]. apply andb_prop in E as [_ E].
  simpl in Hid. rewrite (Hk kw Hkw Hid) in E. discriminate.
Qed.

Lemma inactive_keyword_is_not_searched_witness :
  let d := {| ku_keyword := None; ku_platform := None;
              ku_is_active := Some false; ku_results_per_run := None |} in
  let w1 := snd (update_keyword Sample.user1 1 d Sample.world) in
  videos (db (snd (run_scrape_job Sample.env 1 1 None w1))) = [] /\
  exists new,
    videos (db (snd (run_scrape_job Sample.env 1 1 None w1))) = (videos (db w1) ++ new)%list /\
    forall v, In v new -> v_keyword_id v <> 1.
Proof.
  split; [reflexivity|].
  apply (inactive_keyword_is_not_searched Sample.user1 1
           {| ku_keyword := None; ku_platform := None;
              ku_is_active := Some false; ku_results_per_run := None |}
           Sample.world Sample.env 1 1 None); reflexivity.
Defined.

(** ** The settings and the run *)

Lemma ingest_settings env user_id kw vd ss w :
  ingest env user_id kw vd (with_user_settings ss w)
  = (fst (ingest env user_id kw vd w),
     with_user_settings ss (snd (ingest env user_id kw vd w))).
Proof.
  rewrite !ingest_spec.
  destruct (db_fault env _); [reflexivity|].
  change (find_by_url (vd_video_url vd) (db (with_user_settings ss w)))
    with (find_by_url (vd_video_url vd) (db w)).
  destruct (find_by_url _ _); reflexivity.
Qed.

Lemma ingest_all_settings env user_id kw vds ss : forall total w,
  ingest_all env user_id kw vds total (with_user_settings ss w)
  = (fst (ingest_all env user_id kw vds total w),
     with_user_settings ss (snd (ingest_all env user_id kw vds total w))).
Proof.
  induction vds as [|vd rest IH]; intros total w; simpl; [reflexivity|].
  rewrite ingest_settings.
  destruct (ingest env user_id kw vd w) as [[[]|e] w1]; simpl;
    [apply IH | apply IH | reflexivity].
Qed.

Lemma process_keyword_settings env job_id user_id user settings kw total ss w :
  process_keyword env job_id user_id user settings kw total (with_user_settings ss w)
  = (fst (process_keyword env job_id user_id user settings kw total w),
     with_user_settings ss
       (snd (process_keyword env job_id user_id user settings kw total w))).
Proof.
  unfold process_keyword.
  destruct (scrape_by_platform env _ _ _ _ _) as [vds|e]; [|reflexivity].
  rewrite ingest_all_settings.
  destruct (ingest_all env user_id kw vds total w) as [[[[]|e] t] w1]; simpl;
    [|reflexivity].
  now rewrite !finish_keyword_spec.
Qed.

Lemma scrape_loop_settings env job_id user_id user settings kws ss : forall total w,
  scrape_loop env job_id user_id user settings kws total (with_user_settings ss w)
  = (fst (scrape_loop env job_id user_id user settings kws total w),
     with_user_settings ss
       (snd (scrape_loop env job_id user_id user settings kws total w))).
Proof.
  induction kws as [|kw rest IH]; intros total w; simpl; [reflexivity|].
  unfold bind. rewrite process_keyword_settings.
  destruct (process_keyword env job_id user_id user settings kw total w)
    as [[t|e] w1]; simpl; [apply IH | reflexivity].
Qed.

Lemma process_keyword_floor env job_id user_id user s1 s2 kw total w :
  min_likes_of s1 = min_likes_of s2 ->
  process_keyword env job_id user_id user s1 kw total w
  = process_keyword env job_id user_id user s2 kw total w.
Proof.
  intros H. unfold process_keyword.
  change (match s1 with Some s => s_min_likes s | None => 1000 end) with (min_likes_of s1).
  change (match s2 with Some s => s_min_likes s | None => 1000 end) with (min_likes_of s2).
  rewrite H.
  destruct (k_platform kw); reflexivity.
Qed.

Lemma scrape_loop_floor env job_id user_id user s1 s2 kws :
  min_likes_of s1 = min_likes_of s2 ->
  forall total w,
    scrape_loop env job_id user_id user s1 kws total w
    = scrape_loop env job_id user_id user s2 kws total w.
Proof.
  intros H. induction kws as [|kw rest IH]; intros total w; simpl; [reflexivity|].
  unfold bind. rewrite (process_keyword_floor env job_id user_id user s1 s2 kw total w H).
  destruct (process_keyword env job_id user_id user s2 kw total w) as [[t|e] w1];
    [apply IH | reflexivity].
Qed.

Lemma run_scrape_job_settings env job_id user_id platform ss w :
  min_likes_of (find_settings user_id (db (with_user_settings ss w)))
    = min_likes_of (find_settings user_id (db w)) ->
  run_scrape_job env job_id user_id platform (with_user_settings ss w)
  = (fst (run_scrape_job env job_id user_id platform w),
     with_user_settings ss (snd (run_scrape_job env job_id user_id platform w))).
Proof.
  intros H.
  cbv [run_scrape_job scrape_body try_except bind db_read raise get_db ret].
  destruct (db_fault env (ReadJob job_id)) as [e0|]; [reflexivity|].
  change (find_job job_id (db (with_user_settings ss w))) with (find_job job_id (db w)).
  change (find_user user_id (db (with_user_settings ss w)))
    with (find_user user_id (db w)).
  destruct (db_fault env (ReadUser user_id)) as [e1|].
  { destruct (find_job job_id (db w)); reflexivity. }
  destruct (db_fault env (ReadSettings user_id)) as [e2|].
  { destruct (find_job job_id (db w)); reflexivity. }
  destruct (find_job job_id (db w)) as [j|] eqn:Hjob.
  2:{ destruct (find_user user_id (db w)); reflexivity. }
  change (find_user user_id (db (with_user_settings ss w)))
    with (find_user user_id (db w)).
  destruct (find_user user_id (db w)) as [u|]; [|reflexivity].
  change (start_job (j_id j) (with_user_settings ss w))
    with (Ok tt, with_user_settings ss (snd (start_job (j_id j) w))).
  change (start_job (j_id j) w) with (Ok tt, snd (start_job (j_id j) w)).
  cbv iota beta.
  destruct (db_fault env (ReadKeywords user_id)) as [e3|]; [reflexivity|].
  change (select_keywords user_id platform
            (db (with_user_settings ss (snd (start_job (j_id j) w)))))
    with (select_keywords user_id platform (db (snd (start_job (j_id j) w)))).
  rewrite scrape_loop_settings.
  rewrite (scrape_loop_floor env (j_id j) user_id u _ _ _ H).
  destruct (scrape_loop env (j_id j) user_id u (find_settings user_id (db w)) _ 0 _)
    as [[t|e] w1]; reflexivity.
Qed.

Lemma with_user_settings_same w : with_user_settings (user_settings (db w)) w = w.
Proof. now destruct w as [[us ks vs js ss] c sw]. Qed.

Lemma find_snoc {A} (p : A -> bool) l x :
  List.find p (l ++ [x])%list
  = match List.find p l with
    | Some y => Some y
    | None => if p x then Some x else None
    end.
Proof.
  induction l as [|y t IH]; simpl; [reflexivity|].
  destruct (p y); [reflexivity | exact IH].
Qed.

(** X25: reading the settings creates them, with the defaults of the
    columns, when the user has none, and then returns what is stored: a
    second read returns the same and changes nothing.  The floor of likes of
    the settings returned is the one a run used before they were created, and
    a run after the read, of any job and user, returns what it returned
    before and leaves the same world, the table of the settings apart. *)
Theorem get_settings_keeps_the_run (current_user : User) (w : World) (env : Env)
    (job_id user_id : Z) (platform : option PlatformEnum) :
  let settings := fst (get_settings current_user w) in
  let w0 := snd (get_settings current_user w) in
  find_settings (u_id current_user) (db w0) = Some settings /\
  get_settings current_user w0 = (settings, w0) /\
  (find_settings (u_id current_user) (db w) = None ->
   settings = default_settings (u_id current_user)) /\
  s_min_likes settings = min_likes_of (find_settings (u_id current_user) (db w)) /\
  run_scrape_job env job_id user_id platform w0
  = (fst (run_scrape_job env job_id user_id platform w),
     with_user_settings (user_settings (db w0))
       (snd (run_scrape_job env job_id user_id platform w))).
Proof.
  cbv zeta. unfold get_settings.
  destruct (find_settings (u_id current_user) (db w)) as [s|] eqn:E.
  - cbn [fst snd]. rewrite E.
    split; [reflexivity|]. split; [reflexivity|]. split; [discriminate|].
    split; [reflexivity|].
    destruct (run_scrape_job_effect env job_id user_id platform w)
      as (f & new & _ & _ & Hs & _).
    rewrite <- Hs, with_user_settings_same. apply surjective_pairing.
  - cbn [fst snd].
    assert (Hfind : find_settings (u_id current_user)
                      (db (with_user_settings
                             (user_settings (db w) ++ [default_settings (u_id current_user)])
                             w))
                    = Some (default_settings (u_id current_user))).
    { unfold find_settings, first in *. cbn [db user_settings with_user_settings].
      rewrite find_snoc, E. simpl. now rewrite Z.eqb_refl. }
    rewrite Hfind.
    split; [reflexivity|]. split; [reflexivity|]. split; [reflexivity|].
    split; [reflexivity|].
    apply run_scrape_job_settings.
    unfold find_settings, first. cbn [db user_settings with_user_settings].
    rewrite find_snoc.
    destruct (List.find (fun x => s_user_id x =? user_id) (user_settings (db w)))
      as [x|]; [reflexivity|].
    simpl. destruct (u_id current_user =? user_id); reflexivity.
Qed.

(** X26: of the settings of the user, a run reads the floor of likes only:
    with any other table of settings that gives the user of the run the same
    floor (whatever its windows of dates and its floors of views), the run
    returns the same and leaves the same world, that table apart. *)
Theorem run_reads_the_floor_of_likes_only (env : Env) (job_id user_id : Z)
    (platform : option PlatformEnum) (ss : list UserSettings) (w : World) :
  min_likes_of (find_settings user_id (db (with_user_settings ss w)))
    = min_likes_of (find_settings user_id (db w)) ->
  run_scrape_job env job_id user_id platform (with_user_settings ss w)
  = (fst (run_scrape_job env job_id user_id platform w),
     with_user_settings ss (snd (run_scrape_job env job_id user_id platform w))).
Proof. apply run_scrape_job_settings. Qed.

Lemma run_reads_the_floor_of_likes_only_witness :
  let ss := [{| s_user_id := 1; s_min_likes := 1000; s_min_views := 0;
                s_date_filter := "today" |}] in
  videos (db (snd (run_scrape_job Sample.env 1 1 None (with_user_settings ss Sample.world))))
  = videos (db (snd (run_scrape_job Sample.env 1 1 None Sample.world))).
Proof.
  cbv zeta.
  rewrite (run_reads_the_floor_of_likes_only Sample.env 1 1 None
             [{| s_user_id := 1; s_min_likes := 1000; s_min_views := 0;
                 s_date_filter := "today" |}] Sample.world eq_refl).
  reflexivity.
Defined.
